(** * Meeting chatbot: context retrieval and confidence scoring

    A shallow embedding of [meeting-chatbot/app/chatbot.py] (class
    [MeetingChatbot]), of the provider registry of
    [meeting-chatbot/app/ai_handlers.py] (class [AIProvider]) and of the
    one setting of [meeting-chatbot/app/config.py] the chatbot reads; and,
    further on, of the handlers of [app/ai_handlers.py], of
    [app/summary_generator.py], of the writes of [app/database.py] and of
    the endpoints of [app/main.py] that search, upload and update.

    Conventions of the embedding.
    - A Python [str] is a [string] with one character for each code point,
      so that [String.length] is [len] and a prefix is a slice. The code
      points are those below 256, and the character classes ([str.lower],
      [str.isspace], the regular expression class [\w]) are the ones Python
      has on them, accented letters included; a [str] with a code point
      above 255 has no counterpart here. A character outside ASCII is
      written by its code, [ascii_of_nat 233] for U+00E9: a string literal
      typed with it holds the bytes of its UTF-8 form, which are other
      characters.
    - A record fetched from the store is a Python [dict]; a key that may be
      missing is an [option] field, read with the default the source gives
      to [dict.get].
    - The store ([app.database.db]) and the two provider handlers are
      collaborators: the store is a record of functions (its methods catch
      their own exceptions and return [None] or [[]]), a handler is a
      function that returns text or raises.
    - [relevance_score] is the quotient of two list lengths; the records
      carry it as the exact rational [score]. Binary64 division is
      correctly rounded, hence monotone, and two quotients with the same
      denominator below [2^53] differ by more than a rounding error, so the
      scores of one query compare in Python as their rationals do;
      [score_float] is the binary64 value itself.
    - The confidence is a binary64 float ([PrimFloat]), computed with the
      operations Python uses.
    - Every method of the chatbot wraps its body in [try ... except]. On
      records of the shape above nothing in the helpers raises, so their
      handlers are not reached; the provider call of [ask_question] can
      raise, and its handler is part of the embedding. *)

From Stdlib Require Import Bool Arith ZArith QArith Lia List Ascii String.
From Stdlib Require Import Permutation Sorted DecimalString Floats.
Import ListNotations.

Set Warnings "-inexact-float".

Local Open Scope string_scope.
Local Open Scope list_scope.

(** ** Python string primitives *)

Module PyStr.

(** The code point is between [lo] and [hi]. *)
Definition between (lo hi : nat) (c : ascii) : bool :=
  let n := nat_of_ascii c in (lo <=? n)%nat && (n <=? hi)%nat.

(** The characters that [str.lower] changes: A to Z and the capitals
    U+00C0 to U+00DE but for the multiplication sign U+00D7. *)
Definition is_upper (c : ascii) : bool :=
  between 65 90 c || between 192 214 c || between 216 222 c.

(** The other letters: a to z, the ordinal indicators U+00AA and U+00BA,
    the micro sign U+00B5 and U+00DF to U+00FF but for the division sign
    U+00F7. *)
Definition is_lower (c : ascii) : bool :=
  between 97 122 c || between 170 170 c || between 181 181 c
  || between 186 186 c || between 223 246 c || between 248 255 c.

(** The digits and the other numeric characters: 0 to 9, the superscripts
    U+00B2, U+00B3 and U+00B9 and the fractions U+00BC to U+00BE. *)
Definition is_digit (c : ascii) : bool :=
  between 48 57 c || between 178 179 c || between 185 185 c
  || between 188 190 c.

(** [\w] in a pattern on [str]: what [str.isalnum] accepts, and the
    underscore. *)
Definition is_word (c : ascii) : bool :=
  is_upper c || is_lower c || is_digit c || (nat_of_ascii c =? 95)%nat.

(** [str.isspace] on one character, which is also what [str.split] and
    [str.strip] take for white space: TAB, LF, VT, FF, CR, the separators
    FS, GS, RS, US, the blank, the next line U+0085 and the no-break space
    U+00A0. *)
Definition is_space (c : ascii) : bool :=
  between 9 13 c || between 28 32 c || between 133 133 c
  || between 160 160 c.

(** [str.lower] on one character: a capital is 32 below its small
    letter. *)
Definition lower_char (c : ascii) : ascii :=
  if is_upper c then ascii_of_nat (nat_of_ascii c + 32) else c.

(** [s.lower()] *)
Fixpoint lower (s : string) : string :=
  match s with
  | EmptyString => EmptyString
  | String c s' => String (lower_char c) (lower s')
  end.

(** [sub in s] *)
Fixpoint contains (sub s : string) : bool :=
  prefix sub s ||
  match s with
  | EmptyString => false
  | String _ s' => contains sub s'
  end.

Definition flush (cur : string) : list string :=
  match cur with
  | EmptyString => []
  | _ => [cur]
  end.

(** The maximal runs of characters that satisfy [p], left to right; [cur]
    is the run being read. *)
Fixpoint runs (p : ascii -> bool) (s : string) (cur : string) : list string :=
  match s with
  | EmptyString => flush cur
  | String c s' =>
      if p c then runs p s' (cur ++ String c EmptyString)
      else flush cur ++ runs p s' EmptyString
  end.

(** [s.split()]: the maximal runs of characters that are not white space. *)
Definition split (s : string) : list string :=
  runs (fun c => negb (is_space c)) s EmptyString.

(** [re.findall(r'\b\w+\b', s)]: a match starts at a word boundary, takes
    word characters greedily and ends at a word boundary, so the matches
    are the maximal runs of word characters. *)
Definition findall_words (s : string) : list string :=
  runs is_word s EmptyString.

(** [re.findall(r'\b\w{3,}\b', s)]: inside a run no position is a word
    boundary, so a run of fewer than three word characters gives no match
    and a longer one is matched whole. *)
Definition findall_words3 (s : string) : list string :=
  filter (fun w => (3 <=? String.length w)%nat) (findall_words s).

Fixpoint lstrip (s : string) : string :=
  match s with
  | EmptyString => EmptyString
  | String c s' => if is_space c then lstrip s' else s
  end.

Fixpoint rstrip (s : string) : string :=
  match s with
  | EmptyString => EmptyString
  | String c s' =>
      match rstrip s' with
      | EmptyString => if is_space c then EmptyString else String c EmptyString
      | r => String c r
      end
  end.

(** [s.strip()] *)
Definition strip (s : string) : string := lstrip (rstrip s).

(** [sep.join(l)] *)
Definition join (sep : string) (l : list string) : string :=
  String.concat sep l.

(** [s[:n]] for a non-negative [n] *)
Definition take (n : nat) (s : string) : string := substring 0 n s.

(** [str(i)] for a non-negative integer *)
Definition of_nat (n : nat) : string :=
  NilEmpty.string_of_uint (Nat.to_uint n).

(** Truth value of a string: the empty string is false. *)
Definition truthy (s : string) : bool :=
  match s with
  | EmptyString => false
  | _ => true
  end.

End PyStr.

(** [l[:k]] for a Python integer [k]: a negative [k] counts from the end. *)
Definition py_slice_to {A : Type} (k : Z) (l : list A) : list A :=
  if (0 <=? k)%Z then firstn (Z.to_nat k) l
  else firstn (Z.to_nat (Z.of_nat (List.length l) + k)) l.

(** [d.get(key, default)] *)
Definition get {A : Type} (field : option A) (default : A) : A :=
  match field with
  | Some v => v
  | None => default
  end.

(** ** Python numbers *)

(** The float of a length. *)
Definition float_of_nat (n : nat) : float :=
  of_uint63 (Uint63.of_Z (Z.of_nat n)).

(** [overlap / len(question_terms)] on Python integers: the float nearest
    to the quotient (for lengths below [2^53], which are floats). *)
Definition true_div (a b : nat) : float :=
  (float_of_nat a / float_of_nat b)%float.

(** [min(a, b)]: the second argument is taken when it is smaller. *)
Definition py_min (a b : float) : float :=
  if (b <? a)%float then b else a.

(** The integer nearest to [num / den], a tie going to the even one. *)
Definition round_half_even (num den : Z) : Z :=
  let q := (num / den)%Z in
  let r := (num mod den)%Z in
  match (2 * r ?= den)%Z with
  | Lt => q
  | Gt => (q + 1)%Z
  | Eq => if Z.even q then q else (q + 1)%Z
  end.

(** [round(x, 2)]: Python rounds the exact value of [x] to the nearest
    multiple of [1/100] (a tie to the even one) and returns the float
    nearest to that decimal; a float without fractional bits is returned
    as it is. The number of hundredths is below [2^53] for [|x| < 2^46],
    so that its quotient by [100] is that nearest float. *)
Definition py_round2 (x : float) : float :=
  match Prim2SF x with
  | S754_finite s m e =>
      if (0 <=? e)%Z then x
      else
        let k := round_half_even (Zpos m * 100) (2 ^ (- e)) in
        let r := (of_uint63 (Uint63.of_Z k) / 100)%float in
        if s then (- r)%float else r
  | _ => x
  end.

(** [lo <= x <= hi] *)
Definition in_range (lo hi x : float) : bool :=
  ((lo <=? x) && (x <=? hi))%float.

(** ** Data model *)

(** A document of the [documents] collection, as the store returns it. *)
Record document := mkDocument {
  doc_id : option string;
  doc_oid : option string;           (* the store's own '_id', as text *)
  doc_title : option string;
  doc_content : option string;
  doc_category : option string;
  doc_tags : option (list string);
  doc_relevance_score : option Q
}.

Record action_item := mkActionItem {
  task : option string;
  assignee : option string;
  due_date : option string
}.

(** A record of the [meeting_summaries] collection; [mtg_date] is the text
    that the date is rendered to. *)
Record meeting := mkMeeting {
  meeting_id : option string;
  mtg_title : option string;
  mtg_date : option string;
  mtg_participants : option (list string);
  mtg_summary : option string;
  mtg_key_points : option (list string);
  mtg_action_items : option (list action_item);
  mtg_decisions : option (list string);
  mtg_tags : option (list string);
  mtg_relevance_score : option Q
}.

(** [models.ChatQuery] *)
Record ChatQuery := mkChatQuery {
  question : string;
  q_meeting_id : option string;
  q_doc_id : option string;
  q_ai_provider : string;
  context_days : option Z
}.

(** [config.Settings], the field the chatbot reads. *)
Record Settings := mkSettings {
  MAX_CONTEXT_DOCUMENTS : Z
}.

(** The value of [MAX_CONTEXT_DOCUMENTS] when the environment does not set
    it. *)
Definition default_settings : Settings := mkSettings 10.

(** The store methods the chatbot calls. *)
Record Database := mkDatabase {
  get_document_by_id : string -> option document;
  get_meeting_by_id : string -> option meeting;
  search_documents_text : string -> Z -> list document;
  get_recent_meetings : Z -> Z -> list meeting
}.

(** ** Relevance search *)

(** [sum(1 for keyword in keywords if keyword in content_lower)] *)
Definition count_matches (keywords : list string) (content_lower : string) : nat :=
  List.length (filter (fun keyword => PyStr.contains keyword content_lower) keywords).

(** [matches / len(keywords) if keywords else 0] *)
Definition score (keywords : list string) (content_lower : string) : Q :=
  match keywords with
  | [] => 0
  | _ => Z.of_nat (count_matches keywords content_lower)
         # Pos.of_nat (List.length keywords)
  end.

(** The binary64 value of the same quotient, which is what Python stores
    in [relevance_score]. *)
Definition score_float (keywords : list string) (content_lower : string) : float :=
  match keywords with
  | [] => 0%float
  | _ => true_div (count_matches keywords content_lower) (List.length keywords)
  end.

(** [f"{doc.get('title', '')} {doc.get('content', '')} {' '.join(doc.get('tags', []))}"] *)
Definition document_text (doc : document) : string :=
  get (doc_title doc) "" ++ " " ++ get (doc_content doc) "" ++ " "
  ++ PyStr.join " " (get (doc_tags doc) []).

Definition meeting_text (m : meeting) : string :=
  get (mtg_title m) "" ++ " " ++ get (mtg_summary m) "" ++ " "
  ++ PyStr.join " " (get (mtg_tags m) []).

Definition set_doc_score (doc : document) (s : Q) : document :=
  mkDocument (doc_id doc) (doc_oid doc) (doc_title doc) (doc_content doc)
             (doc_category doc) (doc_tags doc) (Some s).

Definition set_mtg_score (m : meeting) (s : Q) : meeting :=
  mkMeeting (meeting_id m) (mtg_title m) (mtg_date m) (mtg_participants m)
            (mtg_summary m) (mtg_key_points m) (mtg_action_items m)
            (mtg_decisions m) (mtg_tags m) (Some s).

(** The keywords of the two searches. *)
Definition document_keywords (q : ChatQuery) : list string :=
  PyStr.findall_words3 (PyStr.lower (question q)).

Definition meeting_keywords (q : ChatQuery) : list string :=
  PyStr.findall_words (PyStr.lower (question q)).

(** [list.sort(key=key, reverse=True)]: Python's sort is stable, also with
    [reverse=True]; the result is the one list that holds the same elements
    by decreasing key with equal keys in their input order. It is computed
    here by insertion from the right: an element goes in front of the first
    element whose key is not larger. *)
Section Sort.
Context {A : Type} (key : A -> Q).

Fixpoint insert_desc (x : A) (l : list A) : list A :=
  match l with
  | [] => [x]
  | y :: l' =>
      if Qle_bool (key y) (key x) then x :: l else y :: insert_desc x l'
  end.

Definition sort_desc (l : list A) : list A :=
  fold_right insert_desc [] l.

(** [x] may stand before [y] in a list sorted by decreasing key. *)
Definition before (x y : A) : Prop := (key y <= key x)%Q.

(** The records of one score, in the order of the list. *)
Definition with_score (s : Q) (l : list A) : list A :=
  filter (fun x => Qeq_bool (key x) s) l.
End Sort.

(** [x.get('relevance_score', 0)] *)
Definition doc_key (d : document) : Q := get (doc_relevance_score d) 0.
Definition mtg_key (m : meeting) : Q := get (mtg_relevance_score m) 0.

(** [doc.get('doc_id') or str(doc.get('_id', ''))] *)
Definition dedup_key (doc : document) : string :=
  match doc_id doc with
  | Some id => if PyStr.truthy id then id else get (doc_oid doc) ""
  | None => get (doc_oid doc) ""
  end.

(** The loop that keeps the first document of each id; [seen] is the set of
    ids met so far. *)
Fixpoint unique_by_id (seen : list string) (docs : list document) : list document :=
  match docs with
  | [] => []
  | doc :: rest =>
      let id := dedup_key doc in
      if existsb (String.eqb id) seen then unique_by_id seen rest
      else doc :: unique_by_id (id :: seen) rest
  end.

(** [all_docs]: the store is asked for each of the first five keywords. *)
Definition all_docs (db : Database) (keywords : list string) : list document :=
  flat_map (fun keyword => search_documents_text db keyword 10)
           (py_slice_to 5 keywords).

Definition score_document (keywords : list string) (doc : document) : document :=
  set_doc_score doc (score keywords (PyStr.lower (document_text doc))).

(** [unique_docs] after the scoring loop and the sort. *)
Definition sorted_documents (db : Database) (q : ChatQuery) : list document :=
  let keywords := document_keywords q in
  let unique_docs := unique_by_id [] (all_docs db keywords) in
  sort_desc doc_key (map (score_document keywords) unique_docs).

(** [MeetingChatbot._find_relevant_documents]. Nothing in the body raises on
    records of the shape above, so the handler that returns [[]] is not
    reached. *)
Definition _find_relevant_documents
    (settings : Settings) (db : Database) (q : ChatQuery) : list document :=
  py_slice_to (MAX_CONTEXT_DOCUMENTS settings) (sorted_documents db q).

(** [query.context_days or 30] *)
Definition lookback_days (q : ChatQuery) : Z :=
  match context_days q with
  | Some d => if (d =? 0)%Z then 30%Z else d
  | None => 30%Z
  end.

(** The loop over [recent_meetings]: a meeting is kept, with its score, when
    at least one keyword occurs in it. *)
Fixpoint select_meetings (keywords : list string) (recent : list meeting) : list meeting :=
  match recent with
  | [] => []
  | m :: rest =>
      let content_lower := PyStr.lower (meeting_text m) in
      if (0 <? count_matches keywords content_lower)%nat
      then set_mtg_score m (score keywords content_lower)
           :: select_meetings keywords rest
      else select_meetings keywords rest
  end.

(** [relevant_meetings] after the sort. *)
Definition sorted_meetings (db : Database) (q : ChatQuery) : list meeting :=
  let keywords := meeting_keywords q in
  let recent_meetings := get_recent_meetings db (lookback_days q) 50 in
  sort_desc mtg_key (select_meetings keywords recent_meetings).

(** [MeetingChatbot._find_relevant_meetings] *)
Definition _find_relevant_meetings (db : Database) (q : ChatQuery) : list meeting :=
  py_slice_to 10 (sorted_meetings db q).

(** ** Context assembly *)

Definition nl : string := String (ascii_of_nat 10) EmptyString.

(** The line that separates two renderings. *)
Definition separator : string := nl ++ nl ++ "---" ++ nl ++ nl.

(** [enumerate(l, start)] *)
Fixpoint enumerate {A : Type} (start : nat) (l : list A) : list (nat * A) :=
  match l with
  | [] => []
  | x :: l' => (start, x) :: enumerate (S start) l'
  end.

Definition render_document (i : nat) (doc : document) : string :=
  PyStr.strip
    (nl ++ "Document " ++ PyStr.of_nat i ++ ": "
        ++ get (doc_title doc) "Untitled Document" ++ nl
     ++ "Category: " ++ get (doc_category doc) "General" ++ nl
     ++ "Tags: " ++ PyStr.join ", " (get (doc_tags doc) []) ++ nl
     ++ "Content: " ++ get (doc_content doc) "No content available" ++ nl).

(** [MeetingChatbot._format_document_context] *)
Definition _format_document_context (documents : list document) : string :=
  match documents with
  | [] => ""
  | _ => PyStr.join separator
           (map (fun p => render_document (fst p) (snd p)) (enumerate 1 documents))
  end.

Definition render_action_item (item : action_item) : string :=
  get (task item) "Unknown task" ++ " (Assigned to: "
  ++ get (assignee item) "Unassigned" ++ ", Due: "
  ++ get (due_date item) "No due date" ++ ")".

(** [MeetingChatbot._format_action_items] *)
Definition _format_action_items (action_items : list action_item) : string :=
  match action_items with
  | [] => "No action items"
  | _ => PyStr.join "; " (map render_action_item action_items)
  end.

(** The indentation of the template of a meeting. *)
Definition indent : string := "            ".

Definition render_meeting (i : nat) (m : meeting) : string :=
  PyStr.strip
    (nl ++ indent ++ "Meeting " ++ PyStr.of_nat i ++ ": "
        ++ get (mtg_title m) "Untitled" ++ nl
     ++ indent ++ "Date: " ++ get (mtg_date m) "Unknown" ++ nl
     ++ indent ++ "Participants: "
        ++ PyStr.join ", " (get (mtg_participants m) []) ++ nl
     ++ indent ++ "Summary: " ++ get (mtg_summary m) "No summary available" ++ nl
     ++ indent ++ "Key Points: "
        ++ PyStr.join ", " (get (mtg_key_points m) []) ++ nl
     ++ indent ++ "Action Items: "
        ++ _format_action_items (get (mtg_action_items m) []) ++ nl
     ++ indent ++ "Decisions: "
        ++ PyStr.join ", " (get (mtg_decisions m) []) ++ nl
     ++ indent).

(** [MeetingChatbot._format_meeting_context] *)
Definition _format_meeting_context (meetings : list meeting) : string :=
  match meetings with
  | [] => "No meeting data available."
  | _ => PyStr.join separator
           (map (fun p => render_meeting (fst p) (snd p)) (enumerate 1 meetings))
  end.

(** [if query.doc_id:]: an id that is absent or empty is false. *)
Definition given (id : option string) : bool :=
  match id with
  | Some s => PyStr.truthy s
  | None => false
  end.

Definition nonempty {A : Type} (l : list A) : bool :=
  match l with
  | [] => false
  | _ => true
  end.

(** [context_parts] of [_build_context] *)
Definition context_parts
    (settings : Settings) (db : Database) (q : ChatQuery) : list string :=
  (if given (q_doc_id q) then
     match get_document_by_id db (get (q_doc_id q) "") with
     | Some document => [_format_document_context [document]]
     | None => []
     end
   else [])
  ++
  (if given (q_meeting_id q) then
     match get_meeting_by_id db (get (q_meeting_id q) "") with
     | Some meeting => [_format_meeting_context [meeting]]
     | None => []
     end
   else [])
  ++
  (if negb (given (q_doc_id q)) && negb (given (q_meeting_id q)) then
     let relevant_docs := _find_relevant_documents settings db q in
     let relevant_meetings := _find_relevant_meetings db q in
     (if nonempty relevant_docs
      then [_format_document_context relevant_docs] else [])
     ++
     (if nonempty relevant_meetings
      then [_format_meeting_context relevant_meetings] else [])
   else []).

(** [MeetingChatbot._build_context] *)
Definition _build_context
    (settings : Settings) (db : Database) (q : ChatQuery) : string :=
  match context_parts settings db q with
  | [] => ""
  | parts => PyStr.join separator parts
  end.

(** ** Sources *)

(** [A[:200] + "..." if len(A) > 200 else A] *)
Definition preview (text : string) : string :=
  if (200 <? String.length text)%nat then PyStr.take 200 text ++ "..."
  else text.

(** The two shapes of an entry of [ChatResponse.sources]. *)
Inductive source :=
| SourceDocument (doc_id title category : option string) (content_preview : string)
| SourceMeeting (meeting_id title date : option string) (summary : string).

(** [MeetingChatbot._format_source_document] *)
Definition _format_source_document (document : document) : source :=
  SourceDocument (doc_id document) (doc_title document) (doc_category document)
                 (preview (get (doc_content document) "")).

(** [MeetingChatbot._format_source_meeting] *)
Definition _format_source_meeting (meeting : meeting) : source :=
  SourceMeeting (meeting_id meeting) (mtg_title meeting) (mtg_date meeting)
                (preview (get (mtg_summary meeting) "")).

(** [MeetingChatbot._get_source_meetings] *)
Definition _get_source_meetings
    (settings : Settings) (db : Database) (q : ChatQuery) : list source :=
  py_slice_to 5
    ((if given (q_doc_id q) then
        match get_document_by_id db (get (q_doc_id q) "") with
        | Some document => [_format_source_document document]
        | None => []
        end
      else [])
     ++
     (if given (q_meeting_id q) then
        match get_meeting_by_id db (get (q_meeting_id q) "") with
        | Some meeting => [_format_source_meeting meeting]
        | None => []
        end
      else [])
     ++
     (if negb (given (q_doc_id q)) && negb (given (q_meeting_id q)) then
        map _format_source_document
            (py_slice_to 3 (_find_relevant_documents settings db q))
        ++ map _format_source_meeting
               (py_slice_to 3 (_find_relevant_meetings db q))
      else [])).

(** ** Providers *)

(** What a handler or the registry raises; [str(e)] is the message. *)
Inductive exn :=
| ValueError (msg : string)
| ProviderError (msg : string).

Definition str_exn (e : exn) : string :=
  match e with
  | ValueError msg => msg
  | ProviderError msg => msg
  end.

Inductive result (A : Type) :=
| Ok (a : A)
| Raise (e : exn).
Arguments Ok {A} a.
Arguments Raise {A} e.

(** [generate_response(prompt, context)] of a handler: the call to the
    remote model returns text or raises. *)
Definition handler := string -> string -> result string.

(** [ai_handlers.AIProvider]: a handler is [None] when its key is not set
    or its construction failed. *)
Record AIProvider := mkAIProvider {
  openai_handler : option handler;
  gemini_handler : option handler
}.

Definition present {A : Type} (o : option A) : bool :=
  match o with
  | Some _ => true
  | None => false
  end.

(** [AIProvider.get_available_providers] *)
Definition get_available_providers (ai : AIProvider) : list string :=
  (if present (openai_handler ai) then ["openai"] else [])
  ++ (if present (gemini_handler ai) then ["gemini"] else []).

Definition unavailable (provider : string) : exn :=
  ValueError ("Unsupported or unavailable AI provider: " ++ provider).

(** [AIProvider.get_response] *)
Definition get_response
    (ai : AIProvider) (prompt context provider : string) : result string :=
  match (if provider =? "openai" then openai_handler ai else None) with
  | Some openai => openai prompt context
  | None =>
      match (if provider =? "gemini" then gemini_handler ai else None) with
      | Some gemini => gemini prompt context
      | None => Raise (unavailable provider)
      end
  end.

(** ** Confidence *)

Definition uncertainty_phrases : list string :=
  [ "i don't know"; "i'm not sure"; "no information";
    "not mentioned"; "not specified"; "not available" ].

(** [set(text.split())], as the list of its elements. *)
Definition terms (text : string) : list string :=
  nodup string_dec (PyStr.split text).

(** [len(question_terms.intersection(answer_terms))] *)
Definition overlap (question_terms answer_terms : list string) : nat :=
  List.length
    (filter (fun t => existsb (String.eqb t) answer_terms) question_terms).

(** [MeetingChatbot._calculate_confidence] *)
Definition _calculate_confidence (answer question : string) : float :=
  let answer_lower := PyStr.lower answer in
  let question_lower := PyStr.lower question in
  if existsb (fun phrase => PyStr.contains phrase answer_lower) uncertainty_phrases
  then 0.2%float
  else
    let question_terms := terms question_lower in
    let answer_terms := terms answer_lower in
    let overlap := overlap question_terms answer_terms in
    let term_similarity :=
      if nonempty question_terms
      then true_div overlap (List.length question_terms)
      else 0%float in
    let base_confidence := 0.7%float in
    let confidence := py_min 0.95 (base_confidence + term_similarity * 0.3) in
    py_round2 confidence.

(** ** Answering *)

(** [models.ChatResponse] *)
Record ChatResponse := mkChatResponse {
  answer : string;
  sources : list source;
  ai_provider : string;
  confidence : float
}.

(** The provider after the validation that opens [ask_question]. *)
Definition validated_provider (ai : AIProvider) (q : ChatQuery) : string :=
  let available_providers := get_available_providers ai in
  if existsb (String.eqb (q_ai_provider q)) available_providers
  then q_ai_provider q
  else hd "openai" available_providers.

Definition no_context_note : string :=
  nl ++ nl ++ "Note: I don't have specific context from your connected data, so I'm providing a general answer. Please upload documents to the database for more accurate responses based on your data.".

(** The response of the [except] branch of [ask_question]. *)
Definition error_response (e : exn) (provider : string) : ChatResponse :=
  mkChatResponse ("Error processing your question: " ++ str_exn e) []
                 (if PyStr.truthy provider then provider else "openai")
                 0%float.

(** [not context or context.strip() == ""] *)
Definition blank (context : string) : bool :=
  negb (PyStr.truthy context) || (PyStr.strip context =? "").

(** [MeetingChatbot.ask_question] *)
Definition ask_question
    (settings : Settings) (db : Database) (ai : AIProvider) (q : ChatQuery)
    : ChatResponse :=
  let provider := validated_provider ai q in
  let context := _build_context settings db q in
  if blank context then
    match get_response ai (question q ++ no_context_note) "" provider with
    | Ok answer => mkChatResponse answer [] provider 0.3%float
    | Raise e => error_response e provider
    end
  else
    match get_response ai (question q) context provider with
    | Ok answer =>
        mkChatResponse answer (_get_source_meetings settings db q) provider
                       (_calculate_confidence answer (question q))
    | Raise e => error_response e provider
    end.

(** [x] occurs in [s]. *)
Definition occurs_in (x s : string) : Prop :=
  exists a b : string, s = (a ++ x ++ b)%string.

(** [text] has a character that is not white space. *)
Definition solid (text : string) : Prop := PyStr.rstrip text <> "".

(** ** Binary64 bounds

    The floats 0.7 and 0.95 have exponent [-53] and the mantissas below;
    the predicates read a float through its specification
    ([spec_float]). *)

Definition m07 : positive := 6305039478318694.
Definition m095 : positive := 8556839292003942.

(** Not a number, or at least the float 0.7. *)
Definition ge07 (x : spec_float) : bool :=
  match x with
  | S754_nan => true
  | S754_infinity false => true
  | S754_finite false m e =>
      (-53 <? e)%Z || ((e =? -53)%Z && (m07 <=? m)%positive)
  | _ => false
  end.

(** Between the floats 0.7 and 0.95. *)
Definition in_band (x : spec_float) : bool :=
  match x with
  | S754_finite false m e =>
      (e =? -53)%Z && (m07 <=? m)%positive && (m <=? m095)%positive
  | _ => false
  end.

(** Of positive sign, not zero, and at most the float 1. *)
Definition le1 (x : spec_float) : bool :=
  match x with
  | S754_finite false m e =>
      (e <? -52)%Z || ((e =? -52)%Z && (Z.pos m <=? 2 ^ 52)%Z)
  | _ => false
  end.

(** Not a number, or of positive sign. *)
Definition nn (x : spec_float) : bool :=
  match x with
  | S754_zero false => true
  | S754_infinity false => true
  | S754_nan => true
  | S754_finite false _ _ => true
  | _ => false
  end.

(** The second half of [binary_round_aux]: the rounded mantissa is
    normalised again and checked against the largest exponent. *)
Definition finish (sx : bool) (m : Z) (e : Z) : spec_float :=
  let '(mrs, e') := shr_fexp prec emax m e loc_Exact in
  match shr_m mrs with
  | Z0 => S754_zero sx
  | Zpos m' =>
      if (e' <=? emax - prec)%Z then S754_finite sx m' e' else S754_infinity sx
  | _ => S754_nan
  end.

(** ** Examples

    The stores, records, queries and providers of the examples. *)

(** The query of [Database.search_documents_text] of [app/database.py]:
    a document matches a text when its title or its content matches it as
    a regular expression, letter case aside, or when one of its tags is
    the text in lower case. The texts searched are keywords, made of word
    characters, which a regular expression takes as they are. *)
Definition matches_text (search_text : string) (doc : document) : bool :=
  PyStr.contains (PyStr.lower search_text) (PyStr.lower (get (doc_title doc) ""))
  || PyStr.contains (PyStr.lower search_text) (PyStr.lower (get (doc_content doc) ""))
  || existsb (String.eqb (PyStr.lower search_text)) (get (doc_tags doc) []).

(** A store in memory: it holds a list of documents and a list of
    meetings and answers the way [app/database.py] asks MongoDB to. *)
Definition has_id (id : string) (field : option string) : bool :=
  match field with
  | Some s => s =? id
  | None => false
  end.

Definition memory_store (docs : list document) (meetings : list meeting) : Database :=
  mkDatabase
    (fun id => find (fun d => has_id id (doc_id d)) docs)
    (fun id => find (fun m => has_id id (meeting_id m)) meetings)
    (fun search_text limit => py_slice_to limit (filter (matches_text search_text) docs))
    (fun days limit => py_slice_to limit meetings).

Definition empty_store : Database := memory_store [] [].

(** The query and the document of the example of the specification. *)
Definition mongo_query : ChatQuery :=
  mkChatQuery "What is MongoDB used for?" None None "gemini" (Some 30%Z).

Definition mongo_doc : document :=
  mkDocument (Some "DOC-001") None (Some "Overview")
             (Some "MongoDB is a NoSQL database...") (Some "notes")
             (Some ["nosql"]) None.

(** A text of [n] times the letter a. *)
Fixpoint letters (n : nat) : string :=
  match n with
  | O => ""
  | S n' => String "a" (letters n')
  end.

Definition long_doc : document :=
  mkDocument (Some "DOC-002") None (Some "Report") (Some (letters 201))
             None None None.

Definition long_meeting : meeting :=
  mkMeeting (Some "MTG-002") (Some "Review") None None (Some (letters 201))
            None None None None None.

Definition with_content (doc : document) (text : string) : document :=
  mkDocument (doc_id doc) (doc_oid doc) (doc_title doc) (Some text)
             (doc_category doc) (doc_tags doc) (doc_relevance_score doc).

Definition with_summary (m : meeting) (text : string) : meeting :=
  mkMeeting (meeting_id m) (mtg_title m) (mtg_date m) (mtg_participants m)
            (Some text) (mtg_key_points m) (mtg_action_items m)
            (mtg_decisions m) (mtg_tags m) (mtg_relevance_score m).

(** A document and a query without a word in common. *)
Definition stray_doc : document :=
  mkDocument (Some "DOC-007") None (Some "Minutes")
             (Some "Agenda of the week") None None None.


(** Handlers and registries of the examples. *)
Definition echo_handler : handler :=
  fun prompt context => Ok ("Answer to: " ++ prompt)%string.

Definition gemini_only : AIProvider := mkAIProvider None (Some echo_handler).

Definition no_provider : AIProvider := mkAIProvider None None.

Definition openai_query : ChatQuery :=
  mkChatQuery "What is MongoDB used for?" None None "openai" None.

(** A handler whose call to the remote model fails. *)
Definition failing_handler : handler :=
  fun prompt context => Raise (ProviderError "quota exceeded").

Definition gemini_down : AIProvider := mkAIProvider None (Some failing_handler).

(** ** Further definitions

    What the properties after the claims speak of. *)

(** Every character of [s] satisfies [p]. *)
Fixpoint all_chars (p : ascii -> bool) (s : string) : bool :=
  match s with
  | EmptyString => true
  | String c s' => p c && all_chars p s'
  end.

Definition not_upper (c : ascii) : bool := negb (PyStr.is_upper c).

Definition not_word (c : ascii) : bool := negb (PyStr.is_word c).

(** A question of punctuation only. *)
Definition wordless_query : ChatQuery :=
  mkChatQuery "?!" None None "gemini" None.

(** [s] starts with a character that is not white space. *)
Definition starts_solid (s : string) : bool :=
  match s with
  | EmptyString => false
  | String c _ => negb (PyStr.is_space c)
  end.

(** A store with the records of [memory_store [mongo_doc] []] under their
    ids and other answers to the searches. *)
Definition other_searches : Database :=
  mkDatabase (get_document_by_id (memory_store [mongo_doc] []))
             (get_meeting_by_id (memory_store [mongo_doc] []))
             (fun _ _ => [stray_doc]) (fun _ _ => [long_meeting]).

Definition by_id_query : ChatQuery :=
  mkChatQuery "What is MongoDB used for?" None (Some "DOC-001") "gemini" None.

Definition by_id_query' : ChatQuery :=
  mkChatQuery "Who wrote it?" None (Some "DOC-001") "openai" (Some 7%Z).

(** ** The search endpoint

    [search_meetings] of [app/main.py], the handler of [GET /search]. *)

(** An entry of its results. *)
Record search_hit := mkSearchHit {
  hit_meeting_id : option string;
  hit_title : option string;
  hit_date : option string;
  summary_preview : string
}.

(** [A[:100] + "..." if len(A) > 100 else A] *)
Definition preview100 (text : string) : string :=
  if (100 <? String.length text)%nat then PyStr.take 100 text ++ "..."
  else text.

(** [f"{meeting.get('title', '')} {meeting.get('summary', '')}"] *)
Definition search_content (meeting : meeting) : string :=
  get (mtg_title meeting) "" ++ " " ++ get (mtg_summary meeting) "".

(** [all(term in content_lower for term in search_terms)] *)
Definition all_terms_in (search_terms : list string) (content_lower : string) : bool :=
  forallb (fun term => PyStr.contains term content_lower) search_terms.

Definition search_hit_of (meeting : meeting) : search_hit :=
  mkSearchHit (meeting_id meeting) (mtg_title meeting) (mtg_date meeting)
              (preview100 (get (mtg_summary meeting) "")).

(** The hits before the cut to [limit]. *)
Definition search_hits (db : Database) (q : string) (days : Z) : list search_hit :=
  let meetings := get_recent_meetings db days 50 in
  let search_terms := PyStr.split (PyStr.lower q) in
  map search_hit_of
      (filter (fun meeting =>
                 all_terms_in search_terms (PyStr.lower (search_content meeting)))
              meetings).

(** The response: the query and the results. *)
Definition search_meetings (db : Database) (q : string) (limit days : Z)
    : string * list search_hit :=
  (q, py_slice_to limit (search_hits db q days)).

(** Two meetings of the examples and a store that holds them. *)
Definition budget_meeting : meeting :=
  mkMeeting (Some "MTG-010") (Some "Budget review") None None
            (Some "The team agreed on the budget for next year.")
            None None None None None.

Definition hiring_meeting : meeting :=
  mkMeeting (Some "MTG-011") (Some "Hiring") None None
            (Some "Two offers were made; the budget allows one more.")
            None None None None None.

Definition meetings_store : Database :=
  memory_store [] [budget_meeting; hiring_meeting].

(** ** Summaries

    [AIProvider.generate_meeting_summary] of [app/ai_handlers.py], the two
    writes of [app/database.py], [SummaryGenerator] of
    [app/summary_generator.py] and the two endpoints of [app/main.py] that
    call it. *)

(** The values held by the dictionaries of meeting data. *)
#[warnings="-register-all"] Inductive value :=
| VNone
| VStr (s : string)
| VInt (n : Z)
| VTime (t : Z)                        (* a [datetime] *)
| VList (l : list value)
| VDict (d : list (string * value)).

(** A [dict] with string keys, in insertion order. *)
Definition dict := list (string * value).

(** [k in d], with the value *)
Fixpoint dict_lookup (d : dict) (k : string) : option value :=
  match d with
  | [] => None
  | (k', v) :: d' => if k' =? k then Some v else dict_lookup d' k
  end.

(** [d.get(k, default)] *)
Definition dict_get (d : dict) (k : string) (default : value) : value :=
  match dict_lookup d k with
  | Some v => v
  | None => default
  end.

(** [d[k] = v] *)
Fixpoint dict_set (d : dict) (k : string) (v : value) : dict :=
  match d with
  | [] => [(k, v)]
  | (k', v') :: d' =>
      if k' =? k then (k, v) :: d' else (k', v') :: dict_set d' k v
  end.

(** [d.update(e)] *)
Definition dict_update (d e : dict) : dict :=
  fold_left (fun acc kv => dict_set acc (fst kv) (snd kv)) e d.

(** Truth value of an optional dictionary. *)
Definition dict_truthy (d : option dict) : bool :=
  match d with
  | Some (_ :: _) => true
  | _ => false
  end.

(** [generate_summary(transcript)] of the two handlers: the call to the
    remote model returns a dictionary or raises. *)
Record Summarizers := mkSummarizers {
  openai_summary : string -> result dict;
  gemini_summary : string -> result dict
}.

(** [AIProvider.generate_meeting_summary] *)
Definition generate_meeting_summary
    (ai : AIProvider) (sm : Summarizers) (transcript provider : string)
    : result dict :=
  if (provider =? "openai") && present (openai_handler ai)
  then openai_summary sm transcript
  else if (provider =? "gemini") && present (gemini_handler ai)
  then gemini_summary sm transcript
  else Raise (unavailable provider).

(** The collection of meeting summaries, with its state [S]: [update_one]
    returns the number of records modified, [insert_one] the id of the new
    record, or they raise. *)
Record Collection (S : Type) := mkCollection {
  update_one : string -> dict -> S -> result nat * S;
  insert_one : dict -> S -> result string * S
}.
Arguments mkCollection {S} _ _.
Arguments update_one {S} _ _ _ _.
Arguments insert_one {S} _ _ _.

(** The names that the top of [app/database.py] binds, by its imports and
    its definitions. [datetime] is not among them: the module imports it
    inside [get_recent_meetings] and inside [update_document] only, for
    these functions alone. *)
Definition database_globals : list string :=
  [ "AsyncIOMotorClient"; "IndexModel"; "ASCENDING"; "DESCENDING"; "TEXT";
    "settings"; "MeetingSummary"; "logging"; "logger"; "Database"; "db" ].

Definition bound (name : string) (names : list string) : bool :=
  existsb (String.eqb name) names.

(** [Database.update_meeting_summary]. The first statement of its [try]
    reads [datetime.now()]; the method has no import of its own, so the
    name is looked up among the globals of the module, and when it is not
    bound there the statement raises [NameError], which the handler of the
    method catches: it returns [False] and [update_one] is not called.
    [now] is the reading of the clock when there is one. *)
Definition db_update_meeting_summary {S : Type}
    (c : Collection S) (now : Z) (meeting_id : string) (update_data : dict)
    (s : S) : bool * S :=
  if bound "datetime" database_globals then
    let update_data := dict_set update_data "updated_at" (VTime now) in
    match update_one c meeting_id update_data s with
    | (Ok modified_count, s') => ((0 <? modified_count)%nat, s')
    | (Raise _, s') => (false, s')
    end
  else (false, s).

(** [Database.insert_meeting_summary] *)
Definition db_insert_meeting_summary {S : Type}
    (c : Collection S) (meeting_data : dict) (s : S) : result string * S :=
  insert_one c meeting_data s.

(** The fields that [update_meeting_summary] takes from a new summary. *)
Definition regenerated (transcript : string) (ai_result : dict) : dict :=
  [ ("transcript", VStr transcript);
    ("summary", dict_get ai_result "summary" (VStr ""));
    ("key_points", dict_get ai_result "key_points" (VList []));
    ("action_items", dict_get ai_result "action_items" (VList []));
    ("decisions", dict_get ai_result "decisions" (VList []));
    ("tags", dict_get ai_result "tags" (VList [])) ].

(** [SummaryGenerator.update_meeting_summary]; [now] is its reading of
    the clock ([app/summary_generator.py] imports [datetime] at its top)
    and [now_db] the one of the store. *)
Definition update_meeting_summary {S : Type}
    (ai : AIProvider) (sm : Summarizers) (c : Collection S) (now now_db : Z)
    (meeting_id : string) (transcript : option string) (metadata : option dict)
    (ai_provider_name : string) (s : S) : bool * S :=
  let after_transcript :=
    if given transcript then
      match generate_meeting_summary ai sm (get transcript "") ai_provider_name with
      | Ok ai_result =>
          Ok (dict_update [] (regenerated (get transcript "") ai_result))
      | Raise e => Raise e
      end
    else Ok [] in
  match after_transcript with
  | Raise _ => (false, s)
  | Ok update_data =>
      let update_data :=
        if dict_truthy metadata then dict_update update_data (get metadata [])
        else update_data in
      if nonempty update_data then
        let update_data := dict_set update_data "updated_at" (VTime now) in
        db_update_meeting_summary c now_db meeting_id update_data s
      else (false, s)
  end.

(** What an endpoint answers: a body, or an [HTTPException]. *)
Inductive http (A : Type) :=
| Http200 (body : A)
| HttpError (status_code : Z) (detail : string).
Arguments Http200 {A} body.
Arguments HttpError {A} status_code detail.

(** [update_meeting], the handler of [PUT /meetings/{meeting_id}] *)
Definition update_meeting {S : Type}
    (ai : AIProvider) (sm : Summarizers) (c : Collection S) (now now_db : Z)
    (meeting_id : string) (transcript : option string) (ai_provider : string)
    (s : S) : http string * S :=
  if negb (given transcript)
  then (HttpError 400 "Transcript is required for update", s)
  else
    let '(success, s') :=
      update_meeting_summary ai sm c now now_db meeting_id transcript None
                             ai_provider s in
    if negb success
    then (HttpError 404 "Meeting not found or update failed", s')
    else (Http200 "Meeting updated successfully", s').

(** The readings of the clock by [generate_and_store_summary], in the order
    of the calls: for the default id, as text, for the default date and for
    the two time stamps. *)
Record Clock := mkClock {
  id_stamp : string;
  date_now : Z;
  created_now : Z;
  updated_now : Z
}.

(** [meeting_data] of [generate_and_store_summary] *)
Definition meeting_data_of
    (clock : Clock) (transcript : string) (metadata ai_result : dict) : dict :=
  [ ("meeting_id", dict_get metadata "meeting_id" (VStr ("MTG-" ++ id_stamp clock)));
    ("title", dict_get metadata "title" (VStr "Untitled Meeting"));
    ("participants", dict_get metadata "participants" (VList []));
    ("date", dict_get metadata "date" (VTime (date_now clock)));
    ("duration_minutes", dict_get metadata "duration_minutes" (VInt 0));
    ("transcript", VStr transcript);
    ("summary", dict_get ai_result "summary" (VStr ""));
    ("key_points", dict_get ai_result "key_points" (VList []));
    ("action_items", dict_get ai_result "action_items" (VList []));
    ("decisions", dict_get ai_result "decisions" (VList []));
    ("tags", dict_get ai_result "tags" (VList []));
    ("created_at", VTime (created_now clock));
    ("updated_at", VTime (updated_now clock)) ].

(** [SummaryGenerator.generate_and_store_summary]. The driver writes its
    own [_id] into the dictionary it inserts; the assignment that follows
    replaces it by the id as text, so that the dictionary returned is the
    one built here either way. *)
Definition generate_and_store_summary {S : Type}
    (ai : AIProvider) (sm : Summarizers) (c : Collection S) (clock : Clock)
    (transcript : string) (metadata : dict) (ai_provider_name : string)
    (s : S) : result dict * S :=
  match generate_meeting_summary ai sm transcript ai_provider_name with
  | Raise e => (Raise e, s)
  | Ok ai_result =>
      let meeting_data := meeting_data_of clock transcript metadata ai_result in
      match db_insert_meeting_summary c meeting_data s with
      | (Ok meeting_id, s') =>
          (Ok (dict_set meeting_data "_id" (VStr meeting_id)), s')
      | (Raise e, s') => (Raise e, s')
      end
  end.

(** The body of the answer of [POST /meetings/upload]. *)
Record upload_body := mkUploadBody {
  upload_message : string;
  upload_meeting_id : value;
  upload_data : dict
}.

(** [upload_meeting], the handler of [POST /meetings/upload]:
    [participants] is the form field read as JSON, [None] when it could not
    be read, and [now] the reading of the clock for the date. *)
Definition upload_meeting {S : Type}
    (ai : AIProvider) (sm : Summarizers) (c : Collection S) (clock : Clock)
    (now : Z) (transcript title : string) (participants : option value)
    (duration_minutes : Z) (ai_provider : string) (s : S)
    : http upload_body * S :=
  let participants_list := get participants (VList []) in
  let metadata :=
    [ ("title", VStr title);
      ("participants", participants_list);
      ("duration_minutes", VInt duration_minutes);
      ("date", VTime now) ] in
  match generate_and_store_summary ai sm c clock transcript metadata
                                   ai_provider s with
  | (Ok meeting_data, s') =>
      (Http200 (mkUploadBody "Meeting summary generated successfully"
                             (dict_get meeting_data "meeting_id" VNone)
                             meeting_data), s')
  | (Raise e, s') => (HttpError 500 (str_exn e), s')
  end.

(** A collection that keeps the calls it gets, a summary method and a
    clock for the examples. *)
Inductive call :=
| UpdateOne (meeting_id : string) (fields : dict)
| InsertOne (record : dict).

Definition logging_collection (modified_count : nat) : Collection (list call) :=
  mkCollection
    (fun meeting_id fields log =>
       (Ok modified_count, (log ++ [UpdateOne meeting_id fields])%list))
    (fun record log => (Ok "oid-1", (log ++ [InsertOne record])%list)).

Definition budget_summary : dict :=
  [ ("summary", VStr "The budget was agreed.");
    ("tags", VList [VStr "budget"]) ].

Definition fixed_summaries : Summarizers :=
  mkSummarizers (fun _ => Ok budget_summary) (fun _ => Ok budget_summary).

Definition noon : Clock := mkClock "20240101-120000" 1 2 3.

(** ** Updating a document

    [Database.update_document] of [app/database.py] and [update_document]
    of [app/main.py], the handler of [PUT /documents/{doc_id}]. *)

(** [Database.update_document], on the collection of documents; it
    imports [datetime] in its own body. *)
Definition db_update_document {S : Type}
    (c : Collection S) (now : Z) (doc_id : string) (update_data : dict)
    (s : S) : bool * S :=
  let update_data := dict_set update_data "updated_at" (VTime now) in
  match update_one c doc_id update_data s with
  | (Ok modified_count, s') => ((0 <? modified_count)%nat, s')
  | (Raise _, s') => (false, s')
  end.

(** [if field is not None: update_data[k] = field] *)
Definition set_given (field : option string) (k : string) (update_data : dict) : dict :=
  match field with
  | Some text => dict_set update_data k (VStr text)
  | None => update_data
  end.

(** [if field is not None: update_data[k] = json.loads(field)]; [loads]
    is [json.loads], [None] when it raises, and so is the result. *)
Definition set_parsed
    (loads : string -> option value) (field : option string) (k : string)
    (update_data : dict) : option dict :=
  match field with
  | Some text =>
      match loads text with
      | Some v => Some (dict_set update_data k v)
      | None => None
      end
  | None => Some update_data
  end.

Definition update_document {S : Type}
    (loads : string -> option value) (c : Collection S) (now : Z)
    (doc_id : string) (title content category tags metadata : option string)
    (s : S) : http string * S :=
  let update_data := set_given title "title" [] in
  let update_data := set_given content "content" update_data in
  let update_data := set_given category "category" update_data in
  match set_parsed loads tags "tags" update_data with
  | None => (HttpError 400 "Invalid tags format", s)
  | Some update_data =>
      match set_parsed loads metadata "metadata" update_data with
      | None => (HttpError 400 "Invalid metadata format", s)
      | Some update_data =>
          if negb (nonempty update_data)
          then (HttpError 400 "No update data provided", s)
          else
            let '(success, s') := db_update_document c now doc_id update_data s in
            if negb success
            then (HttpError 404 "Document not found or update failed", s')
            else (Http200 "Document updated successfully", s')
      end
  end.

(** The value of a request field once read. *)
Definition parsed (loads : string -> option value) (field : option string)
    : option value :=
  match field with
  | Some text => loads text
  | None => None
  end.

(** ** The handlers

    [generate_response] of [OpenAIHandler] and of [GeminiHandler] and
    [GeminiHandler.generate_summary], of [app/ai_handlers.py], over the
    call to the remote model, which returns its text or raises. *)

(** [full_prompt] of [OpenAIHandler.generate_response] *)
Definition openai_full_prompt (prompt context : string) : string :=
  "Context: " ++ context ++ nl ++ nl ++ "Question: " ++ prompt ++ nl ++ nl
  ++ "Answer:".

(** The two prompts of [GeminiHandler.generate_response]. *)
Definition gemini_general_prompt (prompt : string) : string :=
  "You are a helpful assistant. Answer the following question to the best of your knowledge:"
  ++ nl ++ nl ++ "Question: " ++ prompt ++ nl ++ nl
  ++ "Provide a clear and helpful answer.".

Definition gemini_context_prompt (prompt context : string) : string :=
  "You are an intelligent assistant that answers questions based on provided context from connected documents and data."
  ++ nl ++ nl ++ "CONTEXT FROM DATABASE:" ++ nl ++ context ++ nl ++ nl
  ++ "QUESTION: " ++ prompt ++ nl ++ nl
  ++ "INSTRUCTIONS:" ++ nl
  ++ "1. Answer the question based SOLELY on the context provided above" ++ nl
  ++ "2. If the context contains relevant information, use it to provide a detailed answer" ++ nl
  ++ "3. If the context doesn't contain enough information to answer the question, say so clearly" ++ nl
  ++ "4. Be accurate and cite specific details from the context when possible" ++ nl
  ++ "5. If asked about something not in the context, politely state that you don't have that information in the connected data"
  ++ nl ++ nl ++ "Provide your answer:".

Definition gemini_full_prompt (prompt context : string) : string :=
  if blank context then gemini_general_prompt prompt
  else gemini_context_prompt prompt context.

(** [OpenAIHandler.generate_response]; [create] is the call for the user
    message, with the content of the first choice as its result. *)
Definition OpenAIHandler_generate_response
    (create : string -> result string) : handler :=
  fun prompt context =>
    match create (openai_full_prompt prompt context) with
    | Ok content => Ok (PyStr.strip content)
    | Raise e => Raise e
    end.

(** [GeminiHandler.generate_response]; the result of [generate_content] is
    the text of the response, or the response as text when it has none. *)
Definition GeminiHandler_generate_response
    (generate_content : string -> result string) : handler :=
  fun prompt context =>
    match generate_content (gemini_full_prompt prompt context) with
    | Ok text => Ok (PyStr.strip text)
    | Raise e => Raise e
    end.

Definition indent12 : string := "            ".

(** [prompt] of [GeminiHandler.generate_summary] *)
Definition gemini_summary_prompt (transcript : string) : string :=
  nl ++ indent12 ++ "Analyze this meeting transcript and extract:"
  ++ nl ++ indent12 ++ "- Summary"
  ++ nl ++ indent12 ++ "- Key discussion points"
  ++ nl ++ indent12 ++ "- Action items with assignees"
  ++ nl ++ indent12 ++ "- Decisions made"
  ++ nl ++ indent12 ++ "- Relevant tags"
  ++ nl ++ indent12
  ++ nl ++ indent12 ++ "Return the output in JSON format with these keys: summary, key_points, action_items, decisions, tags"
  ++ nl ++ indent12
  ++ nl ++ indent12 ++ "Transcript:"
  ++ nl ++ indent12 ++ transcript
  ++ nl ++ indent12.

Definition open_brace : ascii := "{"%char.
Definition close_brace : ascii := "}"%char.

(** The part of [s] from its first [c] on. *)
Fixpoint from_first (c : ascii) (s : string) : option string :=
  match s with
  | EmptyString => None
  | String a s' => if Ascii.eqb a c then Some s else from_first c s'
  end.

(** The part of [s] up to its last [c]. *)
Fixpoint through_last (c : ascii) (s : string) : option string :=
  match s with
  | EmptyString => None
  | String a s' =>
      match through_last c s' with
      | Some r => Some (String a r)
      | None => if Ascii.eqb a c then Some (String a EmptyString) else None
      end
  end.

(** [re.search(r'\{.*\}', text, re.DOTALL)] and the text of the match:
    the leftmost match starts at the first opening brace with a closing
    brace after it, which is the first opening brace of the text when one
    has, and the star, which is greedy and matches line ends too, takes it
    to the last closing brace. *)
Definition json_match (text : string) : option string :=
  match from_first open_brace text with
  | Some rest => through_last close_brace rest
  | None => None
  end.

(** [text[:500] + "..." if len(text) > 500 else text] *)
Definition preview500 (text : string) : string :=
  if (500 <? String.length text)%nat then PyStr.take 500 text ++ "..."
  else text.

(** The result of [generate_summary] for a text without JSON. *)
Definition fallback_summary (text : string) : dict :=
  [ ("summary", VStr (preview500 text));
    ("key_points", VList []);
    ("action_items", VList []);
    ("decisions", VList []);
    ("tags", VList []) ].

(** [GeminiHandler.generate_summary]; [loads] is [json.loads]. *)
Definition GeminiHandler_generate_summary
    (generate_content : string -> result string) (loads : string -> result dict)
    (transcript : string) : result dict :=
  match generate_content (gemini_summary_prompt transcript) with
  | Ok text =>
      match json_match text with
      | Some json => loads json
      | None => Ok (fallback_summary text)
      end
  | Raise e => Raise e
  end.

(** No character of [s] is [c]. *)
Definition without (c : ascii) (s : string) : bool :=
  all_chars (fun a => negb (Ascii.eqb a c)) s.

(** A registry with the Gemini handler only, over a remote model. *)
Definition gemini_over (generate_content : string -> result string) : AIProvider :=
  mkAIProvider None (Some (GeminiHandler_generate_response generate_content)).

(** * Properties *)

(** ** Slices *)

Lemma py_slice_to_prefix {A : Type} (k : Z) (l : list A) :
  exists rest, l = py_slice_to k l ++ rest.
Proof.
  unfold py_slice_to.
  destruct (0 <=? k)%Z.
  - exists (skipn (Z.to_nat k) l). symmetry. apply firstn_skipn.
  - exists (skipn (Z.to_nat (Z.of_nat (List.length l) + k)) l).
    symmetry. apply firstn_skipn.
Qed.

Lemma py_slice_to_length {A : Type} (k : Z) (l : list A) :
  (0 <= k)%Z -> (Z.of_nat (List.length (py_slice_to k l)) <= k)%Z.
Proof.
  intros Hk. unfold py_slice_to.
  apply Z.leb_le in Hk. rewrite Hk. apply Z.leb_le in Hk.
  pose proof (firstn_le_length (Z.to_nat k) l). lia.
Qed.

Lemma py_slice_to_In {A : Type} (k : Z) (l : list A) (x : A) :
  In x (py_slice_to k l) -> In x l.
Proof.
  destruct (py_slice_to_prefix k l) as [rest E].
  intros H. rewrite E. apply in_or_app. now left.
Qed.

Lemma py_slice_to_nil {A : Type} (k : Z) : py_slice_to k (@nil A) = [].
Proof.
  unfold py_slice_to. destruct (0 <=? k)%Z; apply firstn_nil.
Qed.

(** ** The sort *)

Section SortFacts.
Context {A : Type} (key : A -> Q).

Lemma insert_desc_perm (x : A) (l : list A) :
  Permutation (insert_desc key x l) (x :: l).
Proof.
  induction l as [|y l IH]; simpl.
  - apply Permutation_refl.
  - destruct (Qle_bool (key y) (key x)).
    + apply Permutation_refl.
    + apply perm_trans with (y :: x :: l).
      * now apply perm_skip.
      * apply perm_swap.
Qed.

Lemma sort_desc_perm (l : list A) : Permutation (sort_desc key l) l.
Proof.
  induction l as [|x l IH]; simpl.
  - apply perm_nil.
  - apply perm_trans with (x :: sort_desc key l).
    + apply insert_desc_perm.
    + now apply perm_skip.
Qed.

Lemma insert_desc_sorted (x : A) (l : list A) :
  StronglySorted (before key) l -> StronglySorted (before key) (insert_desc key x l).
Proof.
  induction 1 as [|y l Hs IH Hy]; simpl.
  - constructor; [constructor | constructor].
  - destruct (Qle_bool (key y) (key x)) eqn:E.
    + apply Qle_bool_iff in E.
      constructor.
      * now constructor.
      * constructor; [exact E|].
        rewrite Forall_forall in Hy |- *.
        intros z Hz. unfold before in *.
        apply Qle_trans with (key y); [now apply Hy | exact E].
    + assert (Hlt : (key x < key y)%Q).
      { apply Qnot_le_lt. intros H. apply Qle_bool_iff in H. congruence. }
      constructor; [exact IH|].
      rewrite Forall_forall in Hy |- *.
      intros z Hz.
      apply (Permutation_in _ (insert_desc_perm x l)) in Hz.
      destruct Hz as [<-|Hz].
      * unfold before. now apply Qlt_le_weak.
      * now apply Hy.
Qed.

Lemma sort_desc_sorted (l : list A) : StronglySorted (before key) (sort_desc key l).
Proof.
  induction l as [|x l IH]; simpl.
  - constructor.
  - now apply insert_desc_sorted.
Qed.

Lemma insert_desc_stable (s : Q) (x : A) (l : list A) :
  with_score key s (insert_desc key x l) = with_score key s (x :: l).
Proof.
  unfold with_score.
  induction l as [|y l IH]; simpl.
  - reflexivity.
  - destruct (Qle_bool (key y) (key x)) eqn:E; [reflexivity|].
    simpl. rewrite IH. simpl.
    destruct (Qeq_bool (key y) s) eqn:Ey; [|reflexivity].
    destruct (Qeq_bool (key x) s) eqn:Ex; [|reflexivity].
    apply Qeq_bool_iff in Ex, Ey.
    assert (H : Qle_bool (key y) (key x) = true).
    { apply Qle_bool_iff. rewrite Ex, Ey. apply Qle_refl. }
    congruence.
Qed.

Lemma sort_desc_stable (s : Q) (l : list A) :
  with_score key s (sort_desc key l) = with_score key s l.
Proof.
  induction l as [|x l IH]; simpl.
  - reflexivity.
  - rewrite insert_desc_stable. unfold with_score in *. simpl.
    now rewrite IH.
Qed.

Lemma with_score_In (x : A) (l : list A) : In x l -> In x (with_score key (key x) l).
Proof.
  intros H. apply filter_In. split; [exact H|].
  apply Qeq_bool_iff, Qeq_refl.
Qed.

Lemma with_score_same (l1 l2 : list A) (x : A) :
  (forall s, with_score key s l1 = with_score key s l2) -> In x l1 -> In x l2.
Proof.
  intros H Hin. apply with_score_In in Hin. rewrite H in Hin.
  now apply filter_In in Hin.
Qed.

(** A list sorted by decreasing key is determined by the order of the
    records of each score: what a stable sort returns does not depend on
    how it sorts. *)
Lemma sorted_stable_unique (l1 l2 : list A) :
  StronglySorted (before key) l1 -> StronglySorted (before key) l2 ->
  (forall s, with_score key s l1 = with_score key s l2) ->
  l1 = l2.
Proof.
  intros H1. revert l2.
  induction H1 as [|x t1 Hs1 IH Hx]; intros l2 H2 Hsame.
  - destruct l2 as [|y t2]; [reflexivity|].
    specialize (Hsame (key y)). unfold with_score in Hsame. simpl in Hsame.
    assert (E : Qeq_bool (key y) (key y) = true) by apply Qeq_bool_iff, Qeq_refl.
    rewrite E in Hsame. discriminate.
  - destruct H2 as [|y t2 Hs2 Hy].
    + specialize (Hsame (key x)). unfold with_score in Hsame. simpl in Hsame.
      assert (E : Qeq_bool (key x) (key x) = true) by apply Qeq_bool_iff, Qeq_refl.
      rewrite E in Hsame. discriminate.
    + assert (Hxy : (key x == key y)%Q).
      { apply Qle_antisym.
        - assert (Hin : In x (y :: t2)).
          { apply (with_score_same (x :: t1)); [exact Hsame | now left]. }
          destruct Hin as [<-|Hin]; [apply Qle_refl|].
          rewrite Forall_forall in Hy. now apply Hy.
        - assert (Hin : In y (x :: t1)).
          { apply (with_score_same (y :: t2)); [|now left].
            intros s. symmetry. apply Hsame. }
          destruct Hin as [<-|Hin]; [apply Qle_refl|].
          rewrite Forall_forall in Hx. now apply Hx. }
      assert (Ex : Qeq_bool (key x) (key x) = true) by apply Qeq_bool_iff, Qeq_refl.
      assert (Ey : Qeq_bool (key y) (key x) = true).
      { apply Qeq_bool_iff. now symmetry. }
      pose proof (Hsame (key x)) as Hhead.
      unfold with_score in Hhead. simpl in Hhead. rewrite Ex, Ey in Hhead.
      injection Hhead as <- _.
      f_equal. apply IH; [exact Hs2|].
      intros s. specialize (Hsame s). unfold with_score in *. simpl in Hsame.
      destruct (Qeq_bool (key x) s); [now injection Hsame | exact Hsame].
Qed.

Lemma sort_desc_In (x : A) (l : list A) : In x (sort_desc key l) -> In x l.
Proof. apply Permutation_in, sort_desc_perm. Qed.

Lemma sort_desc_length (l : list A) :
  List.length (sort_desc key l) = List.length l.
Proof. apply Permutation_length, sort_desc_perm. Qed.
End SortFacts.

(** ** Binary64 rounding

    Facts on the specification of the float operations ([SpecFloat]): how
    a mantissa is shifted and rounded, that operations on floats of
    positive sign give such floats, and that adding to the float 0.7 a
    float of positive sign gives at least 0.7. *)

Local Open Scope Z_scope.

Lemma digits2_pos_bounds (p : positive) :
  2 ^ (Z.pos (digits2_pos p) - 1) <= Z.pos p < 2 ^ Z.pos (digits2_pos p).
Proof.
  induction p as [p IH|p IH|]; cbn [digits2_pos].
  - rewrite Pos2Z.inj_succ. replace (Z.succ (Z.pos (digits2_pos p)) - 1)
      with (Z.succ (Z.pos (digits2_pos p) - 1)) by lia.
    rewrite !Z.pow_succ_r by lia. lia.
  - rewrite Pos2Z.inj_succ. replace (Z.succ (Z.pos (digits2_pos p)) - 1)
      with (Z.succ (Z.pos (digits2_pos p) - 1)) by lia.
    rewrite !Z.pow_succ_r by lia. lia.
  - simpl. lia.
Qed.

Lemma shr_1_m (mrs : shr_record) :
  0 <= shr_m mrs -> shr_m (shr_1 mrs) = shr_m mrs / 2.
Proof.
  destruct mrs as [m r s]. cbn [shr_m]. intros H.
  rewrite <- Z.div2_div.
  destruct m as [|[p|p|]|p]; try reflexivity; lia.
Qed.

Lemma iter_shr_1_m (n : positive) (mrs : shr_record) :
  0 <= shr_m mrs ->
  shr_m (iter_pos shr_1 n mrs) = shr_m mrs / 2 ^ Z.pos n.
Proof.
  revert mrs.
  assert (Hnn : forall k mrs, 0 <= shr_m mrs ->
            shr_m mrs / 2 ^ Z.pos k = shr_m (iter_pos shr_1 k mrs) ->
            0 <= shr_m (iter_pos shr_1 k mrs)).
  { intros k mrs H <-. apply Z.div_pos; [exact H | lia]. }
  induction n as [n IH|n IH|]; intros mrs H; cbn [iter_pos].
  - assert (H1 : 0 <= shr_m (shr_1 mrs)).
    { rewrite shr_1_m by exact H. apply Z.div_pos; lia. }
    assert (H2 : 0 <= shr_m (iter_pos shr_1 n (shr_1 mrs))).
    { apply Hnn; [exact H1 | symmetry; now apply IH]. }
    rewrite IH, IH, shr_1_m by assumption.
    rewrite !Z.div_div by lia.
    f_equal. rewrite (Pos2Z.inj_xI n).
    replace (2 * Z.pos n + 1) with (1 + Z.pos n + Z.pos n) by lia.
    rewrite !Z.pow_add_r by lia. change (2 ^ 1) with 2. lia.
  - assert (H2 : 0 <= shr_m (iter_pos shr_1 n mrs)).
    { apply Hnn; [exact H | symmetry; now apply IH]. }
    rewrite IH, IH by assumption.
    rewrite !Z.div_div by lia.
    f_equal. rewrite (Pos2Z.inj_xO n).
    replace (2 * Z.pos n) with (Z.pos n + Z.pos n) by lia.
    rewrite !Z.pow_add_r by lia. reflexivity.
  - rewrite shr_1_m by exact H. reflexivity.
Qed.

Lemma round_nearest_even_bounds (m : Z) (l : location) :
  m <= round_nearest_even m l <= m + 1.
Proof.
  destruct l as [|[]]; cbn [round_nearest_even]; try lia.
  destruct (Z.even m); lia.
Qed.

Lemma binary_round_aux_finish sx mx ex lx :
  binary_round_aux prec emax sx mx ex lx
  = let '(mrs, e) := shr_fexp prec emax mx ex lx in
    finish sx (round_nearest_even (shr_m mrs) (loc_of_shr_record mrs)) e.
Proof. reflexivity. Qed.

Lemma shr_fexp_normal (p : positive) (e : Z) (l : location) :
  -1074 <= Z.pos (digits2_pos p) + e - 53 ->
  shr_fexp prec emax (Z.pos p) e l
  = shr (shr_record_of_loc (Z.pos p) l) e (Z.pos (digits2_pos p) - 53).
Proof.
  intros H. unfold shr_fexp, fexp, emin. cbn [Zdigits2].
  change prec with 53. change emax with 1024.
  rewrite Z.max_l by lia. f_equal. lia.
Qed.

Lemma shr_record_of_loc_m (m : Z) (l : location) :
  shr_m (shr_record_of_loc m l) = m.
Proof. now destruct l as [|[]]. Qed.

Lemma digits_53_54 (p : positive) :
  2 ^ 52 <= Z.pos p <= 2 ^ 53 ->
  Z.pos (digits2_pos p) = 53 \/ Z.pos (digits2_pos p) = 54.
Proof.
  intros [Hlo Hhi].
  destruct (digits2_pos_bounds p) as [Dlo Dhi].
  assert (52 < Z.pos (digits2_pos p)).
  { apply (Z.pow_lt_mono_r_iff 2); lia. }
  assert (Z.pos (digits2_pos p) - 1 <= 53).
  { apply (Z.pow_le_mono_r_iff 2); lia. }
  lia.
Qed.

Lemma finish_ge07 (m : Z) (e : Z) :
  2 ^ 52 <= m <= 2 ^ 53 -> -53 <= e -> (e = -53 -> Z.pos m07 <= m) ->
  ge07 (finish false m e) = true.
Proof.
  intros Hm He H07.
  destruct m as [|p|p]; try (exfalso; lia).
  unfold finish. rewrite shr_fexp_normal.
  2:{ destruct (digits_53_54 p Hm); lia. }
  destruct (digits_53_54 p Hm) as [-> | ->].
  - change (53 - 53) with 0. cbn [shr shr_record_of_loc shr_m].
    destruct (e <=? emax - prec); [|reflexivity].
    cbn [ge07].
    destruct (Z.eq_dec e (-53)) as [->|Hne].
    + cbn. apply Pos.leb_le. specialize (H07 eq_refl). lia.
    + replace (-53 <? e) with true; [reflexivity|].
      symmetry. apply Z.ltb_lt. lia.
  - change (54 - 53) with 1. cbn [shr iter_pos shr_record_of_loc].
    assert (Hs : shr_m (shr_1 {| shr_m := Z.pos p; shr_r := false; shr_s := false |})
                 = Z.pos p / 2).
    { apply shr_1_m. cbn. lia. }
    assert (Hpos : 2 ^ 51 <= Z.pos p / 2).
    { apply Z.div_le_lower_bound; lia. }
    rewrite Hs.
    destruct (Z.pos p / 2) as [|q|q]; try (exfalso; lia).
    destruct (e + 1 <=? emax - prec); [|reflexivity].
    cbn [ge07].
    replace (-53 <? e + 1) with true; [reflexivity|].
    symmetry. apply Z.ltb_lt. lia.
Qed.

Lemma round_lower (p : positive) (ex : Z) :
  ex <= -53 ->
  Z.pos m07 * 2 ^ (-53 - ex) <= Z.pos p ->
  ge07 (binary_round_aux prec emax false (Z.pos p) ex loc_Exact) = true.
Proof.
  intros Hex Hp.
  destruct (digits2_pos_bounds p) as [Dlo Dhi].
  assert (Hd : - ex <= Z.pos (digits2_pos p)).
  { assert (2 ^ (-1 - ex) <= Z.pos p).
    { replace (-1 - ex) with (52 + (-53 - ex)) by lia.
      rewrite Z.pow_add_r by lia.
      apply Z.le_trans with (Z.pos m07 * 2 ^ (-53 - ex)); [|exact Hp].
      apply Z.mul_le_mono_nonneg_r; [apply Z.pow_nonneg; lia|].
      vm_compute. discriminate. }
    assert (-1 - ex < Z.pos (digits2_pos p)).
    { apply (Z.pow_lt_mono_r_iff 2); lia. }
    lia. }
  rewrite binary_round_aux_finish, shr_fexp_normal by lia.
  destruct (Z.pos (digits2_pos p) - 53) as [|n|n] eqn:En; try (exfalso; lia).
  - cbn [shr shr_record_of_loc shr_m loc_of_shr_record round_nearest_even].
    assert (ex = -53) by lia. subst ex.
    replace (Z.pos (digits2_pos p)) with 53 in * by lia.
    apply finish_ge07; [|lia|].
    + change (53 - 1) with 52 in Dlo. lia.
    + intros _. change (-53 - -53) with 0 in Hp. change (2 ^ 0) with 1 in Hp. lia.
  - cbn [shr].
    set (mrs := iter_pos shr_1 n (shr_record_of_loc (Z.pos p) loc_Exact)).
    assert (Hm : shr_m mrs = Z.pos p / 2 ^ Z.pos n).
    { unfold mrs. rewrite iter_shr_1_m; cbn [shr_record_of_loc shr_m]; [reflexivity | lia]. }
    pose proof (round_nearest_even_bounds (shr_m mrs) (loc_of_shr_record mrs)) as Hr.
    assert (Hpow : 0 < 2 ^ Z.pos n) by (apply Z.pow_pos_nonneg; lia).
    assert (Hlo : 2 ^ 52 <= shr_m mrs).
    { rewrite Hm. apply Z.div_le_lower_bound; [exact Hpow|].
      rewrite <- Z.pow_add_r by lia.
      replace (Z.pos n + 52) with (Z.pos (digits2_pos p) - 1) by lia. exact Dlo. }
    assert (Hhi : shr_m mrs < 2 ^ 53).
    { rewrite Hm. apply Z.div_lt_upper_bound; [exact Hpow|].
      rewrite <- Z.pow_add_r by lia.
      replace (Z.pos n + 53) with (Z.pos (digits2_pos p)) by lia. exact Dhi. }
    apply finish_ge07; [lia | lia |].
    intros He.
    apply Z.le_trans with (shr_m mrs); [|lia].
    rewrite Hm. apply Z.div_le_lower_bound; [exact Hpow|].
    replace (Z.pos n) with (-53 - ex) by lia.
    rewrite Z.mul_comm. exact Hp.
Qed.

Lemma iter_xO (d p : positive) : Z.pos (Pos.iter xO p d) = Z.pos p * 2 ^ Z.pos d.
Proof.
  induction d as [|d IH] using Pos.peano_ind.
  - cbn [Pos.iter]. rewrite Pos2Z.inj_xO. change (2 ^ 1) with 2. lia.
  - rewrite Pos.iter_succ, Pos2Z.inj_xO, IH, Pos2Z.inj_succ, Z.pow_succ_r by lia.
    lia.
Qed.

Lemma shl_align_spec (mx : positive) (ex ex' : Z) :
  snd (shl_align mx ex ex') = Z.min ex ex'
  /\ Z.pos (fst (shl_align mx ex ex')) = Z.pos mx * 2 ^ (ex - Z.min ex ex').
Proof.
  unfold shl_align.
  destruct (ex' - ex) as [|d|d] eqn:E; cbn [fst snd].
  - rewrite Z.min_l, Z.sub_diag by lia. change (2 ^ 0) with 1. lia.
  - rewrite Z.min_l, Z.sub_diag by lia. change (2 ^ 0) with 1. lia.
  - rewrite iter_xO, Z.min_r by lia. replace (ex - ex') with (Z.pos d) by lia. lia.
Qed.

Lemma nn_finish (m e : Z) : nn (finish false m e) = true.
Proof.
  unfold finish.
  destruct (shr_fexp prec emax m e loc_Exact) as [mrs e'].
  destruct (shr_m mrs); [reflexivity | | reflexivity].
  now destruct (e' <=? emax - prec).
Qed.

Lemma nn_binary_round_aux (m e : Z) (l : location) :
  nn (binary_round_aux prec emax false m e l) = true.
Proof.
  rewrite binary_round_aux_finish.
  destruct (shr_fexp prec emax m e l) as [mrs e']. apply nn_finish.
Qed.

Lemma nn_binary_normalize (z e : Z) :
  0 <= z -> nn (binary_normalize prec emax z e false) = true.
Proof.
  intros Hz. destruct z as [|p|p]; [reflexivity | | lia].
  cbn [binary_normalize]. unfold binary_round.
  destruct (shl_align p e _) as [mz ez]. apply nn_binary_round_aux.
Qed.

Lemma nn_SFmul (x y : spec_float) :
  nn x = true -> nn y = true -> nn (SFmul prec emax x y) = true.
Proof.
  destruct x as [[]|[]| |[] mx ex], y as [[]|[]| |[] my ey];
    try discriminate; try reflexivity.
  intros _ _. cbn [SFmul xorb]. apply nn_binary_round_aux.
Qed.

Lemma nn_SFdiv (x y : spec_float) :
  nn x = true -> nn y = true -> nn (SFdiv prec emax x y) = true.
Proof.
  destruct x as [[]|[]| |[] mx ex], y as [[]|[]| |[] my ey];
    try discriminate; try reflexivity.
  intros _ _. cbn [SFdiv xorb].
  destruct (SFdiv_core_binary prec emax (Z.pos mx) ex (Z.pos my) ey) as [[mz ez] lz].
  apply nn_binary_round_aux.
Qed.

Lemma SFadd_07_ge (y : spec_float) :
  nn y = true ->
  ge07 (SFadd prec emax (S754_finite false m07 (-53)) y) = true.
Proof.
  destruct y as [[]|[]| |[] my ey]; try discriminate; intros _;
    try reflexivity.
  cbn [SFadd cond_Zopp].
  set (ez := Z.min (-53) ey).
  destruct (shl_align_spec m07 (-53) ez) as [_ A].
  set (a := fst (shl_align m07 (-53) ez)) in *.
  set (b := fst (shl_align my ey ez)) in *.
  rewrite Z.min_r in A by (unfold ez; lia).
  cbn [Z.add binary_normalize]. unfold binary_round.
  set (e1 := fexp prec emax (Z.pos (digits2_pos (a + b)) + ez)).
  destruct (shl_align_spec (a + b) ez e1) as [C1 C3].
  destruct (shl_align (a + b) ez e1) as [mz ez']. cbn [fst snd] in C1, C3.
  assert (Hez : ez <= -53) by (unfold ez; lia).
  assert (Hez' : ez' <= ez) by lia.
  rewrite <- C1 in C3. clear C1.
  apply round_lower; [lia|].
  rewrite C3, Pos2Z.inj_add, A.
  replace (-53 - ez') with ((-53 - ez) + (ez - ez')) by lia.
  rewrite Z.pow_add_r by lia.
  assert (0 < 2 ^ (ez - ez')) by (apply Z.pow_pos_nonneg; lia).
  assert (0 <= 2 ^ (-53 - ez)) by (apply Z.pow_nonneg; lia).
  nia.
Qed.

(** *** Division of two lengths *)

Lemma digits_53 (p : positive) :
  2 ^ 52 <= Z.pos p < 2 ^ 53 -> Z.pos (digits2_pos p) = 53.
Proof.
  intros [Hlo Hhi].
  destruct (digits_53_54 p) as [E|E]; [lia | exact E |].
  destruct (digits2_pos_bounds p) as [Dlo _].
  rewrite E in Dlo. change (54 - 1) with 53 in Dlo. lia.
Qed.

Lemma round_exact (sx : bool) (m : positive) (e : Z) :
  2 ^ 52 <= Z.pos m < 2 ^ 53 -> -1074 <= e <= 971 ->
  binary_round_aux prec emax sx (Z.pos m) e loc_Exact = S754_finite sx m e.
Proof.
  intros Hm He.
  pose proof (digits_53 m Hm) as Hd.
  rewrite binary_round_aux_finish, shr_fexp_normal, Hd by lia.
  change (53 - 53) with 0.
  cbn [shr shr_record_of_loc shr_m loc_of_shr_record round_nearest_even].
  unfold finish. rewrite shr_fexp_normal, Hd by lia.
  change (53 - 53) with 0. cbn [shr shr_record_of_loc shr_m].
  change (emax - prec) with 971.
  replace (e <=? 971) with true; [reflexivity|].
  symmetry. apply Z.leb_le. lia.
Qed.

(** The float of a length below [2^53] is the length itself. *)
Lemma Prim2SF_float_of_nat (n : nat) :
  (0 < n)%nat -> Z.of_nat n < 2 ^ 53 ->
  exists (m : positive) (e : Z),
    Prim2SF (float_of_nat n) = S754_finite false m e
    /\ 2 ^ 52 <= Z.pos m < 2 ^ 53
    /\ -52 <= e <= 0
    /\ Z.pos m = Z.of_nat n * 2 ^ (- e).
Proof.
  intros Hpos Hlt.
  unfold float_of_nat. rewrite of_uint63_spec, Uint63.of_Z_spec.
  assert (HwB : 2 ^ 53 < Uint63.wB) by reflexivity.
  rewrite Z.mod_small by lia.
  destruct (Z.of_nat n) as [|p|p] eqn:En; try lia.
  cbn [binary_normalize]. unfold binary_round.
  destruct (digits2_pos_bounds p) as [Dlo Dhi].
  assert (Hd : 1 <= Z.pos (digits2_pos p) <= 53).
  { split; [lia|].
    assert (Z.pos (digits2_pos p) - 1 < 53); [|lia].
    apply (Z.pow_lt_mono_r_iff 2); lia. }
  assert (Hf : fexp prec emax (Z.pos (digits2_pos p) + 0)
               = Z.pos (digits2_pos p) - 53).
  { unfold fexp, emin. change prec with 53. change emax with 1024. lia. }
  rewrite Hf.
  destruct (shl_align_spec p 0 (Z.pos (digits2_pos p) - 53)) as [S1 S2].
  destruct (shl_align p 0 (Z.pos (digits2_pos p) - 53)) as [mz ez].
  cbn [fst snd] in S1, S2.
  rewrite Z.min_r in S1, S2 by lia. subst ez.
  assert (Hmz : 2 ^ 52 <= Z.pos mz < 2 ^ 53).
  { rewrite S2. split.
    - replace 52 with ((Z.pos (digits2_pos p) - 1) + (0 - (Z.pos (digits2_pos p) - 53))) by lia.
      rewrite Z.pow_add_r by lia.
      apply Z.mul_le_mono_nonneg_r; [apply Z.pow_nonneg; lia | exact Dlo].
    - replace 53 with (Z.pos (digits2_pos p) + (0 - (Z.pos (digits2_pos p) - 53))) at 2 by lia.
      rewrite Z.pow_add_r by lia.
      apply Z.mul_lt_mono_pos_r; [apply Z.pow_pos_nonneg; lia | exact Dhi]. }
  exists mz, (Z.pos (digits2_pos p) - 53).
  split; [apply round_exact; lia|].
  split; [exact Hmz|]. split; [lia|].
  rewrite S2.
  replace (0 - (Z.pos (digits2_pos p) - 53))
    with (- (Z.pos (digits2_pos p) - 53)) by lia.
  reflexivity.
Qed.

Lemma loc_of_shr_record_of_loc (m : Z) (l : location) :
  loc_of_shr_record (shr_record_of_loc m l) = l.
Proof. now destruct l as [|[]]. Qed.

Lemma finish_le1 (m : Z) (e : Z) :
  2 ^ 52 <= m <= 2 ^ 53 -> -1074 <= e <= 0 -> m <= 2 ^ (- e) ->
  le1 (finish false m e) = true.
Proof.
  intros Hm He Hv.
  destruct m as [|p|p]; try (exfalso; lia).
  assert (He52 : e <= -52).
  { assert (52 <= - e); [|lia]. apply (Z.pow_le_mono_r_iff 2); lia. }
  unfold finish. rewrite shr_fexp_normal.
  2:{ destruct (digits_53_54 p Hm); lia. }
  destruct (digits_53_54 p Hm) as [E|E]; rewrite E.
  - change (53 - 53) with 0. cbn [shr shr_record_of_loc shr_m].
    change (emax - prec) with 971.
    replace (e <=? 971) with true by (symmetry; apply Z.leb_le; lia).
    cbn [le1].
    destruct (Z.eq_dec e (-52)) as [->|Hne].
    + change (- -52) with 52 in Hv.
      rewrite Z.eqb_refl. cbn [andb].
      replace (Z.pos p <=? 2 ^ 52) with true by (symmetry; apply Z.leb_le; lia).
      apply orb_true_r.
    + replace (e <? -52) with true; [reflexivity|].
      symmetry. apply Z.ltb_lt. lia.
  - change (54 - 53) with 1. cbn [shr iter_pos shr_record_of_loc].
    assert (Hp : Z.pos p = 2 ^ 53).
    { destruct (digits2_pos_bounds p) as [Dlo _].
      rewrite E in Dlo. change (54 - 1) with 53 in Dlo. lia. }
    assert (He53 : e <= -53).
    { assert (53 <= - e); [|lia]. apply (Z.pow_le_mono_r_iff 2); lia. }
    assert (Hs : shr_m (shr_1 {| shr_m := Z.pos p; shr_r := false; shr_s := false |})
                 = 2 ^ 52).
    { rewrite shr_1_m by (cbn; lia). cbn [shr_m]. rewrite Hp. reflexivity. }
    rewrite Hs. change (2 ^ 52) with (Z.pos 4503599627370496). cbv iota.
    change (emax - prec) with 971.
    replace (e + 1 <=? 971) with true by (symmetry; apply Z.leb_le; lia).
    cbn [le1].
    destruct (Z.eq_dec (e + 1) (-52)) as [->|Hne].
    + reflexivity.
    + replace (e + 1 <? -52) with true; [reflexivity|].
      symmetry. apply Z.ltb_lt. lia.
Qed.

(** Rounding a quotient that is at most 1 gives at most the float 1: the
    mantissa goes up only when the quotient is not exact, and then the next
    mantissa is still within the bound. *)
Lemma round_upper (q : positive) (e : Z) (l : location) :
  2 ^ 52 <= Z.pos q < 2 ^ 54 -> -1073 <= e <= -1 ->
  Z.pos q <= 2 ^ (- e) ->
  (l <> loc_Exact -> Z.pos q + 1 <= 2 ^ (- e)) ->
  le1 (binary_round_aux prec emax false (Z.pos q) e l) = true.
Proof.
  intros Hq He Hv Hl.
  rewrite binary_round_aux_finish, shr_fexp_normal.
  2:{ destruct (digits2_pos_bounds q) as [_ Dhi].
      assert (52 < Z.pos (digits2_pos q)); [|lia].
      apply (Z.pow_lt_mono_r_iff 2); lia. }
  destruct (Z_lt_le_dec (Z.pos q) (2 ^ 53)) as [Hsmall|Hbig].
  - rewrite (digits_53 q) by lia. change (53 - 53) with 0. cbn [shr].
    rewrite shr_record_of_loc_m, loc_of_shr_record_of_loc.
    pose proof (round_nearest_even_bounds (Z.pos q) l) as Hr.
    apply finish_le1; [lia | lia |].
    destruct l as [|c]; [cbn [round_nearest_even]; exact Hv|].
    assert (Z.pos q + 1 <= 2 ^ (- e)) by (apply Hl; discriminate). lia.
  - assert (Hd : Z.pos (digits2_pos q) = 54).
    { destruct (digits2_pos_bounds q) as [Dlo Dhi].
      assert (53 < Z.pos (digits2_pos q)) by (apply (Z.pow_lt_mono_r_iff 2); lia).
      assert (Z.pos (digits2_pos q) - 1 < 54) by (apply (Z.pow_lt_mono_r_iff 2); lia).
      lia. }
    rewrite Hd. change (54 - 53) with 1. cbn [shr iter_pos].
    assert (Hpow : 2 ^ (- e) = 2 * 2 ^ (- (e + 1))).
    { rewrite <- Z.pow_succ_r by lia. f_equal. lia. }
    rewrite Hpow in Hv, Hl.
    apply finish_le1; [| lia |].
    + destruct l as [|[]], q as [p|p|];
        cbn [shr_record_of_loc shr_1 shr_m shr_r shr_s orb loc_of_shr_record
             round_nearest_even];
        try destruct (Z.even (Z.pos p)); lia.
    + destruct l as [|[]], q as [p|p|];
        cbn [shr_record_of_loc shr_1 shr_m shr_r shr_s orb loc_of_shr_record
             round_nearest_even];
        try destruct (Z.even (Z.pos p)); lia.
Qed.

Lemma new_location_exact (nb_steps k : Z) :
  new_location nb_steps k <> loc_Exact -> k <> 0.
Proof.
  intros H ->. apply H.
  unfold new_location, new_location_even, new_location_odd.
  now destruct (Z.even nb_steps).
Qed.

Lemma SFdiv_le1 (ma mb : positive) (ea eb : Z) :
  2 ^ 52 <= Z.pos ma < 2 ^ 53 -> 2 ^ 52 <= Z.pos mb < 2 ^ 53 ->
  -52 <= ea <= 0 -> -52 <= eb <= 0 ->
  Z.pos ma * 2 ^ (- eb) <= Z.pos mb * 2 ^ (- ea) ->
  le1 (SFdiv prec emax (S754_finite false ma ea) (S754_finite false mb eb)) = true.
Proof.
  intros Ha Hb Hea Heb Hv.
  cbn [SFdiv xorb]. unfold SFdiv_core_binary. cbn [Zdigits2].
  rewrite (digits_53 ma Ha), (digits_53 mb Hb).
  assert (He : Z.min (fexp prec emax (53 + ea - (53 + eb))) (ea - eb)
               = ea - eb - 53).
  { unfold fexp, emin. change prec with 53. change emax with 1024. lia. }
  rewrite He.
  replace (ea - eb - (ea - eb - 53)) with 53 by lia.
  rewrite Z.shiftl_mul_pow2 by lia.
  pose proof (Z_div_mod (Z.pos ma * 2 ^ 53) (Z.pos mb) eq_refl) as Hdm.
  destruct (Z.div_eucl (Z.pos ma * 2 ^ 53) (Z.pos mb)) as [q r].
  destruct Hdm as [Hdm Hr].
  set (T := 2 ^ (- (ea - eb - 53))).
  assert (HT : Z.pos ma * 2 ^ 53 <= Z.pos mb * T).
  { assert (HB : 0 < 2 ^ (- eb)) by (apply Z.pow_pos_nonneg; lia).
    apply (Z.mul_le_mono_pos_r _ _ (2 ^ (- eb)) HB).
    unfold T.
    rewrite <- (Z.mul_assoc (Z.pos mb)), <- Z.pow_add_r by lia.
    replace (- (ea - eb - 53) + - eb) with (- ea + 53) by lia.
    rewrite Z.pow_add_r by lia.
    assert (0 < 2 ^ 53) by reflexivity.
    nia. }
  assert (Hq : 2 ^ 52 <= q < 2 ^ 54).
  { assert (0 < 2 ^ 52) by reflexivity.
    change (2 ^ 53) with (2 * 2 ^ 52) in *.
    change (2 ^ 54) with (4 * 2 ^ 52). nia. }
  assert (HTpos : 0 < T) by (apply Z.pow_pos_nonneg; lia).
  destruct q as [|q|q]; try (exfalso; lia).
  apply round_upper; [exact Hq | lia | |].
  - fold T. nia.
  - intros Hl. apply new_location_exact in Hl. fold T. nia.
Qed.

Local Close Scope Z_scope.

(** ** Quotients of lengths *)

Lemma in_range_le1 (x : float) :
  le1 (Prim2SF x) = true ->
  in_range 0 1 x = true /\ (0 <? x)%float = true.
Proof.
  unfold in_range. rewrite !leb_spec, ltb_spec.
  change (Prim2SF 0) with (S754_zero false).
  change (Prim2SF 1) with (S754_finite false 4503599627370496 (-52)).
  destruct (Prim2SF x) as [s|s| |[] m e]; try discriminate.
  unfold le1, SFleb, SFltb, SFcompare. intros H.
  split; [|reflexivity]. cbn [andb].
  destruct (Z.compare_spec e (-52)) as [->|Hlt|Hgt].
  - rewrite Z.ltb_irrefl, Z.eqb_refl in H. cbn [orb andb] in H.
    apply Z.leb_le in H. change (2 ^ 52)%Z with (Z.pos 4503599627370496) in H.
    rewrite Pos.compare_cont_spec.
    destruct (Pos.compare_spec m 4503599627370496) as [E|E|E];
      cbn [Pos.switch_Eq]; try reflexivity.
    exfalso. apply Pos2Z.pos_lt_pos in E. lia.
  - reflexivity.
  - exfalso. apply orb_true_iff in H. destruct H as [H|H].
    + apply Z.ltb_lt in H. lia.
    + apply andb_true_iff in H. destruct H as [H _].
      apply Z.eqb_eq in H. lia.
Qed.

(** The float quotient of two lengths below [2^53], the first at most the
    second: it lies between 0 and 1 and is positive when the first length
    is. *)
Lemma true_div_unit (a b : nat) :
  (a <= b)%nat -> (0 < b)%nat -> (Z.of_nat b < 2 ^ 53)%Z ->
  in_range 0 1 (true_div a b) = true
  /\ ((0 < a)%nat -> (0 <? true_div a b)%float = true).
Proof.
  intros Hab Hb Hlt.
  destruct (Prim2SF_float_of_nat b Hb Hlt) as [mb [eb [Eb [Bb [Beb Vb]]]]].
  destruct a as [|a'].
  - split; [|intros H; inversion H].
    unfold in_range, true_div. rewrite !leb_spec, div_spec, Eb.
    reflexivity.
  - assert (Ha : (0 < S a')%nat) by lia.
    assert (Hlta : (Z.of_nat (S a') < 2 ^ 53)%Z) by lia.
    destruct (Prim2SF_float_of_nat (S a') Ha Hlta) as [ma [ea [Ea [Ba [Bea Va]]]]].
    assert (Hle : le1 (Prim2SF (true_div (S a') b)) = true).
    { unfold true_div. rewrite div_spec, Ea, Eb.
      apply SFdiv_le1; try assumption.
      rewrite Va, Vb.
      assert (0 < 2 ^ (- ea))%Z by (apply Z.pow_pos_nonneg; lia).
      assert (0 < 2 ^ (- eb))%Z by (apply Z.pow_pos_nonneg; lia).
      assert (Z.of_nat (S a') <= Z.of_nat b)%Z by lia.
      nia. }
    destruct (in_range_le1 _ Hle) as [H1 H2]. split; [exact H1 | now intros _].
Qed.

(** ** The score *)

Lemma count_matches_le (keywords : list string) (text : string) :
  (count_matches keywords text <= List.length keywords)%nat.
Proof. apply filter_length_le. Qed.

Lemma score_bounds (keywords : list string) (text : string) :
  (0 <= score keywords text)%Q /\ (score keywords text <= 1)%Q.
Proof.
  unfold score.
  destruct keywords as [|k ks] eqn:E.
  - split; [apply Qle_refl | discriminate].
  - rewrite <- E.
    pose proof (count_matches_le keywords text) as Hle.
    assert (Hpos : (0 < List.length keywords)%nat) by (subst; simpl; lia).
    unfold Qle; simpl. split; [lia|].
    rewrite Z.mul_1_r, <- positive_nat_Z, Nat2Pos.id by lia. lia.
Qed.



Lemma score_float_unit (keywords : list string) (text : string) :
  (Z.of_nat (List.length keywords) < 2 ^ 53)%Z ->
  in_range 0 1 (score_float keywords text) = true.
Proof.
  intros Hlt. unfold score_float.
  destruct keywords as [|k ks] eqn:E; [reflexivity|].
  rewrite <- E in *.
  apply true_div_unit; [apply count_matches_le | subst; simpl; lia | exact Hlt].
Qed.

(** ** The searches *)

Lemma In_sorted_documents (db : Database) (q : ChatQuery) (d : document) :
  In d (sorted_documents db q) ->
  exists d0, d = score_document (document_keywords q) d0.
Proof.
  unfold sorted_documents. intros H.
  apply sort_desc_In, in_map_iff in H.
  destruct H as [d0 [E _]]. now exists d0.
Qed.

Lemma In_select_meetings (keywords : list string) (recent : list meeting) (m : meeting) :
  In m (select_meetings keywords recent) ->
  exists m0, In m0 recent
    /\ (0 < count_matches keywords (PyStr.lower (meeting_text m0)))%nat
    /\ m = set_mtg_score m0 (score keywords (PyStr.lower (meeting_text m0))).
Proof.
  induction recent as [|m1 rest IH]; simpl; [easy|].
  destruct (0 <? count_matches keywords (PyStr.lower (meeting_text m1)))%nat eqn:E.
  - intros [<-|H].
    + exists m1. apply Nat.ltb_lt in E. auto.
    + destruct (IH H) as [m0 [Hin Hm0]]. exists m0. auto.
  - intros H. destruct (IH H) as [m0 [Hin Hm0]]. exists m0. auto.
Qed.

Lemma In_sorted_meetings (db : Database) (q : ChatQuery) (m : meeting) :
  In m (sorted_meetings db q) ->
  exists m0,
    (0 < count_matches (meeting_keywords q) (PyStr.lower (meeting_text m0)))%nat
    /\ m = set_mtg_score m0
             (score (meeting_keywords q) (PyStr.lower (meeting_text m0))).
Proof.
  unfold sorted_meetings. intros H.
  apply sort_desc_In, In_select_meetings in H.
  destruct H as [m0 [_ H]]. now exists m0.
Qed.

(** C3: for every keyword list and every candidate text the relevance score
    lies in the closed interval from 0 to 1, and it is 0 when there is no
    keyword; so does the score of every record that either search returns,
    and so does the binary64 value of the score (for fewer than [2^53]
    keywords, whose number is then a float). *)
Theorem score_in_unit_interval :
  (forall (K : list string) (text : string),
      (0 <= score K text)%Q /\ (score K text <= 1)%Q)
  /\ (forall text : string, score [] text = 0%Q /\ score_float [] text = 0%float)
  /\ (forall (K : list string) (text : string),
        (Z.of_nat (List.length K) < 2 ^ 53)%Z ->
        in_range 0 1 (score_float K text) = true)
  /\ (forall settings db q d,
        In d (_find_relevant_documents settings db q) ->
        (0 <= doc_key d)%Q /\ (doc_key d <= 1)%Q)
  /\ (forall db q m,
        In m (_find_relevant_meetings db q) ->
        (0 <= mtg_key m)%Q /\ (mtg_key m <= 1)%Q).
Proof.
  split; [exact score_bounds|].
  split; [split; reflexivity|].
  split; [exact score_float_unit|].
  split.
  - intros settings db q d H.
    apply py_slice_to_In, In_sorted_documents in H.
    destruct H as [d0 ->]. apply score_bounds.
  - intros db q m H.
    apply py_slice_to_In, In_sorted_meetings in H.
    destruct H as [m0 [_ ->]]. apply score_bounds.
Qed.

Lemma StronglySorted_app_l {A : Type} (R : A -> A -> Prop) (l1 l2 : list A) :
  StronglySorted R (l1 ++ l2) -> StronglySorted R l1.
Proof.
  induction l1 as [|x l1 IH]; cbn [app]; intros H; [constructor|].
  apply StronglySorted_inv in H. destruct H as [Hs Hx].
  constructor; [now apply IH|].
  rewrite Forall_forall in Hx |- *. intros y Hy.
  apply Hx, in_or_app. now left.
Qed.

Lemma py_slice_to_sorted {A : Type} (R : A -> A -> Prop) (k : Z) (l : list A) :
  StronglySorted R l -> StronglySorted R (py_slice_to k l).
Proof.
  intros H. destruct (py_slice_to_prefix k l) as [rest E].
  rewrite E in H. now apply StronglySorted_app_l in H.
Qed.

Lemma with_score_slice {A : Type} (key : A -> Q) (s : Q) (k : Z) (l : list A) :
  exists rest,
    with_score key s l = (with_score key s (py_slice_to k l) ++ rest)%list.
Proof.
  destruct (py_slice_to_prefix k l) as [rest E].
  exists (with_score key s rest).
  rewrite E at 1. unfold with_score. apply filter_app.
Qed.

(** C4: what the two searches sort, and how. The scored documents (the
    candidates of the store without duplicates, each with its score) and
    the scored meetings (the recent meetings with a match, each with its
    score) are put by decreasing score; the records stay the same, and the
    records of any one score keep the order they had among the candidates.
    The lists that the searches return are by decreasing score as well, and
    their records of any one score are the first candidates of that score,
    in the order of the candidates. The sort itself has these properties on
    every list of scored records, and a list with these properties is its
    result, so that they fix what any stable sort returns. *)
Theorem relevance_sort_descending_stable :
  (forall (settings : Settings) (db : Database) (q : ChatQuery),
      let candidates :=
        map (score_document (document_keywords q))
            (unique_by_id [] (all_docs db (document_keywords q))) in
      StronglySorted (before doc_key) (sorted_documents db q)
      /\ Permutation (sorted_documents db q) candidates
      /\ (forall s : Q,
            with_score doc_key s (sorted_documents db q)
            = with_score doc_key s candidates)
      /\ StronglySorted (before doc_key) (_find_relevant_documents settings db q)
      /\ (forall s : Q,
            exists rest,
              with_score doc_key s candidates
              = (with_score doc_key s (_find_relevant_documents settings db q)
                 ++ rest)%list))
  /\ (forall (db : Database) (q : ChatQuery),
        let candidates :=
          select_meetings (meeting_keywords q)
                          (get_recent_meetings db (lookback_days q) 50) in
        StronglySorted (before mtg_key) (sorted_meetings db q)
        /\ Permutation (sorted_meetings db q) candidates
        /\ (forall s : Q,
              with_score mtg_key s (sorted_meetings db q)
              = with_score mtg_key s candidates)
        /\ StronglySorted (before mtg_key) (_find_relevant_meetings db q)
        /\ (forall s : Q,
              exists rest,
                with_score mtg_key s candidates
                = (with_score mtg_key s (_find_relevant_meetings db q)
                   ++ rest)%list))
  /\ (forall docs : list document,
        StronglySorted (before doc_key) (sort_desc doc_key docs)
        /\ Permutation (sort_desc doc_key docs) docs
        /\ (forall s : Q,
              with_score doc_key s (sort_desc doc_key docs)
              = with_score doc_key s docs)
        /\ (forall sorted : list document,
              StronglySorted (before doc_key) sorted ->
              (forall s : Q, with_score doc_key s sorted = with_score doc_key s docs) ->
              sorted = sort_desc doc_key docs))
  /\ (forall meetings : list meeting,
        StronglySorted (before mtg_key) (sort_desc mtg_key meetings)
        /\ Permutation (sort_desc mtg_key meetings) meetings
        /\ (forall s : Q,
              with_score mtg_key s (sort_desc mtg_key meetings)
              = with_score mtg_key s meetings)
        /\ (forall sorted : list meeting,
              StronglySorted (before mtg_key) sorted ->
              (forall s : Q,
                  with_score mtg_key s sorted = with_score mtg_key s meetings) ->
              sorted = sort_desc mtg_key meetings)).
Proof.
  split; [|split; [|split]].
  - intros settings db q candidates. subst candidates.
    unfold _find_relevant_documents, sorted_documents.
    split; [apply sort_desc_sorted|].
    split; [apply sort_desc_perm|].
    split; [intros s; apply sort_desc_stable|].
    split; [apply py_slice_to_sorted, sort_desc_sorted|].
    intros s. rewrite <- (sort_desc_stable doc_key s).
    apply with_score_slice.
  - intros db q candidates. subst candidates.
    unfold _find_relevant_meetings, sorted_meetings.
    split; [apply sort_desc_sorted|].
    split; [apply sort_desc_perm|].
    split; [intros s; apply sort_desc_stable|].
    split; [apply py_slice_to_sorted, sort_desc_sorted|].
    intros s. rewrite <- (sort_desc_stable mtg_key s).
    apply with_score_slice.
  - intros l. split; [apply sort_desc_sorted|].
    split; [apply sort_desc_perm|].
    split; [intros s; apply sort_desc_stable|].
    intros sorted Hsorted Hstable.
    eapply sorted_stable_unique; [exact Hsorted | apply sort_desc_sorted|].
    intros s. rewrite sort_desc_stable. apply Hstable.
  - intros l. split; [apply sort_desc_sorted|].
    split; [apply sort_desc_perm|].
    split; [intros s; apply sort_desc_stable|].
    intros sorted Hsorted Hstable.
    eapply sorted_stable_unique; [exact Hsorted | apply sort_desc_sorted|].
    intros s. rewrite sort_desc_stable. apply Hstable.
Qed.

(** C5: with a maximum that is not negative the document search returns at
    most [MAX_CONTEXT_DOCUMENTS] documents, 10 by default, and the meeting
    search at most 10 meetings; each result is a prefix of the sorted
    candidates. *)
Theorem search_results_truncated :
  forall (settings : Settings) (db : Database) (q : ChatQuery),
    (0 <= MAX_CONTEXT_DOCUMENTS settings)%Z ->
    (Z.of_nat (List.length (_find_relevant_documents settings db q))
     <= MAX_CONTEXT_DOCUMENTS settings)%Z
    /\ (exists rest,
          sorted_documents db q = _find_relevant_documents settings db q ++ rest)
    /\ (List.length (_find_relevant_meetings db q) <= 10)%nat
    /\ (exists rest,
          sorted_meetings db q = _find_relevant_meetings db q ++ rest)
    /\ MAX_CONTEXT_DOCUMENTS default_settings = 10%Z.
Proof.
  intros settings db q Hmax.
  split; [now apply py_slice_to_length|].
  split; [apply py_slice_to_prefix|].
  split.
  - pose proof (py_slice_to_length 10 (sorted_meetings db q)) as H.
    unfold _find_relevant_meetings. lia.
  - split; [apply py_slice_to_prefix | reflexivity].
Qed.

Lemma search_results_truncated_witness :
  (0 <= MAX_CONTEXT_DOCUMENTS default_settings)%Z
  /\ (Z.of_nat (List.length
         (_find_relevant_documents default_settings
            (memory_store [mongo_doc] []) mongo_query))
       <= MAX_CONTEXT_DOCUMENTS default_settings)%Z.
Proof.
  split.
  - vm_compute. discriminate.
  - apply (search_results_truncated default_settings
             (memory_store [mongo_doc] []) mongo_query).
    vm_compute. discriminate.
Defined.

(** ** The example of the specification *)

(** C2, as amended: the keywords of "What is MongoDB used for?" are what,
    mongodb, used and for (only "is" is shorter than three characters); of
    these only mongodb occurs in the example document, whose score is 1/4;
    it is returned, with that score, when it is the one candidate. *)
Theorem mongo_example :
  document_keywords mongo_query = ["what"; "mongodb"; "used"; "for"]
  /\ score (document_keywords mongo_query)
           (PyStr.lower (document_text mongo_doc)) = (1 # 4)%Q
  /\ _find_relevant_documents default_settings (memory_store [mongo_doc] [])
                              mongo_query
     = [set_doc_score mongo_doc (1 # 4)].
Proof. repeat split; vm_compute; reflexivity. Qed.

(** C2, as stated, fails: the keyword set is not {mongodb, used} and the
    score of the example document is not 1. *)
Lemma mongo_example_counterexample :
  (In "for" (document_keywords mongo_query)
   /\ In "what" (document_keywords mongo_query)
   /\ ~ In "for" ["mongodb"; "used"])
  /\ Qeq_bool (score (document_keywords mongo_query)
                     (PyStr.lower (document_text mongo_doc))) 1 = false.
Proof.
  split; [|reflexivity].
  split; [vm_compute; tauto|].
  split; [vm_compute; tauto|].
  simpl. intros [H|[H|[]]]; discriminate.
Qed.

(** ** Context building on empty results *)

Lemma find_relevant_documents_no_candidates settings db q :
  (forall search_text limit, search_documents_text db search_text limit = []) ->
  _find_relevant_documents settings db q = [].
Proof.
  intros Hempty.
  unfold _find_relevant_documents, sorted_documents, all_docs.
  assert (E : forall l : list string,
             flat_map (fun keyword => search_documents_text db keyword 10) l = []).
  { induction l as [|k l IH]; simpl; [reflexivity|]. now rewrite Hempty, IH. }
  rewrite E. simpl. apply py_slice_to_nil.
Qed.

Lemma find_relevant_meetings_no_candidates db q :
  get_recent_meetings db (lookback_days q) 50 = [] ->
  _find_relevant_meetings db q = [].
Proof.
  intros Hempty.
  unfold _find_relevant_meetings, sorted_meetings.
  rewrite Hempty. simpl. apply py_slice_to_nil.
Qed.

(** C8: each search returns the empty list when the store has no candidate
    for it, and [_build_context] returns the empty string when nothing is
    found: no record under a given id, and no relevant document or meeting
    when no id is given. *)
Theorem empty_context_when_nothing_found :
  forall (settings : Settings) (db : Database) (q : ChatQuery),
    ((forall search_text limit, search_documents_text db search_text limit = []) ->
     _find_relevant_documents settings db q = [])
    /\ (get_recent_meetings db (lookback_days q) 50 = [] ->
        _find_relevant_meetings db q = [])
    /\ ((given (q_doc_id q) = true ->
         get_document_by_id db (get (q_doc_id q) "") = None) ->
        (given (q_meeting_id q) = true ->
         get_meeting_by_id db (get (q_meeting_id q) "") = None) ->
        (given (q_doc_id q) = false -> given (q_meeting_id q) = false ->
         _find_relevant_documents settings db q = []
         /\ _find_relevant_meetings db q = []) ->
        _build_context settings db q = "").
Proof.
  intros settings db q.
  split; [apply find_relevant_documents_no_candidates|].
  split; [apply find_relevant_meetings_no_candidates|].
  intros Hdoc Hmtg Hnone.
  unfold _build_context, context_parts.
  destruct (given (q_doc_id q)) eqn:Ed.
  - rewrite (Hdoc eq_refl).
    destruct (given (q_meeting_id q)) eqn:Em.
    + now rewrite (Hmtg eq_refl).
    + reflexivity.
  - destruct (given (q_meeting_id q)) eqn:Em.
    + now rewrite (Hmtg eq_refl).
    + destruct (Hnone eq_refl eq_refl) as [-> ->]. reflexivity.
Qed.

Lemma empty_context_when_nothing_found_witness :
  _find_relevant_documents default_settings empty_store mongo_query = []
  /\ _find_relevant_meetings empty_store mongo_query = []
  /\ _build_context default_settings empty_store mongo_query = "".
Proof.
  destruct (empty_context_when_nothing_found
              default_settings empty_store mongo_query) as [Hd [Hm Hc]].
  split; [|split].
  - apply Hd. intros search_text limit. simpl. apply py_slice_to_nil.
  - apply Hm. reflexivity.
  - apply Hc.
    + discriminate.
    + discriminate.
    + intros _ _. split; reflexivity.
Defined.

(** ** Provider selection *)

Lemma existsb_eqb_In (x : string) (l : list string) :
  existsb (String.eqb x) l = true <-> In x l.
Proof.
  rewrite existsb_exists. split.
  - intros [y [Hin E]]. apply String.eqb_eq in E. now subst.
  - intros H. exists x. split; [exact H | apply String.eqb_refl].
Qed.

Lemma get_response_available (ai : AIProvider) (name : string) :
  In name (get_available_providers ai) ->
  exists h : handler,
    (openai_handler ai = Some h \/ gemini_handler ai = Some h)
    /\ forall prompt context,
         get_response ai prompt context name = h prompt context.
Proof.
  unfold get_available_providers, get_response.
  destruct (openai_handler ai) as [o|], (gemini_handler ai) as [g|]; simpl.
  - intros [<-|[<-|[]]].
    + exists o. split; [now left | reflexivity].
    + exists g. split; [now right | reflexivity].
  - intros [<-|[]]. exists o. split; [now left | reflexivity].
  - intros [<-|[]]. exists g. split; [now right | reflexivity].
  - intros [].
Qed.

(** C9: the provider of the query is checked against the providers whose
    handler exists. When there is one, [ask_question] uses the provider of
    the query if it is among them and else the first of them: the response
    names that provider, the handler of that name is the one called, with
    the question and the context, and its text is the answer, or its
    failure the error reported. With no provider at all [get_response]
    raises the error of an unavailable provider, which [ask_question]
    reports to its caller in the answer. *)
Theorem provider_validation :
  forall (settings : Settings) (db : Database) (ai : AIProvider) (q : ChatQuery),
    let available_providers := get_available_providers ai in
    let provider := validated_provider ai q in
    let context := _build_context settings db q in
    let response := ask_question settings db ai q in
    (In (q_ai_provider q) available_providers -> provider = q_ai_provider q)
    /\ (~ In (q_ai_provider q) available_providers ->
        provider = hd "openai" available_providers)
    /\ (available_providers <> [] ->
        In provider available_providers
        /\ ai_provider response = provider
        /\ exists h : handler,
             (provider = "openai" /\ openai_handler ai = Some h
              \/ provider = "gemini" /\ gemini_handler ai = Some h)
             /\ (forall prompt context,
                    get_response ai prompt context provider = h prompt context)
             /\ (blank context = true ->
                 response
                 = match h (question q ++ no_context_note)%string "" with
                   | Ok text => mkChatResponse text [] provider 0.3
                   | Raise e => error_response e provider
                   end)
             /\ (blank context = false ->
                 response
                 = match h (question q) context with
                   | Ok text =>
                       mkChatResponse text (_get_source_meetings settings db q)
                                      provider
                                      (_calculate_confidence text (question q))
                   | Raise e => error_response e provider
                   end))
    /\ (available_providers = [] ->
        (forall prompt context name,
            get_response ai prompt context name = Raise (unavailable name))
        /\ response = error_response (unavailable "openai") "openai").
Proof.
  intros settings db ai q available_providers provider context response.
  subst available_providers provider context response.
  split; [|split; [|split]].
  - unfold validated_provider.
    intros H. apply existsb_eqb_In in H. now rewrite H.
  - unfold validated_provider. intros H.
    destruct (existsb (String.eqb (q_ai_provider q)) (get_available_providers ai)) eqn:E.
    + apply existsb_eqb_In in E. contradiction.
    + reflexivity.
  - intros Hne.
    assert (Hin : In (validated_provider ai q) (get_available_providers ai)).
    { unfold validated_provider.
      destruct (existsb (String.eqb (q_ai_provider q))
                        (get_available_providers ai)) eqn:E.
      - now apply existsb_eqb_In.
      - destruct (get_available_providers ai); [contradiction | now left]. }
    split; [exact Hin|].
    assert (Hh : exists h : handler,
               (validated_provider ai q = "openai" /\ openai_handler ai = Some h
                \/ validated_provider ai q = "gemini"
                   /\ gemini_handler ai = Some h)
               /\ forall prompt context,
                    get_response ai prompt context (validated_provider ai q)
                    = h prompt context).
    { revert Hin. generalize (validated_provider ai q) as name. intros name.
      unfold get_available_providers, get_response.
      destruct (openai_handler ai) as [o|], (gemini_handler ai) as [g|];
        cbn [present app In].
      - intros [<-|[<-|[]]].
        + exists o. split; [left; now split | reflexivity].
        + exists g. split; [right; now split | reflexivity].
      - intros [<-|[]]. exists o. split; [left; now split | reflexivity].
      - intros [<-|[]]. exists g. split; [right; now split | reflexivity].
      - intros []. }
    destruct Hh as [h [Hname Hget]].
    assert (Htruthy : (if PyStr.truthy (validated_provider ai q)
                       then validated_provider ai q else "openai")
                      = validated_provider ai q).
    { destruct Hname as [[E _]|[E _]]; rewrite E; reflexivity. }
    split.
    { unfold ask_question.
      destruct (blank _); destruct (get_response ai _ _ _);
        cbn [ai_provider error_response]; try reflexivity; exact Htruthy. }
    exists h. split; [exact Hname|]. split; [exact Hget|].
    unfold ask_question.
    split; intros Hb; rewrite Hb, Hget; reflexivity.
  - intros Hnone.
    assert (Ho : openai_handler ai = None).
    { revert Hnone. unfold get_available_providers.
      destruct (openai_handler ai); [discriminate | reflexivity]. }
    assert (Hg : gemini_handler ai = None).
    { revert Hnone. unfold get_available_providers.
      destruct (openai_handler ai), (gemini_handler ai);
        try discriminate; reflexivity. }
    assert (Hraise : forall prompt context name,
               get_response ai prompt context name = Raise (unavailable name)).
    { intros. unfold get_response. rewrite Ho, Hg.
      destruct (name =? "openai"), (name =? "gemini"); reflexivity. }
    split; [exact Hraise|].
    unfold ask_question, validated_provider.
    rewrite Hnone. simpl existsb. cbv iota. simpl hd.
    rewrite !Hraise.
    destruct (blank (_build_context settings db q)); reflexivity.
Qed.

(** The query asks for openai and gemini is the one provider: the answer
    is that of the gemini handler and the response names gemini; without
    any provider the response is the error. *)
Lemma provider_validation_witness :
  validated_provider gemini_only openai_query = "gemini"
  /\ ask_question default_settings empty_store gemini_only openai_query
     = mkChatResponse
         ("Answer to: " ++ question openai_query ++ no_context_note)%string []
         "gemini" 0.3
  /\ ask_question default_settings empty_store no_provider openai_query
     = error_response (unavailable "openai") "openai".
Proof.
  destruct (provider_validation default_settings empty_store gemini_only
                                openai_query) as [_ [Hfall [Hsome _]]].
  destruct (provider_validation default_settings empty_store no_provider
                                openai_query) as [_ [_ [_ Hnone]]].
  assert (Hgemini : validated_provider gemini_only openai_query = "gemini").
  { rewrite Hfall; [reflexivity|].
    simpl. intros [H|[]]. discriminate. }
  split; [exact Hgemini|]. split.
  - destruct Hsome as [_ [_ [h [Hname [_ [Hblank _]]]]]]; [discriminate|].
    rewrite Hblank by reflexivity.
    destruct Hname as [[_ E]|[_ E]]; [discriminate|].
    injection E as <-. rewrite Hgemini. reflexivity.
  - apply Hnone. reflexivity.
Defined.

(** ** Strings *)

Local Open Scope string_scope.

Lemma lower_app (a b : string) :
  PyStr.lower (a ++ b) = (PyStr.lower a ++ PyStr.lower b)%string.
Proof.
  induction a as [|c a IH]; simpl; [reflexivity | now rewrite IH].
Qed.

Lemma prefix_app (p s : string) : prefix p (p ++ s) = true.
Proof.
  induction p as [|c p IH]; simpl.
  - now destruct s.
  - destruct (ascii_dec c c) as [_|N]; [exact IH | now elim N].
Qed.

Lemma contains_prefix (p s : string) :
  prefix p s = true -> PyStr.contains p s = true.
Proof.
  intros H. destruct s; cbn [PyStr.contains]; now rewrite H.
Qed.

Lemma contains_app (p a b : string) : PyStr.contains p (a ++ p ++ b) = true.
Proof.
  induction a as [|c a IH].
  - cbn [append]. apply contains_prefix, prefix_app.
  - cbn [append PyStr.contains]. rewrite IH. apply orb_true_r.
Qed.

Lemma append_assoc (a b c : string) : (a ++ b) ++ c = a ++ b ++ c.
Proof.
  induction a as [|x a IH]; cbn [append]; [reflexivity | now rewrite IH].
Qed.

Lemma append_nil_r (a : string) : a ++ "" = a.
Proof.
  induction a as [|x a IH]; cbn [append]; [reflexivity | now rewrite IH].
Qed.

Lemma length_append (a b : string) :
  String.length (a ++ b) = (String.length a + String.length b)%nat.
Proof.
  induction a as [|x a IH]; cbn [append String.length]; [reflexivity | now rewrite IH].
Qed.

Lemma length_take (n : nat) (s : string) :
  (n <= String.length s)%nat -> String.length (PyStr.take n s) = n.
Proof.
  unfold PyStr.take. revert s.
  induction n as [|n IH]; intros s H.
  - now destruct s.
  - destruct s as [|c s]; cbn [String.length] in H; [lia|].
    cbn [substring String.length]. rewrite IH; [reflexivity | lia].
Qed.

(** *** Occurrences *)

Lemma occurs_in_refl (x : string) : occurs_in x x.
Proof. exists "", "". cbn [append]. now rewrite append_nil_r. Qed.

Lemma occurs_in_empty (s : string) : occurs_in "" s.
Proof. now exists "", s. Qed.

Lemma occurs_in_head (x t : string) : occurs_in x (x ++ t).
Proof. now exists "", t. Qed.

Lemma occurs_in_app_r (x s t : string) : occurs_in x t -> occurs_in x (s ++ t).
Proof.
  intros [a [b ->]]. exists (s ++ a), b. now rewrite append_assoc.
Qed.

Lemma occurs_in_app_l (x s t : string) : occurs_in x s -> occurs_in x (s ++ t).
Proof.
  intros [a [b ->]]. exists a, (b ++ t). now rewrite !append_assoc.
Qed.

Lemma occurs_in_trans (x y z : string) :
  occurs_in x y -> occurs_in y z -> occurs_in x z.
Proof.
  intros Hxy [a [b ->]]. now apply occurs_in_app_r, occurs_in_app_l.
Qed.

Lemma occurs_in_join (sep x : string) (l : list string) :
  In x l -> occurs_in x (PyStr.join sep l).
Proof.
  unfold PyStr.join.
  induction l as [|y l IH]; [easy|].
  intros [->|H].
  - destruct l; cbn [concat]; [apply occurs_in_refl | apply occurs_in_head].
  - destruct l as [|z l]; [easy|]. cbn [concat].
    now apply occurs_in_app_r, occurs_in_app_r, IH.
Qed.

(** *** Stripping *)

Lemma rstrip_cons (c : ascii) (s : string) :
  PyStr.rstrip (String c s)
  = match PyStr.rstrip s with
    | "" => if PyStr.is_space c then "" else String c ""
    | r => String c r
    end.
Proof. reflexivity. Qed.

Lemma solid_skip (c : ascii) (s : string) : solid s -> solid (String c s).
Proof.
  unfold solid. rewrite rstrip_cons.
  destruct (PyStr.rstrip s); [easy | discriminate].
Qed.

Lemma solid_char (c : ascii) (s : string) :
  PyStr.is_space c = false -> solid (String c s).
Proof.
  unfold solid. intros H. rewrite rstrip_cons, H.
  destruct (PyStr.rstrip s); discriminate.
Qed.

Lemma solid_app_r (s t : string) : solid t -> solid (s ++ t).
Proof.
  intros H. induction s as [|c s IH]; cbn [append]; [exact H|].
  now apply solid_skip.
Qed.

Lemma solid_literal (c : ascii) (s t : string) :
  PyStr.is_space c = false -> solid (String c s ++ t).
Proof. intros H. cbn [append]. now apply solid_char. Qed.

Lemma solid_app_l (s t : string) : solid s -> solid (s ++ t).
Proof.
  induction s as [|c s IH]; [now intros [] |].
  unfold solid in *. cbn [append]. rewrite !rstrip_cons.
  destruct (PyStr.rstrip s) eqn:Es.
  - destruct (PyStr.is_space c); [now intros [] |].
    intros _. destruct (PyStr.rstrip (s ++ t)); discriminate.
  - intros _. destruct (PyStr.rstrip (s ++ t)) eqn:E; [|discriminate].
    exfalso. now apply IH.
Qed.

Lemma rstrip_app_solid (s t : string) :
  solid t -> PyStr.rstrip (s ++ t) = s ++ PyStr.rstrip t.
Proof.
  intros H. induction s as [|c s IH]; cbn [append]; [reflexivity|].
  rewrite rstrip_cons, IH.
  destruct (s ++ PyStr.rstrip t) eqn:E; [|reflexivity].
  exfalso. apply H. destruct s; [exact E | discriminate].
Qed.

Lemma rstrip_app_blank (s t : string) :
  PyStr.rstrip t = "" -> PyStr.rstrip (s ++ t) = PyStr.rstrip s.
Proof.
  intros H. induction s as [|c s IH]; cbn [append]; [exact H|].
  now rewrite !rstrip_cons, IH.
Qed.

Lemma lstrip_app_blank (w x : string) :
  PyStr.rstrip w = "" -> PyStr.lstrip (w ++ x) = PyStr.lstrip x.
Proof.
  induction w as [|c w IH]; cbn [append]; [reflexivity|].
  rewrite rstrip_cons. cbn [PyStr.lstrip].
  destruct (PyStr.rstrip w); [|discriminate].
  destruct (PyStr.is_space c); [auto | discriminate].
Qed.

Lemma lstrip_literal (c : ascii) (s t : string) :
  PyStr.is_space c = false -> PyStr.lstrip (String c s ++ t) = String c s ++ t.
Proof. intros H. cbn [append PyStr.lstrip]. now rewrite H. Qed.

Ltac solid_tac :=
  repeat first [ apply solid_literal; reflexivity
               | apply solid_app_l; assumption
               | apply solid_app_r ].

(** ** Renderings *)

Lemma render_document_content (i : nat) (doc : document) :
  occurs_in (PyStr.rstrip (get (doc_content doc) "No content available"))
            (render_document i doc).
Proof.
  unfold render_document, PyStr.strip.
  generalize (get (doc_content doc) "No content available"). intros c.
  destruct (string_dec (PyStr.rstrip c) "") as [E|Hs].
  - rewrite E. apply occurs_in_empty.
  - fold (solid c) in Hs.
    rewrite !rstrip_app_solid by solid_tac.
    rewrite (rstrip_app_blank c nl) by reflexivity.
    rewrite lstrip_app_blank by reflexivity.
    rewrite lstrip_literal by reflexivity.
    repeat apply occurs_in_app_r. apply occurs_in_refl.
Qed.

Lemma render_meeting_summary (i : nat) (m : meeting) :
  occurs_in (get (mtg_summary m) "No summary available") (render_meeting i m).
Proof.
  unfold render_meeting, PyStr.strip.
  generalize (get (mtg_summary m) "No summary available"). intros c.
  rewrite !rstrip_app_solid by solid_tac.
  rewrite lstrip_app_blank by reflexivity.
  rewrite lstrip_app_blank by reflexivity.
  rewrite lstrip_literal by reflexivity.
  repeat first [ apply occurs_in_head | apply occurs_in_app_r ].
Qed.

Lemma In_enumerate {A : Type} (x : A) (l : list A) (start : nat) :
  In x l -> exists i, In (i, x) (enumerate start l).
Proof.
  revert start. induction l as [|y l IH]; intros start; [easy|].
  intros [->|H].
  - exists start. now left.
  - destruct (IH (S start) H) as [i Hi]. exists i. now right.
Qed.

Lemma format_document_context_content (documents : list document) (doc : document) :
  In doc documents ->
  occurs_in (PyStr.rstrip (get (doc_content doc) "No content available"))
            (_format_document_context documents).
Proof.
  intros H.
  destruct (In_enumerate doc documents 1 H) as [i Hi].
  apply occurs_in_trans with (render_document i doc).
  - apply render_document_content.
  - unfold _format_document_context.
    destruct documents as [|d0 ds]; [easy|].
    apply occurs_in_join.
    apply in_map_iff. now exists (i, doc).
Qed.

Lemma format_meeting_context_summary (meetings : list meeting) (m : meeting) :
  In m meetings ->
  occurs_in (get (mtg_summary m) "No summary available")
            (_format_meeting_context meetings).
Proof.
  intros H.
  destruct (In_enumerate m meetings 1 H) as [i Hi].
  apply occurs_in_trans with (render_meeting i m).
  - apply render_meeting_summary.
  - unfold _format_meeting_context.
    destruct meetings as [|m0 ms]; [easy|].
    apply occurs_in_join.
    apply in_map_iff. now exists (i, m).
Qed.

Lemma preview_short (text : string) :
  (String.length text <= 200)%nat -> preview text = text.
Proof.
  intros H. unfold preview.
  destruct (200 <? String.length text)%nat eqn:E; [|reflexivity].
  apply Nat.ltb_lt in E. lia.
Qed.

Lemma preview_long (text : string) :
  (200 < String.length text)%nat ->
  preview text = PyStr.take 200 text ++ "..."
  /\ String.length (preview text) = 203%nat.
Proof.
  intros H. unfold preview.
  apply Nat.ltb_lt in H. rewrite H. apply Nat.ltb_lt in H.
  split; [reflexivity|].
  rewrite length_append, length_take by lia. reflexivity.
Qed.

(** C1, as amended: the preview of a document or meeting in the sources of
    a response is the text itself up to 200 characters and otherwise its
    first 200 characters followed by three dots; the context block is not
    cut: it holds the summary of each of its meetings in full and the
    content of each of its documents in full but for white space at its
    end. *)
Theorem previews_truncated_context_in_full :
  (forall text : string,
      ((String.length text <= 200)%nat -> preview text = text)
      /\ ((200 < String.length text)%nat ->
          preview text = PyStr.take 200 text ++ "..."
          /\ String.length (preview text) = 203%nat))
  /\ (forall d : document,
        _format_source_document d
        = SourceDocument (doc_id d) (doc_title d) (doc_category d)
                         (preview (get (doc_content d) "")))
  /\ (forall m : meeting,
        _format_source_meeting m
        = SourceMeeting (meeting_id m) (mtg_title m) (mtg_date m)
                        (preview (get (mtg_summary m) "")))
  /\ (forall (documents : list document) (d : document),
        In d documents ->
        occurs_in (PyStr.rstrip (get (doc_content d) "No content available"))
                  (_format_document_context documents))
  /\ (forall (meetings : list meeting) (m : meeting),
        In m meetings ->
        occurs_in (get (mtg_summary m) "No summary available")
                  (_format_meeting_context meetings)).
Proof.
  split; [|split; [|split; [|split]]].
  - intros text. split; [apply preview_short | apply preview_long].
  - reflexivity.
  - reflexivity.
  - apply format_document_context_content.
  - apply format_meeting_context_summary.
Qed.

Lemma previews_truncated_context_in_full_witness :
  String.length (preview (letters 201)) = 203%nat
  /\ occurs_in (letters 201) (_format_document_context [long_doc])
  /\ occurs_in (letters 201) (_format_meeting_context [long_meeting]).
Proof.
  destruct previews_truncated_context_in_full as [Hp [_ [_ [Hd Hm]]]].
  split; [|split].
  - apply (Hp (letters 201)). vm_compute. lia.
  - apply (Hd [long_doc] long_doc). now left.
  - apply (Hm [long_meeting] long_meeting). now left.
Defined.

(** C1, as stated, fails: a content and a summary of 201 characters stand
    in the context block in full, not cut to 200 characters and three
    dots. *)
Lemma context_truncation_counterexample :
  _format_document_context [long_doc]
  = "Document 1: Report" ++ nl ++ "Category: General" ++ nl ++ "Tags: " ++ nl
    ++ "Content: " ++ letters 201
  /\ (_format_document_context [long_doc]
      =? _format_document_context [with_content long_doc (preview (letters 201))])
     = false
  /\ (_format_meeting_context [long_meeting]
      =? _format_meeting_context [with_summary long_meeting (preview (letters 201))])
     = false.
Proof. repeat split; vm_compute; reflexivity. Qed.

(** ** The uncertainty phrases *)

(** C6: when some part of the answer is, letter case aside, one of the
    uncertainty phrases, [_calculate_confidence] returns 0.2, whatever the
    question and its overlap with the answer; the check stops at the first
    phrase found. *)
Theorem uncertainty_forces_low_confidence :
  forall (answer question phrase before_it found after_it : string),
    In phrase uncertainty_phrases ->
    answer = (before_it ++ found ++ after_it)%string ->
    PyStr.lower found = phrase ->
    _calculate_confidence answer question = 0.2%float.
Proof.
  intros answer question phrase a u b Hin -> Hlow.
  unfold _calculate_confidence.
  assert (E : existsb (fun phrase => PyStr.contains phrase
                                       (PyStr.lower (a ++ u ++ b)))
                      uncertainty_phrases = true).
  { apply existsb_exists. exists phrase. split; [exact Hin|].
    rewrite !lower_app, Hlow. apply contains_app. }
  now rewrite E.
Qed.

Lemma uncertainty_forces_low_confidence_witness :
  _calculate_confidence "Sorry, I don't know the budget of the project."
                        "What is the budget of the project?"
  = 0.2%float.
Proof.
  apply (uncertainty_forces_low_confidence
           "Sorry, I don't know the budget of the project."
           "What is the budget of the project?"
           "i don't know" "Sorry, " "I don't know" " the budget of the project.").
  - simpl. now left.
  - reflexivity.
  - reflexivity.
Defined.

(** ** The confidence of an answer *)

Lemma Prim2SF_07 : Prim2SF 0.7 = S754_finite false m07 (-53).
Proof. reflexivity. Qed.

Lemma Prim2SF_095 : Prim2SF 0.95 = S754_finite false m095 (-53).
Proof. reflexivity. Qed.

Lemma nn_float_of_nat (n : nat) : nn (Prim2SF (float_of_nat n)) = true.
Proof.
  unfold float_of_nat. rewrite of_uint63_spec.
  apply nn_binary_normalize.
  apply Uint63.to_Z_bounded.
Qed.

Lemma nn_true_div (a b : nat) : nn (Prim2SF (true_div a b)) = true.
Proof.
  unfold true_div. rewrite div_spec.
  apply nn_SFdiv; apply nn_float_of_nat.
Qed.

(** A float that is at least 0.7 and below 0.95 is in the band. *)
Lemma in_band_of_lt (x : spec_float) :
  ge07 x = true ->
  SFltb x (S754_finite false m095 (-53)) = true ->
  in_band x = true.
Proof.
  destruct x as [s|[]| |[] m e]; try discriminate.
  unfold ge07, in_band, SFltb, SFcompare.
  destruct (Z.compare_spec e (-53)) as [->|Hlt|Hgt]; try discriminate.
  - intros Hge Hcmp.
    rewrite Z.ltb_irrefl, Z.eqb_refl in Hge. cbn [orb andb] in Hge.
    rewrite Z.eqb_refl, Hge. cbn [andb].
    apply Pos.leb_le.
    rewrite Pos.compare_cont_spec in Hcmp.
    destruct (Pos.compare_spec m m095) as [E|E|E];
      cbn [Pos.switch_Eq] in Hcmp; try discriminate.
    now apply Pos.lt_le_incl.
  - intros Hge _.
    apply orb_true_iff in Hge. destruct Hge as [H|H].
    + apply Z.ltb_lt in H. lia.
    + apply andb_true_iff in H. destruct H as [H _].
      apply Z.eqb_eq in H. lia.
Qed.

Lemma min_in_band (t : float) :
  nn (Prim2SF t) = true ->
  in_band (Prim2SF (py_min 0.95 (0.7 + t * 0.3))) = true.
Proof.
  intros Ht.
  assert (Hz : ge07 (Prim2SF (0.7 + t * 0.3)) = true).
  { rewrite add_spec, mul_spec, Prim2SF_07.
    apply SFadd_07_ge. apply nn_SFmul; [exact Ht | reflexivity]. }
  unfold py_min. rewrite ltb_spec, Prim2SF_095.
  destruct (SFltb (Prim2SF (0.7 + t * 0.3)) (S754_finite false m095 (-53))) eqn:E.
  - now apply in_band_of_lt.
  - reflexivity.
Qed.

Lemma hundredths_in_band (m : positive) :
  (m07 <= m)%positive -> (m <= m095)%positive ->
  (70 <= round_half_even (Z.pos m * 100) (2 ^ 53) <= 95)%Z.
Proof.
  intros Hlo Hhi. unfold round_half_even.
  change (2 ^ 53)%Z with 9007199254740992%Z.
  assert (Hdm := Z.div_mod (Z.pos m * 100) 9007199254740992 ltac:(discriminate)).
  assert (Hb := Z.mod_pos_bound (Z.pos m * 100) 9007199254740992 eq_refl).
  apply Pos2Z.pos_le_pos in Hlo, Hhi.
  change (Z.pos m07) with 6305039478318694%Z in Hlo.
  change (Z.pos m095) with 8556839292003942%Z in Hhi.
  remember (Z.pos m * 100 / 9007199254740992)%Z as q eqn:Eq.
  remember ((Z.pos m * 100) mod 9007199254740992)%Z as r eqn:Er.
  remember (Z.pos m) as mz eqn:Em.
  clear Eq Er Em.
  destruct (Z.compare_spec (2 * r) 9007199254740992);
    [destruct (Z.even q)| |]; lia.
Qed.

Lemma round2_in_band (c : float) :
  in_band (Prim2SF c) = true ->
  in_range 0.7 0.95 (py_round2 c) = true.
Proof.
  unfold py_round2, in_band.
  destruct (Prim2SF c) as [s|s| |[] m e]; try discriminate.
  intros H.
  apply andb_true_iff in H. destruct H as [H Hhi].
  apply andb_true_iff in H. destruct H as [He Hlo].
  apply Z.eqb_eq in He. subst e.
  apply Pos.leb_le in Hlo, Hhi.
  pose proof (hundredths_in_band m Hlo Hhi) as Hk.
  cbn [Z.leb Z.compare Z.opp].
  change (2 ^ 53)%Z with (2 ^ 53)%Z in Hk.
  remember (round_half_even (Z.pos m * 100) (2 ^ 53)) as k eqn:Ek.
  clear Ek Hlo Hhi.
  assert (Hcases : (k = 70 \/ k = 71 \/ k = 72 \/ k = 73 \/ k = 74 \/ k = 75
                    \/ k = 76 \/ k = 77 \/ k = 78 \/ k = 79 \/ k = 80 \/ k = 81
                    \/ k = 82 \/ k = 83 \/ k = 84 \/ k = 85 \/ k = 86 \/ k = 87
                    \/ k = 88 \/ k = 89 \/ k = 90 \/ k = 91 \/ k = 92 \/ k = 93
                    \/ k = 94 \/ k = 95)%Z) by lia.
  clear Hk.
  repeat (destruct Hcases as [->|Hcases]; [vm_compute; reflexivity|]).
  subst k. vm_compute. reflexivity.
Qed.

Lemma calculate_confidence_cases (answer question : string) :
  _calculate_confidence answer question = 0.2%float
  \/ in_range 0.7 0.95 (_calculate_confidence answer question) = true.
Proof.
  unfold _calculate_confidence.
  destruct (existsb _ uncertainty_phrases); [now left | right].
  apply round2_in_band, min_in_band.
  destruct (nonempty _); [apply nn_true_div | reflexivity].
Qed.

Lemma in_range_widen (x : float) :
  in_range 0.7 0.95 x = true -> in_range 0.2 0.95 x = true.
Proof.
  unfold in_range. rewrite !andb_true_iff, !leb_spec.
  intros [Hlo Hhi]. split; [|exact Hhi].
  revert Hlo. change (Prim2SF 0.7) with (S754_finite false m07 (-53)).
  change (Prim2SF 0.2) with (S754_finite false 7205759403792794 (-55)).
  destruct (Prim2SF x) as [s|[]| |[] m e]; try discriminate; try reflexivity.
  unfold SFleb, SFcompare.
  destruct (Z.compare_spec (-53) e) as [<-|H|H]; try discriminate; intros _.
  - reflexivity.
  - destruct (Z.compare_spec (-55) e) as [E|E|E]; try reflexivity; lia.
Qed.

(** C7, as amended: the confidence of [_calculate_confidence] is 0.2 when
    an uncertainty phrase occurs in the answer and otherwise the rounding
    to two decimals of [min(0.95, 0.7 + 0.3 * overlap)], where the overlap
    is the share of the terms of the question that are terms of the answer
    (0 for a question without term); this lies between 0.7 and 0.95, so
    that the confidence always lies between 0.2 and 0.95. [ask_question]
    returns it when a context was assembled and the provider answered,
    returns 0.3 when no context was assembled and the provider answered,
    and returns 0.0, with the error as the answer, when the provider
    raised. *)
Theorem confidence_of_answers :
  (forall answer question : string,
      let question_terms := terms (PyStr.lower question) in
      let answer_terms := terms (PyStr.lower answer) in
      let term_similarity :=
        if nonempty question_terms
        then true_div (overlap question_terms answer_terms)
                      (List.length question_terms)
        else 0%float in
      in_range 0.2 0.95 (_calculate_confidence answer question) = true
      /\ (_calculate_confidence answer question = 0.2%float
          \/ in_range 0.7 0.95 (_calculate_confidence answer question) = true)
      /\ ((exists phrase,
              In phrase uncertainty_phrases
              /\ PyStr.contains phrase (PyStr.lower answer) = true) ->
          _calculate_confidence answer question = 0.2%float)
      /\ ((forall phrase,
              In phrase uncertainty_phrases ->
              PyStr.contains phrase (PyStr.lower answer) = false) ->
          _calculate_confidence answer question
          = py_round2 (py_min 0.95 (0.7 + term_similarity * 0.3))
          /\ in_range 0.7 0.95 (_calculate_confidence answer question) = true))
  /\ (forall settings db ai q,
        let context := _build_context settings db q in
        let provider := validated_provider ai q in
        let response := ask_question settings db ai q in
        (exists e,
            get_response ai
              (if blank context then question q ++ no_context_note else question q)
              (if blank context then "" else context) provider
            = Raise e
            /\ response = error_response e provider
            /\ confidence response = 0%float)
        \/ (blank context = true
            /\ get_response ai (question q ++ no_context_note) "" provider
               = Ok (answer response)
            /\ confidence response = 0.3%float)
        \/ (blank context = false
            /\ get_response ai (question q) context provider
               = Ok (answer response)
            /\ confidence response
               = _calculate_confidence (answer response) (question q)
            /\ in_range 0.2 0.95 (confidence response) = true)).
Proof.
  assert (Hcalc : forall answer question : string,
             in_range 0.2 0.95 (_calculate_confidence answer question) = true
             /\ (_calculate_confidence answer question = 0.2%float
                 \/ in_range 0.7 0.95 (_calculate_confidence answer question) = true)).
  { intros answer question.
    destruct (calculate_confidence_cases answer question) as [E|H].
    - split; [now rewrite E | now left].
    - split; [now apply in_range_widen | now right]. }
  split.
  { intros answer question question_terms answer_terms term_similarity.
    subst question_terms answer_terms term_similarity.
    destruct (Hcalc answer question) as [H1 H2].
    split; [exact H1|]. split; [exact H2|]. split.
    - intros H. apply existsb_exists in H.
      unfold _calculate_confidence. now rewrite H.
    - intros H.
      assert (E : existsb (fun phrase => PyStr.contains phrase (PyStr.lower answer))
                          uncertainty_phrases = false).
      { destruct (existsb _ uncertainty_phrases) eqn:E; [|reflexivity].
        apply existsb_exists in E. destruct E as [phrase [Hin Hc]].
        rewrite (H phrase Hin) in Hc. discriminate. }
      split.
      + unfold _calculate_confidence. now rewrite E.
      + unfold _calculate_confidence. rewrite E.
        apply round2_in_band, min_in_band.
        destruct (nonempty _); [apply nn_true_div | reflexivity]. }
  intros settings db ai q context provider response.
  subst context provider response. unfold ask_question.
  destruct (blank (_build_context settings db q)) eqn:Eb.
  - destruct (get_response ai (question q ++ no_context_note) ""
                (validated_provider ai q)) as [a|e] eqn:Eg.
    + right; left. now rewrite <- Eg.
    + left. exists e. now rewrite <- Eg.
  - destruct (get_response ai (question q) (_build_context settings db q)
                (validated_provider ai q)) as [a|e] eqn:Eg.
    + right; right. cbn [answer confidence].
      split; [reflexivity|]. split; [reflexivity|].
      split; [reflexivity | apply Hcalc].
    + left. exists e. now rewrite <- Eg.
Qed.

(** C7, as stated, fails: without a provider and without a context the
    confidence returned is 0.0, not 0.3; with a context and a provider
    whose call fails it is 0.0 as well, below 0.2. *)
Lemma confidence_counterexample :
  (_build_context default_settings empty_store openai_query = ""
   /\ confidence (ask_question default_settings empty_store no_provider
                               openai_query) = 0%float)
  /\ (blank (_build_context default_settings (memory_store [mongo_doc] [])
                            mongo_query) = false
      /\ confidence (ask_question default_settings (memory_store [mongo_doc] [])
                                  gemini_down mongo_query) = 0%float)
  /\ in_range 0.2 0.95 0 = false
  /\ (0 =? 0.3)%float = false.
Proof. repeat split; vm_compute; reflexivity. Qed.

(** The estimator on answers that share one of four and two of three words
    with the question. *)
Example confidence_one_of_four :
  _calculate_confidence "a" "a b c d" = 0.77%float.
Proof. vm_compute. reflexivity. Qed.

Example confidence_two_of_three :
  _calculate_confidence "x y z" "X y q" = 0.9%float.
Proof. vm_compute. reflexivity. Qed.

(** * Further properties *)

Local Open Scope list_scope.

(** ** Duplicates *)

Lemma unique_by_id_spec (seen : list string) (docs : list document) :
  NoDup (map dedup_key (unique_by_id seen docs))
  /\ (forall d, In d (unique_by_id seen docs) -> ~ In (dedup_key d) seen)
  /\ (forall d, In d docs ->
        In (dedup_key d) seen
        \/ In (dedup_key d) (map dedup_key (unique_by_id seen docs))).
Proof.
  revert seen.
  induction docs as [|doc rest IH]; intros seen; cbn [unique_by_id].
  - split; [constructor|]. split; [intros d []|intros d []].
  - destruct (existsb (String.eqb (dedup_key doc)) seen) eqn:E.
    + destruct (IH seen) as [Hnd [Hout Hin]].
      split; [exact Hnd|]. split; [exact Hout|].
      intros d [<-|Hd]; [left; now apply existsb_eqb_In | now apply Hin].
    + destruct (IH (dedup_key doc :: seen)) as [Hnd [Hout Hin]].
      assert (Hnew : ~ In (dedup_key doc) seen).
      { intros H. apply existsb_eqb_In in H. congruence. }
      split; [|split].
      * cbn [map]. constructor; [|exact Hnd].
        intros H. apply in_map_iff in H. destruct H as [d [Ek Hd]].
        apply (Hout d Hd). left. now symmetry.
      * intros d [<-|Hd]; [exact Hnew|].
        intros H. apply (Hout d Hd). now right.
      * intros d [<-|Hd]; [right; now left|].
        destruct (Hin d Hd) as [[E1|H]|H].
        -- right. left. exact E1.
        -- now left.
        -- right. now right.
Qed.

Lemma unique_by_id_first (seen : list string) (docs : list document) (d : document) :
  In d (unique_by_id seen docs) ->
  exists l1 l2,
    docs = l1 ++ d :: l2
    /\ forall x, In x l1 -> dedup_key x <> dedup_key d.
Proof.
  revert seen.
  induction docs as [|doc rest IH]; intros seen; cbn [unique_by_id]; [easy|].
  destruct (existsb (String.eqb (dedup_key doc)) seen) eqn:E.
  - intros H.
    destruct (unique_by_id_spec seen rest) as [_ [Hout _]].
    destruct (IH seen H) as [l1 [l2 [-> Hl1]]].
    exists (doc :: l1), l2. split; [reflexivity|].
    intros x [<-|Hx]; [|now apply Hl1].
    intros Ek. apply (Hout d H). rewrite <- Ek. now apply existsb_eqb_In.
  - intros [<-|H].
    + exists [], rest. split; [reflexivity | intros x []].
    + destruct (unique_by_id_spec (dedup_key doc :: seen) rest) as [_ [Hout _]].
      destruct (IH _ H) as [l1 [l2 [-> Hl1]]].
      exists (doc :: l1), l2. split; [reflexivity|].
      intros x [<-|Hx]; [|now apply Hl1].
      intros Ek. apply (Hout d H). left. exact Ek.
Qed.

(** X1: the loop that removes duplicates keeps, of the documents the store
    returned, exactly the first one of each id: the ids of the result are
    pairwise distinct, every id of the input is still there, and no
    document before a kept one has its id. *)
Theorem duplicates_removed :
  forall docs : list document,
    NoDup (map dedup_key (unique_by_id [] docs))
    /\ (forall d, In d docs ->
          In (dedup_key d) (map dedup_key (unique_by_id [] docs)))
    /\ (forall d, In d (unique_by_id [] docs) ->
          exists l1 l2,
            docs = l1 ++ d :: l2
            /\ forall x, In x l1 -> dedup_key x <> dedup_key d).
Proof.
  intros docs.
  destruct (unique_by_id_spec [] docs) as [Hnd [_ Hin]].
  split; [exact Hnd|]. split.
  - intros d Hd. destruct (Hin d Hd) as [[]|H]. exact H.
  - intros d. apply unique_by_id_first.
Qed.

(** ** What the searches return *)

Lemma py_slice_to_NoDup {A : Type} (k : Z) (l : list A) :
  NoDup l -> NoDup (py_slice_to k l).
Proof.
  intros H. destruct (py_slice_to_prefix k l) as [rest E].
  rewrite E in H. now apply NoDup_app_remove_r in H.
Qed.

Lemma py_slice_to_map {A B : Type} (f : A -> B) (k : Z) (l : list A) :
  map f (py_slice_to k l) = py_slice_to k (map f l).
Proof.
  unfold py_slice_to. rewrite length_map.
  destruct (0 <=? k)%Z; symmetry; apply firstn_map.
Qed.

Lemma py_slice_to_le {A : Type} (k : Z) (l : list A) :
  (List.length (py_slice_to k l) <= List.length l)%nat.
Proof.
  destruct (py_slice_to_prefix k l) as [rest E].
  rewrite E at 2. rewrite length_app. lia.
Qed.

Lemma dedup_key_scored (keywords : list string) (l : list document) :
  map dedup_key (map (score_document keywords) l) = map dedup_key l.
Proof.
  rewrite map_map. apply map_ext. now intros [].
Qed.

Lemma unique_by_id_In (seen : list string) (docs : list document) (d : document) :
  In d (unique_by_id seen docs) -> In d docs.
Proof.
  intros H. destruct (unique_by_id_first seen docs d H) as [l1 [l2 [-> _]]].
  apply in_or_app. right. now left.
Qed.

Lemma unique_by_id_length (seen : list string) (docs : list document) :
  (List.length (unique_by_id seen docs) <= List.length docs)%nat.
Proof.
  revert seen. induction docs as [|doc rest IH]; intros seen; cbn [unique_by_id].
  - lia.
  - destruct (existsb _ seen); cbn [List.length].
    + specialize (IH seen). lia.
    + specialize (IH (dedup_key doc :: seen)). lia.
Qed.

(** X2: the documents that the document search returns stand by decreasing
    score and have pairwise distinct ids; each one is a document that the
    store returned for one of the first five keywords, with its score
    written into it. *)
Theorem relevant_documents_sorted_distinct :
  forall (settings : Settings) (db : Database) (q : ChatQuery),
    StronglySorted (before doc_key) (_find_relevant_documents settings db q)
    /\ NoDup (map dedup_key (_find_relevant_documents settings db q))
    /\ forall d, In d (_find_relevant_documents settings db q) ->
         exists keyword d0,
           In keyword (py_slice_to 5 (document_keywords q))
           /\ In d0 (search_documents_text db keyword 10)
           /\ d = score_document (document_keywords q) d0.
Proof.
  intros settings db q. unfold _find_relevant_documents.
  split; [|split].
  - apply py_slice_to_sorted. unfold sorted_documents. apply sort_desc_sorted.
  - rewrite py_slice_to_map. apply py_slice_to_NoDup.
    unfold sorted_documents.
    apply (Permutation_NoDup
             (l := map dedup_key
                     (map (score_document (document_keywords q))
                        (unique_by_id [] (all_docs db (document_keywords q)))))).
    + apply Permutation_map, Permutation_sym, sort_desc_perm.
    + rewrite dedup_key_scored. apply unique_by_id_spec.
  - intros d H. apply py_slice_to_In in H.
    unfold sorted_documents in H.
    apply sort_desc_In, in_map_iff in H. destruct H as [d0 [<- H]].
    apply unique_by_id_In in H. unfold all_docs in H.
    apply in_flat_map in H. destruct H as [keyword [Hk Hd]].
    now exists keyword, d0.
Qed.

Lemma all_docs_length (db : Database) (keywords : list string) :
  (forall keyword,
      (List.length (search_documents_text db keyword 10) <= 10)%nat) ->
  (List.length (all_docs db keywords) <= 50)%nat.
Proof.
  intros Hlimit. unfold all_docs.
  pose proof (py_slice_to_length 5 keywords ltac:(lia)) as H5.
  revert H5. generalize (py_slice_to 5 keywords). intros l Hl.
  assert (H : (List.length
                 (flat_map (fun keyword => search_documents_text db keyword 10) l)
               <= 10 * List.length l)%nat).
  { clear Hl. induction l as [|k l IH]; cbn [flat_map List.length]; [lia|].
    rewrite length_app. specialize (Hlimit k). lia. }
  lia.
Qed.

(** X3: when the store honours the limit of 10 it is given, the document
    search returns at most 50 documents whatever [MAX_CONTEXT_DOCUMENTS]
    is: it asks the store for five keywords at most. *)
Theorem relevant_documents_at_most_fifty :
  forall (settings : Settings) (db : Database) (q : ChatQuery),
    (forall keyword,
        (List.length (search_documents_text db keyword 10) <= 10)%nat) ->
    (List.length (_find_relevant_documents settings db q) <= 50)%nat.
Proof.
  intros settings db q Hlimit. unfold _find_relevant_documents.
  pose proof (py_slice_to_le (MAX_CONTEXT_DOCUMENTS settings)
                             (sorted_documents db q)) as H1.
  unfold sorted_documents in *.
  rewrite sort_desc_length, length_map in H1.
  pose proof (unique_by_id_length [] (all_docs db (document_keywords q))) as H2.
  pose proof (all_docs_length db (document_keywords q) Hlimit) as H3.
  lia.
Qed.

Lemma relevant_documents_at_most_fifty_witness :
  (List.length
     (_find_relevant_documents (mkSettings 1000)
        (memory_store [mongo_doc; stray_doc] []) mongo_query) <= 50)%nat.
Proof.
  apply relevant_documents_at_most_fifty.
  intros keyword. cbn [memory_store search_documents_text].
  pose proof (py_slice_to_length 10
                (filter (matches_text keyword) [mongo_doc; stray_doc])
                ltac:(lia)). lia.
Defined.

(** X4: the meetings that the meeting search returns stand by decreasing
    score; each one is a meeting of the recent meetings of the store, over
    30 days when the query gives no number of days or gives 0, in which a
    keyword occurs, with its score written into it. *)
Theorem relevant_meetings_sorted :
  forall (db : Database) (q : ChatQuery),
    StronglySorted (before mtg_key) (_find_relevant_meetings db q)
    /\ (forall m, In m (_find_relevant_meetings db q) ->
          exists m0,
            In m0 (get_recent_meetings db (lookback_days q) 50)
            /\ (0 < count_matches (meeting_keywords q)
                                  (PyStr.lower (meeting_text m0)))%nat
            /\ m = set_mtg_score m0
                     (score (meeting_keywords q) (PyStr.lower (meeting_text m0))))
    /\ (context_days q = None \/ context_days q = Some 0%Z ->
        lookback_days q = 30%Z).
Proof.
  intros db q. unfold _find_relevant_meetings.
  split; [|split].
  - apply py_slice_to_sorted. unfold sorted_meetings. apply sort_desc_sorted.
  - intros m H. apply py_slice_to_In in H. unfold sorted_meetings in H.
    now apply sort_desc_In, In_select_meetings in H.
  - unfold lookback_days. intros [->| ->]; reflexivity.
Qed.

(** ** Keywords *)

Local Open Scope string_scope.

Lemma all_chars_app (p : ascii -> bool) (a b : string) :
  all_chars p (a ++ b) = all_chars p a && all_chars p b.
Proof.
  induction a as [|c a IH]; cbn [append all_chars]; [reflexivity|].
  now rewrite IH, andb_assoc.
Qed.

Lemma flush_runs (P : string -> Prop) (cur : string) :
  (cur <> "" -> P cur) -> Forall P (PyStr.flush cur).
Proof.
  intros H. destruct cur; cbn [PyStr.flush]; constructor; [|constructor].
  apply H. discriminate.
Qed.

(** A run is not empty and is made of characters that satisfy the test. *)
Lemma runs_made_of (p : ascii -> bool) (s cur : string) :
  all_chars p cur = true ->
  Forall (fun w => w <> "" /\ all_chars p w = true) (PyStr.runs p s cur).
Proof.
  revert cur. induction s as [|c s IH]; intros cur Hcur; cbn [PyStr.runs].
  - apply flush_runs. auto.
  - destruct (p c) eqn:E.
    + apply IH. rewrite all_chars_app, Hcur. cbn [all_chars]. now rewrite E.
    + apply Forall_app. split; [apply flush_runs; auto | now apply IH].
Qed.

(** A run keeps what holds of every character of the text. *)
Lemma runs_keep (q p : ascii -> bool) (s cur : string) :
  all_chars q s = true -> all_chars q cur = true ->
  Forall (fun w => all_chars q w = true) (PyStr.runs p s cur).
Proof.
  revert cur. induction s as [|c s IH]; intros cur Hs Hcur; cbn [PyStr.runs].
  - apply flush_runs. auto.
  - cbn [all_chars] in Hs. apply andb_true_iff in Hs. destruct Hs as [Hc Hs].
    destruct (p c).
    + apply IH; [exact Hs|].
      rewrite all_chars_app, Hcur. cbn [all_chars]. now rewrite Hc.
    + apply Forall_app. split; [apply flush_runs; auto | now apply IH].
Qed.

Lemma lower_char_not_upper (c : ascii) : not_upper (PyStr.lower_char c) = true.
Proof. destruct c as [[] [] [] [] [] [] [] []]; reflexivity. Qed.

Lemma lower_not_upper (s : string) : all_chars not_upper (PyStr.lower s) = true.
Proof.
  induction s as [|c s IH]; cbn [PyStr.lower all_chars]; [reflexivity|].
  now rewrite lower_char_not_upper, IH.
Qed.

Lemma lower_fixed (s : string) :
  all_chars not_upper s = true -> PyStr.lower s = s.
Proof.
  induction s as [|c s IH]; cbn [all_chars PyStr.lower]; [reflexivity|].
  intros H. apply andb_true_iff in H. destruct H as [Hc Hs].
  rewrite (IH Hs). f_equal.
  unfold not_upper in Hc. apply negb_true_iff in Hc.
  unfold PyStr.lower_char. now rewrite Hc.
Qed.

(** A run occurs in the text read. *)
Lemma runs_occur (p : ascii -> bool) (s cur : string) :
  Forall (fun w => occurs_in w (cur ++ s)) (PyStr.runs p s cur).
Proof.
  revert cur. induction s as [|c s IH]; intros cur; cbn [PyStr.runs].
  - apply flush_runs. intros _. rewrite append_nil_r. apply occurs_in_refl.
  - destruct (p c).
    + specialize (IH (cur ++ String c "")).
      rewrite append_assoc in IH. exact IH.
    + apply Forall_app. split.
      * apply flush_runs. intros _. apply occurs_in_head.
      * specialize (IH ""). cbn [append] in IH.
        rewrite Forall_forall in IH |- *. intros w Hw.
        apply occurs_in_app_r.
        change (String c s) with (String c "" ++ s).
        apply occurs_in_app_r. now apply IH.
Qed.

Lemma meeting_keyword_shape (q : ChatQuery) (w : string) :
  In w (meeting_keywords q) ->
  w <> "" /\ all_chars PyStr.is_word w = true /\ all_chars not_upper w = true
  /\ PyStr.lower w = w /\ occurs_in w (PyStr.lower (question q)).
Proof.
  unfold meeting_keywords, PyStr.findall_words. intros H.
  pose proof (runs_made_of PyStr.is_word (PyStr.lower (question q)) ""
                           eq_refl) as H1.
  pose proof (runs_keep not_upper PyStr.is_word (PyStr.lower (question q)) ""
                        (lower_not_upper _) eq_refl) as H2.
  pose proof (runs_occur PyStr.is_word (PyStr.lower (question q)) "") as H3.
  rewrite Forall_forall in H1, H2, H3.
  destruct (H1 w H) as [Hne Hw]. split; [exact Hne|]. split; [exact Hw|].
  split; [now apply H2|]. split; [apply lower_fixed; now apply H2|].
  now apply H3.
Qed.

Lemma document_keyword_meeting (q : ChatQuery) (w : string) :
  In w (document_keywords q) <->
  In w (meeting_keywords q) /\ (3 <= String.length w)%nat.
Proof.
  unfold document_keywords, meeting_keywords, PyStr.findall_words3.
  rewrite filter_In, Nat.leb_le. reflexivity.
Qed.

(** X5: a keyword of either search is a part of the question in lower case:
    it is not empty, it is made of word characters (the letters, accented
    ones included, the digits and the underscore), none of which is a
    capital, and [str.lower] leaves it as it is; the keywords of the
    document search are those of the meeting search that have three
    characters or more. *)
Theorem keywords_shape :
  forall (q : ChatQuery) (w : string),
    (In w (meeting_keywords q) ->
     w <> "" /\ all_chars PyStr.is_word w = true /\ all_chars not_upper w = true
     /\ PyStr.lower w = w /\ occurs_in w (PyStr.lower (question q)))
    /\ (In w (document_keywords q) <->
        In w (meeting_keywords q) /\ (3 <= String.length w)%nat).
Proof.
  intros q w. split.
  - apply meeting_keyword_shape.
  - apply document_keyword_meeting.
Qed.

(** The keywords of a question with accents: letter case is set aside for
    the accented letters too, and they are word characters. *)
Example keywords_with_accents :
  document_keywords
    (mkChatQuery ("Le CAF" ++ String (ascii_of_nat 201) " du coin")
                 None None "gemini" None)
  = ["caf" ++ String (ascii_of_nat 233) ""; "coin"].
Proof. vm_compute. reflexivity. Qed.

Lemma runs_none (p : ascii -> bool) (s : string) :
  all_chars (fun c => negb (p c)) s = true -> PyStr.runs p s "" = [].
Proof.
  induction s as [|c s IH]; cbn [all_chars PyStr.runs]; [reflexivity|].
  intros H. apply andb_true_iff in H. destruct H as [Hc Hs].
  apply negb_true_iff in Hc. rewrite Hc. cbn [PyStr.flush app]. now apply IH.
Qed.

Lemma lower_char_not_word (c : ascii) :
  not_word c = true -> PyStr.lower_char c = c.
Proof. destruct c as [[] [] [] [] [] [] [] []]; try reflexivity; discriminate. Qed.

Lemma lower_not_word (s : string) :
  all_chars not_word s = true -> PyStr.lower s = s.
Proof.
  induction s as [|c s IH]; cbn [all_chars PyStr.lower]; [reflexivity|].
  intros H. apply andb_true_iff in H. destruct H as [Hc Hs].
  now rewrite (lower_char_not_word c Hc), IH.
Qed.

Lemma select_meetings_no_keyword (recent : list meeting) :
  select_meetings [] recent = [].
Proof. induction recent as [|m rest IH]; [reflexivity | exact IH]. Qed.

Lemma wordless_keywords (q : ChatQuery) :
  all_chars not_word (question q) = true ->
  meeting_keywords q = [] /\ document_keywords q = [].
Proof.
  intros H.
  assert (E : meeting_keywords q = []).
  { unfold meeting_keywords, PyStr.findall_words.
    rewrite (lower_not_word _ H). now apply runs_none. }
  split; [exact E|].
  unfold document_keywords, PyStr.findall_words3.
  unfold meeting_keywords in E. now rewrite E.
Qed.

(** X6: a question without any word character (no letter, accented or
    not, no digit and no underscore) has no keyword:
    the store is asked for no document, no meeting matches, and when the
    query names no document and no meeting the context is empty, so that
    an answer of the provider comes back without sources and with
    confidence 0.3. *)
Theorem wordless_question :
  forall (settings : Settings) (db : Database) (ai : AIProvider) (q : ChatQuery),
    all_chars not_word (question q) = true ->
    _find_relevant_documents settings db q = []
    /\ _find_relevant_meetings db q = []
    /\ (given (q_doc_id q) = false -> given (q_meeting_id q) = false ->
        _build_context settings db q = ""
        /\ forall a,
             get_response ai (question q ++ no_context_note) ""
                          (validated_provider ai q) = Ok a ->
             ask_question settings db ai q
             = mkChatResponse a [] (validated_provider ai q) 0.3).
Proof.
  intros settings db ai q H.
  destruct (wordless_keywords q H) as [Em Ed].
  assert (Hdocs : _find_relevant_documents settings db q = []).
  { unfold _find_relevant_documents, sorted_documents. rewrite Ed.
    unfold all_docs. rewrite py_slice_to_nil. cbn. apply py_slice_to_nil. }
  assert (Hmtgs : _find_relevant_meetings db q = []).
  { unfold _find_relevant_meetings, sorted_meetings.
    rewrite Em, select_meetings_no_keyword.
    change (sort_desc mtg_key []) with (@nil meeting). apply py_slice_to_nil. }
  split; [exact Hdocs|]. split; [exact Hmtgs|].
  intros Hd Hm.
  assert (Hc : _build_context settings db q = "").
  { unfold _build_context, context_parts. now rewrite Hd, Hm, Hdocs, Hmtgs. }
  split; [exact Hc|].
  intros a Ha. unfold ask_question. rewrite Hc. cbn [blank PyStr.truthy negb orb].
  now rewrite Ha.
Qed.

Lemma wordless_question_witness :
  ask_question default_settings (memory_store [mongo_doc] []) gemini_only
               wordless_query
  = mkChatResponse "Answer to: ?!

Note: I don't have specific context from your connected data, so I'm providing a general answer. Please upload documents to the database for more accurate responses based on your data."
                   [] "gemini" 0.3.
Proof.
  apply (wordless_question default_settings (memory_store [mongo_doc] [])
           gemini_only wordless_query); reflexivity.
Defined.

(** ** The scores of what the searches return *)











(** ** Sources and context *)

Lemma starts_solid_not_blank (s : string) :
  starts_solid s = true -> s <> "" /\ blank s = false.
Proof.
  destruct s as [|c s]; [discriminate|]. cbn [starts_solid].
  intros H. apply negb_true_iff in H.
  split; [discriminate|].
  unfold blank, PyStr.strip. cbn [PyStr.truthy negb orb].
  rewrite rstrip_cons, H.
  destruct (PyStr.rstrip s); cbn [PyStr.lstrip]; now rewrite H.
Qed.

Lemma starts_solid_app (a b : string) :
  starts_solid a = true -> starts_solid (a ++ b) = true.
Proof. destruct a; [discriminate | intros H; exact H]. Qed.

Lemma starts_solid_join (sep p : string) (ps : list string) :
  starts_solid p = true -> starts_solid (PyStr.join sep (p :: ps)) = true.
Proof.
  intros H. unfold PyStr.join. destruct ps; cbn [concat]; [exact H|].
  now apply starts_solid_app.
Qed.

Lemma strip_starts_solid (w : string) (c : ascii) (s : string) :
  PyStr.rstrip w = "" -> PyStr.is_space c = false ->
  starts_solid (PyStr.strip (w ++ String c s)) = true.
Proof.
  intros Hw Hc. unfold PyStr.strip.
  rewrite rstrip_app_solid by now apply solid_char.
  rewrite lstrip_app_blank by exact Hw.
  rewrite rstrip_cons, Hc.
  destruct (PyStr.rstrip s); cbn [PyStr.lstrip]; rewrite Hc;
    cbn [starts_solid]; now rewrite Hc.
Qed.

Lemma render_document_solid (i : nat) (doc : document) :
  starts_solid (render_document i doc) = true.
Proof. unfold render_document. now apply strip_starts_solid. Qed.

Lemma render_meeting_solid (i : nat) (m : meeting) :
  starts_solid (render_meeting i m) = true.
Proof.
  unfold render_meeting. rewrite <- append_assoc.
  now apply (strip_starts_solid (nl ++ indent) "M").
Qed.

Lemma format_document_context_solid (d : document) (ds : list document) :
  starts_solid (_format_document_context (d :: ds)) = true.
Proof.
  unfold _format_document_context. cbn [enumerate map fst snd].
  apply starts_solid_join, render_document_solid.
Qed.

Lemma format_meeting_context_solid (m : meeting) (ms : list meeting) :
  starts_solid (_format_meeting_context (m :: ms)) = true.
Proof.
  unfold _format_meeting_context. cbn [enumerate map fst snd].
  apply starts_solid_join, render_meeting_solid.
Qed.

Lemma build_context_parts (settings : Settings) (db : Database) (q : ChatQuery) :
  (context_parts settings db q = [] /\ _build_context settings db q = "")
  \/ (context_parts settings db q <> []
      /\ starts_solid (_build_context settings db q) = true).
Proof.
  unfold _build_context.
  assert (H : Forall (fun p => starts_solid p = true) (context_parts settings db q)).
  { unfold context_parts.
    apply Forall_app; split; [|apply Forall_app; split].
    - destruct (given (q_doc_id q)); [|constructor].
      destruct (get_document_by_id db _); constructor;
        [apply format_document_context_solid | constructor].
    - destruct (given (q_meeting_id q)); [|constructor].
      destruct (get_meeting_by_id db _); constructor;
        [apply format_meeting_context_solid | constructor].
    - destruct (negb (given (q_doc_id q)) && negb (given (q_meeting_id q)));
        [|constructor].
      apply Forall_app. split.
      + destruct (_find_relevant_documents settings db q); cbn [nonempty];
          constructor; [apply format_document_context_solid | constructor].
      + destruct (_find_relevant_meetings db q); cbn [nonempty];
          constructor; [apply format_meeting_context_solid | constructor]. }
  destruct (context_parts settings db q) as [|p ps]; [left; now split|].
  right. split; [discriminate|].
  apply starts_solid_join. now inversion H.
Qed.

Lemma py_slice_to_empty_iff {A : Type} (k : Z) (l : list A) :
  (0 < k)%Z -> (py_slice_to k l = [] <-> l = []).
Proof.
  intros Hk. split; [|intros ->; apply py_slice_to_nil].
  unfold py_slice_to. replace (0 <=? k)%Z with true by (symmetry; apply Z.leb_le; lia).
  destruct l as [|x l]; [reflexivity|].
  destruct (Z.to_nat k) eqn:E; [lia | discriminate].
Qed.

Lemma sources_context_parts (settings : Settings) (db : Database) (q : ChatQuery) :
  _get_source_meetings settings db q = [] <-> context_parts settings db q = [].
Proof.
  unfold _get_source_meetings, context_parts.
  rewrite py_slice_to_empty_iff by lia.
  destruct (given (q_doc_id q)), (given (q_meeting_id q)); cbn [negb andb];
    try destruct (get_document_by_id db _);
    try destruct (get_meeting_by_id db _);
    cbn [app]; try (split; discriminate); try tauto.
  generalize (_find_relevant_documents settings db q) as docs.
  generalize (_find_relevant_meetings db q) as meetings.
  intros meetings docs.
  assert (HL : (map _format_source_document (py_slice_to 3 docs)
                ++ map _format_source_meeting (py_slice_to 3 meetings) = [])%list
               <-> docs = [] /\ meetings = []).
  { split.
    - intros H. apply app_eq_nil in H. destruct H as [H1 H2].
      apply map_eq_nil in H1, H2.
      apply py_slice_to_empty_iff in H1, H2; try lia. now split.
    - intros [-> ->]. now rewrite !py_slice_to_nil. }
  rewrite HL.
  destruct docs, meetings; cbn [nonempty app]; split;
    try discriminate; try (intros [H1 H2]; discriminate); auto.
Qed.

(** X7: the sources of an answer are there exactly when a context was
    assembled: [_get_source_meetings] returns the empty list when
    [_build_context] returns the empty string, and only then; and a context
    that is not empty is never white space only. *)
Theorem sources_iff_context :
  forall (settings : Settings) (db : Database) (q : ChatQuery),
    (_get_source_meetings settings db q = []
     <-> _build_context settings db q = "")
    /\ (blank (_build_context settings db q) = true
        <-> _build_context settings db q = "").
Proof.
  intros settings db q.
  destruct (build_context_parts settings db q) as [[Hp Hc]|[Hp Hc]].
  - split.
    + rewrite sources_context_parts. tauto.
    + rewrite Hc. split; reflexivity.
  - destruct (starts_solid_not_blank _ Hc) as [Hne Hb].
    split.
    + rewrite sources_context_parts. tauto.
    + rewrite Hb. split; [discriminate | contradiction].
Qed.

Lemma py_slice_to_length_nat {A : Type} (k : nat) (l : list A) :
  (List.length (py_slice_to (Z.of_nat k) l) <= k)%nat.
Proof.
  pose proof (py_slice_to_length (Z.of_nat k) l ltac:(lia)). lia.
Qed.

Lemma py_slice_to_app {A : Type} (k : Z) (l1 l2 : list A) :
  (0 <= k)%Z ->
  exists l2',
    py_slice_to k (l1 ++ l2) = (py_slice_to k l1 ++ l2')%list
    /\ (List.length l2' <= List.length l2)%nat.
Proof.
  intros Hk. unfold py_slice_to.
  replace (0 <=? k)%Z with true by (symmetry; apply Z.leb_le; lia).
  rewrite firstn_app.
  exists (firstn (Z.to_nat k - List.length l1) l2).
  split; [reflexivity | rewrite length_firstn; lia].
Qed.

(** X8: an answer has at most five sources, documents before meetings, and
    at most three of either; when the query names a document or a meeting
    there are at most two, the document and the meeting named. *)
Theorem sources_shape :
  forall (settings : Settings) (db : Database) (q : ChatQuery),
    (List.length (_get_source_meetings settings db q) <= 5)%nat
    /\ (exists (ds : list document) (ms : list meeting),
          _get_source_meetings settings db q
          = (map _format_source_document ds ++ map _format_source_meeting ms)%list
          /\ (List.length ds <= 3)%nat /\ (List.length ms <= 3)%nat)
    /\ (given (q_doc_id q) || given (q_meeting_id q) = true ->
        (List.length (_get_source_meetings settings db q) <= 2)%nat).
Proof.
  intros settings db q.
  split; [apply (py_slice_to_length_nat 5)|].
  assert (Hle : forall (l : list source) (n : nat),
             (List.length l <= n)%nat ->
             (List.length (py_slice_to 5 l) <= n)%nat).
  { intros l n H. pose proof (py_slice_to_le 5 l). lia. }
  unfold _get_source_meetings.
  destruct (given (q_doc_id q)) eqn:Ed, (given (q_meeting_id q)) eqn:Em;
    cbn [negb andb orb].
  - split.
    + destruct (get_document_by_id db _) as [d|], (get_meeting_by_id db _) as [m|].
      * exists [d], [m]. split; [reflexivity | cbn; lia].
      * exists [d], []. split; [reflexivity | cbn; lia].
      * exists [], [m]. split; [reflexivity | cbn; lia].
      * exists [], []. split; [reflexivity | cbn; lia].
    + intros _.
      destruct (get_document_by_id db _), (get_meeting_by_id db _);
        apply Hle; cbn [List.length app]; lia.
  - split.
    + destruct (get_document_by_id db _) as [d|].
      * exists [d], []. split; [reflexivity | cbn; lia].
      * exists [], []. split; [reflexivity | cbn; lia].
    + intros _. destruct (get_document_by_id db _);
        apply Hle; cbn [List.length app]; lia.
  - split.
    + destruct (get_meeting_by_id db _) as [m|].
      * exists [], [m]. split; [reflexivity | cbn; lia].
      * exists [], []. split; [reflexivity | cbn; lia].
    + intros _. destruct (get_meeting_by_id db _);
        apply Hle; cbn [List.length app]; lia.
  - split; [|discriminate].
    cbn [app].
    destruct (py_slice_to_app 5
                (map _format_source_document
                   (py_slice_to 3 (_find_relevant_documents settings db q)))
                (map _format_source_meeting
                   (py_slice_to 3 (_find_relevant_meetings db q)))
                ltac:(lia)) as [tail [E Hlen]].
    rewrite E.
    rewrite <- py_slice_to_map.
    pose proof (py_slice_to_prefix 5
                  (map _format_source_meeting
                     (py_slice_to 3 (_find_relevant_meetings db q)))) as _.
    exists (py_slice_to 5 (py_slice_to 3 (_find_relevant_documents settings db q))).
    assert (Htail : exists ms,
               tail = map _format_source_meeting ms /\ (List.length ms <= 3)%nat).
    { unfold py_slice_to in E.
      change (0 <=? 5)%Z with true in E. cbv iota in E.
      rewrite firstn_app in E. apply app_inv_head in E. subst tail.
      change (0 <=? 3)%Z with true. cbv iota.
      rewrite firstn_map. eexists. split; [reflexivity|].
      rewrite !length_firstn. change (Z.to_nat 3) with 3%nat.
      lia. }
    destruct Htail as [ms [-> Hms]].
    exists ms. split; [reflexivity|]. split; [|exact Hms].
    pose proof (py_slice_to_le 5
                  (py_slice_to 3 (_find_relevant_documents settings db q))).
    pose proof (py_slice_to_length_nat 3
                  (_find_relevant_documents settings db q)).
    change (Z.of_nat 3) with 3%Z in *. lia.
Qed.

(** ** Records named by the query *)

(** X9: when the query names a document or a meeting, the context and the
    sources are made of the records the store has under these ids and of
    nothing else: the question, the look-back window, the settings and what
    the store answers to a search play no part. *)
Theorem named_records_bypass_search :
  forall (settings settings' : Settings) (db db' : Database) (q q' : ChatQuery),
    given (q_doc_id q) || given (q_meeting_id q) = true ->
    q_doc_id q' = q_doc_id q ->
    q_meeting_id q' = q_meeting_id q ->
    (forall id, get_document_by_id db' id = get_document_by_id db id) ->
    (forall id, get_meeting_by_id db' id = get_meeting_by_id db id) ->
    _build_context settings' db' q' = _build_context settings db q
    /\ _get_source_meetings settings' db' q' = _get_source_meetings settings db q.
Proof.
  intros settings settings' db db' q q' Hid Ed Em Hd Hm.
  unfold _build_context, context_parts, _get_source_meetings.
  rewrite Ed, Em, !Hd, !Hm.
  destruct (given (q_doc_id q)), (given (q_meeting_id q));
    try discriminate; cbn [negb andb]; split; reflexivity.
Qed.

Lemma named_records_bypass_search_witness :
  _build_context (mkSettings 1) other_searches by_id_query'
  = _build_context default_settings (memory_store [mongo_doc] []) by_id_query
  /\ _get_source_meetings (mkSettings 1) other_searches by_id_query'
     = _get_source_meetings default_settings (memory_store [mongo_doc] [])
                            by_id_query.
Proof.
  apply named_records_bypass_search; reflexivity.
Defined.

(** X10: when the query names a document or a meeting and the store has no
    record under an id it names, nothing is searched in its place: the
    context is empty, there are no sources, and the answer of
    [ask_question] is the general one, of confidence 0.3, or the report of
    an error, of confidence 0.0. *)
Theorem unknown_record_no_context :
  forall (settings : Settings) (db : Database) (ai : AIProvider) (q : ChatQuery),
    given (q_doc_id q) || given (q_meeting_id q) = true ->
    (given (q_doc_id q) = true ->
     get_document_by_id db (get (q_doc_id q) "") = None) ->
    (given (q_meeting_id q) = true ->
     get_meeting_by_id db (get (q_meeting_id q) "") = None) ->
    _build_context settings db q = ""
    /\ _get_source_meetings settings db q = []
    /\ sources (ask_question settings db ai q) = []
    /\ (confidence (ask_question settings db ai q) = 0.3%float
        \/ confidence (ask_question settings db ai q) = 0%float).
Proof.
  intros settings db ai q Hid Hd Hm.
  assert (Hc : _build_context settings db q = "").
  { unfold _build_context, context_parts.
    destruct (given (q_doc_id q)), (given (q_meeting_id q));
      try discriminate; cbn [negb andb];
      try rewrite (Hd eq_refl); try rewrite (Hm eq_refl); reflexivity. }
  split; [exact Hc|].
  split.
  { unfold _get_source_meetings.
    destruct (given (q_doc_id q)), (given (q_meeting_id q));
      try discriminate; cbn [negb andb];
      try rewrite (Hd eq_refl); try rewrite (Hm eq_refl); reflexivity. }
  unfold ask_question. rewrite Hc.
  change (blank "") with true. cbv iota.
  destruct (get_response ai _ "" _); cbn [sources confidence error_response];
    split; auto.
Qed.

Lemma unknown_record_no_context_witness :
  _build_context default_settings empty_store by_id_query = ""
  /\ _get_source_meetings default_settings empty_store by_id_query = []
  /\ sources (ask_question default_settings empty_store gemini_only by_id_query) = []
  /\ (confidence (ask_question default_settings empty_store gemini_only by_id_query)
      = 0.3%float
      \/ confidence (ask_question default_settings empty_store gemini_only by_id_query)
         = 0%float).
Proof.
  apply unknown_record_no_context; intros; reflexivity.
Defined.

(** ** The response *)

Lemma validated_provider_cases (ai : AIProvider) (q : ChatQuery) :
  validated_provider ai q = "openai" \/ validated_provider ai q = "gemini".
Proof.
  unfold validated_provider, get_available_providers.
  destruct (openai_handler ai), (gemini_handler ai); cbn [present app existsb hd].
  - destruct (q_ai_provider q =? "openai") eqn:E1; cbn [orb].
    + apply String.eqb_eq in E1. now left.
    + destruct (q_ai_provider q =? "gemini") eqn:E2; cbn [orb].
      * apply String.eqb_eq in E2. now right.
      * now left.
  - destruct (q_ai_provider q =? "openai") eqn:E1; cbn [orb].
    + apply String.eqb_eq in E1. now left.
    + now left.
  - destruct (q_ai_provider q =? "gemini") eqn:E2; cbn [orb].
    + apply String.eqb_eq in E2. now right.
    + now right.
  - now left.
Qed.

(** X11: in every branch the response of [ask_question] names the provider
    kept by the validation, which is openai or gemini whatever the query
    asked for; the response has sources exactly when a context was
    assembled and the provider answered the question put with it, and never
    more than five. *)
Theorem response_provider_and_sources :
  forall (settings : Settings) (db : Database) (ai : AIProvider) (q : ChatQuery),
    let response := ask_question settings db ai q in
    ai_provider response = validated_provider ai q
    /\ (ai_provider response = "openai" \/ ai_provider response = "gemini")
    /\ (sources response <> []
        <-> _build_context settings db q <> ""
            /\ exists text,
                 get_response ai (question q) (_build_context settings db q)
                              (validated_provider ai q) = Ok text)
    /\ (List.length (sources response) <= 5)%nat.
Proof.
  intros settings db ai q response. subst response.
  assert (Hp : ai_provider (ask_question settings db ai q)
               = validated_provider ai q).
  { unfold ask_question.
    destruct (blank _); destruct (get_response ai _ _ _);
      cbn [ai_provider error_response]; try reflexivity;
      destruct (validated_provider_cases ai q) as [E|E]; rewrite E;
      reflexivity. }
  split; [exact Hp|].
  split; [rewrite Hp; apply validated_provider_cases|].
  destruct (build_context_parts settings db q) as [[Hparts Hc]|[Hparts Hc]].
  - unfold ask_question. rewrite Hc. change (blank "") with true. cbv iota.
    split.
    + destruct (get_response ai _ "" _); cbn [sources error_response];
        split; try (intros H; now elim H); intros [H _]; now elim H.
    + destruct (get_response ai _ "" _); cbn [sources error_response List.length];
        lia.
  - destruct (starts_solid_not_blank _ Hc) as [Hne Hb].
    unfold ask_question. rewrite Hb.
    destruct (get_response ai (question q) _ _) as [text|e];
      cbn [sources error_response].
    + split; [|apply (py_slice_to_length_nat 5)].
      split.
      * intros _. split; [exact Hne | now exists text].
      * intros _ H. apply sources_context_parts in H. contradiction.
    + split; [|cbn; lia].
      split; [intros H; now elim H | intros [_ [text H]]; discriminate].
Qed.

(** ** Confidence, further *)

(** X12: a confidence of 0.2 comes from an uncertainty phrase and from
    nothing else: [_calculate_confidence] returns 0.2 exactly when one of
    the phrases occurs in the answer, letter case aside. *)
Theorem low_confidence_iff_phrase :
  forall answer question : string,
    _calculate_confidence answer question = 0.2%float
    <-> exists phrase,
          In phrase uncertainty_phrases
          /\ PyStr.contains phrase (PyStr.lower answer) = true.
Proof.
  intros answer question. split.
  - intros H.
    destruct (existsb (fun phrase => PyStr.contains phrase (PyStr.lower answer))
                      uncertainty_phrases) eqn:E.
    + apply existsb_exists in E. exact E.
    + exfalso.
      assert (Hband : in_range 0.7 0.95 (_calculate_confidence answer question)
                      = true).
      { unfold _calculate_confidence. rewrite E.
        apply round2_in_band, min_in_band.
        destruct (nonempty _); [apply nn_true_div | reflexivity]. }
      rewrite H in Hband. discriminate.
  - intros H. apply existsb_exists in H.
    unfold _calculate_confidence. now rewrite H.
Qed.

Local Open Scope Z_scope.

Lemma SFdiv_same (m : positive) (e : Z) :
  2 ^ 52 <= Z.pos m < 2 ^ 53 -> -52 <= e <= 0 ->
  SFdiv prec emax (S754_finite false m e) (S754_finite false m e)
  = S754_finite false 4503599627370496 (-52).
Proof.
  intros Hm He.
  cbn [SFdiv xorb]. unfold SFdiv_core_binary. cbn [Zdigits2].
  rewrite (digits_53 m Hm).
  assert (E : Z.min (fexp prec emax (53 + e - (53 + e))) (e - e) = -53).
  { unfold fexp, emin. change prec with 53. change emax with 1024. lia. }
  rewrite E.
  replace (e - e - -53) with 53 by lia.
  rewrite Z.shiftl_mul_pow2 by lia.
  pose proof (Z_div_mod (Z.pos m * 2 ^ 53) (Z.pos m) eq_refl) as Hdm.
  destruct (Z.div_eucl (Z.pos m * 2 ^ 53) (Z.pos m)) as [q r].
  destruct Hdm as [Hdm Hr].
  assert (Hq : q = 2 ^ 53 /\ r = 0).
  { remember (Z.pos m) as z. remember (2 ^ 53) as t. clear Heqz Heqt E.
    assert (z * (t - q) = r) by lia.
    assert (t - q = 0) by nia. lia. }
  destruct Hq as [-> ->].
  replace (new_location (Z.pos m) 0) with loc_Exact.
  2:{ unfold new_location, new_location_even, new_location_odd.
      now destruct (Z.even (Z.pos m)). }
  vm_compute. reflexivity.
Qed.

Local Close Scope Z_scope.

(** The quotient of a length by itself is the float 1, and the quotient of
    zero by a length is the float 0. *)
Lemma true_div_same (n : nat) :
  (0 < n)%nat -> (Z.of_nat n < 2 ^ 53)%Z -> true_div n n = 1%float.
Proof.
  intros Hpos Hlt.
  destruct (Prim2SF_float_of_nat n Hpos Hlt) as [m [e [E [Hm [He _]]]]].
  apply Prim2SF_inj. unfold true_div.
  rewrite div_spec, E, SFdiv_same by assumption. reflexivity.
Qed.

Lemma true_div_zero (n : nat) :
  (0 < n)%nat -> (Z.of_nat n < 2 ^ 53)%Z -> true_div 0 n = 0%float.
Proof.
  intros Hpos Hlt.
  destruct (Prim2SF_float_of_nat n Hpos Hlt) as [m [e [E _]]].
  apply Prim2SF_inj. unfold true_div.
  rewrite div_spec, E. reflexivity.
Qed.

Lemma overlap_none (question_terms answer_terms : list string) :
  (forall t, In t question_terms -> ~ In t answer_terms) ->
  overlap question_terms answer_terms = 0%nat.
Proof.
  intros H. unfold overlap.
  induction question_terms as [|t ts IH]; [reflexivity|].
  cbn [filter].
  destruct (existsb (String.eqb t) answer_terms) eqn:E.
  - exfalso. apply existsb_exists in E. destruct E as [u [Hu Eu]].
    apply String.eqb_eq in Eu. subst u.
    apply (H t); [now left | exact Hu].
  - apply IH. intros u Hu. apply H. now right.
Qed.

Lemma overlap_all (question_terms answer_terms : list string) :
  (forall t, In t question_terms -> In t answer_terms) ->
  overlap question_terms answer_terms = List.length question_terms.
Proof.
  intros H. unfold overlap.
  induction question_terms as [|t ts IH]; [reflexivity|].
  cbn [filter].
  replace (existsb (String.eqb t) answer_terms) with true.
  - cbn [List.length]. f_equal. apply IH. intros u Hu. apply H. now right.
  - symmetry. apply existsb_exists. exists t.
    split; [apply H; now left | apply String.eqb_refl].
Qed.

(** X13: the two ends of the confidence of an answer without uncertainty
    phrase, for a question of fewer than [2^53] distinct terms: it is 0.7
    when no term of the question is a term of the answer (so also when the
    question has no term), and 0.95 when the question has a term and every
    term of the question is one of the answer, letter case aside. *)
Theorem confidence_endpoints :
  forall answer question : string,
    existsb (fun phrase => PyStr.contains phrase (PyStr.lower answer))
            uncertainty_phrases = false ->
    (Z.of_nat (List.length (terms (PyStr.lower question))) < 2 ^ 53)%Z ->
    ((forall t, In t (terms (PyStr.lower question)) ->
                ~ In t (terms (PyStr.lower answer))) ->
     _calculate_confidence answer question = 0.7%float)
    /\ (terms (PyStr.lower question) <> [] ->
        (forall t, In t (terms (PyStr.lower question)) ->
                   In t (terms (PyStr.lower answer))) ->
        _calculate_confidence answer question = 0.95%float).
Proof.
  intros answer question Hphrase Hlt.
  unfold _calculate_confidence. rewrite Hphrase.
  split.
  - intros Hnone. rewrite (overlap_none _ _ Hnone).
    destruct (terms (PyStr.lower question)) as [|t ts] eqn:E.
    + cbn [nonempty]. vm_compute. reflexivity.
    + cbn [nonempty].
      rewrite true_div_zero by (try exact Hlt; cbn [List.length]; lia).
      vm_compute. reflexivity.
  - intros Hne Hall. rewrite (overlap_all _ _ Hall).
    destruct (terms (PyStr.lower question)) as [|t ts] eqn:E; [now elim Hne|].
    cbn [nonempty].
    rewrite true_div_same by (try exact Hlt; cbn [List.length]; lia).
    vm_compute. reflexivity.
Qed.

Lemma confidence_endpoints_witness :
  _calculate_confidence "Paris is lovely" "what about budget" = 0.7%float
  /\ _calculate_confidence "The budget is the budget" "Budget" = 0.95%float
  /\ _calculate_confidence (String (ascii_of_nat 201) "COLE")
                           (String (ascii_of_nat 233) "cole") = 0.95%float.
Proof.
  split; [|split].
  - apply (confidence_endpoints "Paris is lovely" "what about budget");
      [reflexivity | vm_compute; reflexivity |].
    intros t Ht Hin. vm_compute in Ht, Hin.
    repeat (destruct Ht as [<-|Ht];
            [repeat (destruct Hin as [Hin|Hin]; [discriminate|]); exact Hin|]).
    exact Ht.
  - apply (confidence_endpoints "The budget is the budget" "Budget");
      [reflexivity | vm_compute; reflexivity | vm_compute; discriminate |].
    intros t Ht. vm_compute in Ht. vm_compute.
    destruct Ht as [<-|[]]. auto 10.
  - apply (confidence_endpoints (String (ascii_of_nat 201) "COLE")
                                (String (ascii_of_nat 233) "cole"));
      [reflexivity | vm_compute; reflexivity | vm_compute; discriminate |].
    intros t Ht. vm_compute in Ht. vm_compute.
    destruct Ht as [<-|[]]. auto 10.
Defined.

(** ** The search endpoint *)

Lemma py_slice_to_all {A : Type} (k : Z) (l : list A) :
  (Z.of_nat (List.length l) <= k)%Z -> py_slice_to k l = l.
Proof.
  intros H. unfold py_slice_to.
  replace (0 <=? k)%Z with true by (symmetry; apply Z.leb_le; lia).
  apply firstn_all2. lia.
Qed.

Lemma py_slice_to_incl {A : Type} (k : Z) (l : list A) (x : A) :
  In x (py_slice_to k l) -> In x l.
Proof.
  intros H. destruct (py_slice_to_prefix k l) as [rest E].
  rewrite E. apply in_or_app. now left.
Qed.

Lemma preview100_length (text : string) :
  (String.length (preview100 text) <= 103)%nat.
Proof.
  unfold preview100.
  destruct (100 <? String.length text)%nat eqn:E.
  - apply Nat.ltb_lt in E.
    rewrite length_append, length_take by lia. cbn [String.length]. lia.
  - apply Nat.ltb_ge in E. lia.
Qed.

(** X14: every result of [GET /search] is made from a meeting that the
    store returned for the window, whose title and summary contain every
    term of the query, letter case aside; its preview of the summary has at
    most 103 characters; a limit that is not negative bounds the number of
    results, and the query is returned as it came. *)
Theorem search_hits_match_every_term :
  forall (db : Database) (q : string) (limit days : Z),
    fst (search_meetings db q limit days) = q
    /\ Forall (fun hit =>
                 (exists meeting,
                     In meeting (get_recent_meetings db days 50)
                     /\ hit = search_hit_of meeting
                     /\ forall term,
                          In term (PyStr.split (PyStr.lower q)) ->
                          PyStr.contains term (PyStr.lower (search_content meeting))
                          = true)
                 /\ (String.length (summary_preview hit) <= 103)%nat)
              (snd (search_meetings db q limit days))
    /\ ((0 <= limit)%Z ->
        (Z.of_nat (List.length (snd (search_meetings db q limit days))) <= limit)%Z).
Proof.
  intros db q limit days. split; [reflexivity|]. split.
  - apply Forall_forall. intros hit H. cbn [snd search_meetings] in H.
    apply py_slice_to_incl in H. unfold search_hits in H.
    apply in_map_iff in H. destruct H as [m [<- Hm]].
    apply filter_In in Hm. destruct Hm as [Hin Hall].
    split.
    + exists m. split; [exact Hin|]. split; [reflexivity|].
      intros term Hterm. unfold all_terms_in in Hall.
      rewrite forallb_forall in Hall. now apply Hall.
    + apply preview100_length.
  - intros Hlimit. now apply py_slice_to_length.
Qed.

Lemma split_blank (q : string) :
  all_chars PyStr.is_space q = true -> PyStr.split (PyStr.lower q) = [].
Proof.
  intros H. unfold PyStr.split.
  assert (E : PyStr.lower q = q).
  { induction q as [|c q IH]; [reflexivity|].
    cbn [all_chars] in H. apply andb_true_iff in H. destruct H as [Hc Hq].
    cbn [PyStr.lower]. rewrite (IH Hq). f_equal.
    destruct c as [[] [] [] [] [] [] [] []]; try reflexivity; discriminate. }
  rewrite E. apply runs_none.
  induction q as [|c q IH]; [reflexivity|].
  cbn [all_chars] in *. apply andb_true_iff in H. destruct H as [Hc Hq].
  rewrite Hc. cbn [negb andb]. apply IH; [exact Hq|].
  cbn [PyStr.lower] in E. now injection E.
Qed.

(** X15: a query without any term, empty or of white space only, filters
    nothing: [GET /search] then returns the meetings of the window as the
    store gave them, cut to the limit. *)
Theorem search_blank_query_lists_all :
  forall (db : Database) (q : string) (limit days : Z),
    all_chars PyStr.is_space q = true ->
    snd (search_meetings db q limit days)
    = py_slice_to limit (map search_hit_of (get_recent_meetings db days 50)).
Proof.
  intros db q limit days H.
  cbn [snd search_meetings]. unfold search_hits.
  rewrite (split_blank q H). f_equal. f_equal.
  induction (get_recent_meetings db days 50) as [|m ms IH]; [reflexivity|].
  cbn [filter].
  change (all_terms_in [] (PyStr.lower (search_content m))) with true.
  cbv iota. now f_equal.
Qed.

Lemma search_blank_query_lists_all_witness :
  snd (search_meetings meetings_store "  " 10 30)
  = py_slice_to 10 (map search_hit_of (get_recent_meetings meetings_store 30 50)).
Proof.
  apply search_blank_query_lists_all. reflexivity.
Defined.

(** X16: terms only narrow a search: when every term of one query is a term
    of another and the limit does not cut the results, every result of the
    query with more terms is a result of the other. *)
Theorem search_more_terms_fewer_hits :
  forall (db : Database) (q q' : string) (limit days : Z) (hit : search_hit),
    incl (PyStr.split (PyStr.lower q)) (PyStr.split (PyStr.lower q')) ->
    (Z.of_nat (List.length (get_recent_meetings db days 50)) <= limit)%Z ->
    In hit (snd (search_meetings db q' limit days)) ->
    In hit (snd (search_meetings db q limit days)).
Proof.
  intros db q q' limit days hit Hincl Hlimit H.
  cbn [snd search_meetings] in *.
  apply py_slice_to_incl in H.
  rewrite py_slice_to_all.
  2:{ unfold search_hits. rewrite length_map.
      pose proof (filter_length_le
                    (fun meeting =>
                       all_terms_in (PyStr.split (PyStr.lower q))
                                    (PyStr.lower (search_content meeting)))
                    (get_recent_meetings db days 50)).
      lia. }
  unfold search_hits in *.
  apply in_map_iff in H. destruct H as [m [<- Hm]].
  apply in_map. apply filter_In in Hm. destruct Hm as [Hin Hall].
  apply filter_In. split; [exact Hin|].
  unfold all_terms_in in *. rewrite forallb_forall in *.
  intros term Hterm. apply Hall, Hincl, Hterm.
Qed.

Lemma search_more_terms_fewer_hits_witness :
  In (search_hit_of budget_meeting)
     (snd (search_meetings meetings_store "budget" 10 30)).
Proof.
  apply (search_more_terms_fewer_hits meetings_store "budget" "Budget TEAM" 10 30).
  - intros term H. vm_compute in H. vm_compute. destruct H as [<-|[]]. auto.
  - vm_compute. discriminate.
  - vm_compute. auto.
Defined.

(** ** Providers, further *)

(** X17: the two dispatchers of [AIProvider] accept the names that
    [get_available_providers] lists and no other: for a listed name
    [get_response] and [generate_meeting_summary] call the handler of that
    name, and for any other name, the name of a provider without handler
    included, both raise the error of an unavailable provider, which the
    other handler does not stand in for. *)
Theorem dispatch_matches_available_providers :
  forall (ai : AIProvider) (sm : Summarizers)
         (name prompt context transcript : string),
    (In name (get_available_providers ai) ->
     (exists h : handler,
         (name = "openai" /\ openai_handler ai = Some h
          \/ name = "gemini" /\ gemini_handler ai = Some h)
         /\ get_response ai prompt context name = h prompt context)
     /\ generate_meeting_summary ai sm transcript name
        = (if name =? "openai" then openai_summary sm transcript
           else gemini_summary sm transcript))
    /\ (~ In name (get_available_providers ai) ->
        get_response ai prompt context name = Raise (unavailable name)
        /\ generate_meeting_summary ai sm transcript name
           = Raise (unavailable name)).
Proof.
  intros ai sm name prompt context transcript.
  unfold get_available_providers, get_response, generate_meeting_summary.
  destruct (openai_handler ai) as [o|], (gemini_handler ai) as [g|];
    cbn [present app In andb];
    destruct (String.eqb_spec name "openai") as [E1|E1];
    destruct (String.eqb_spec name "gemini") as [E2|E2];
    cbn [andb]; split; intros H;
    try (exfalso; intuition congruence);
    try (split; reflexivity);
    (split; [eexists; split; [|reflexivity]; auto | reflexivity]).
Qed.

(** ** Updating a summary *)

(** X18: [update_meeting_summary] leaves the store alone and returns
    [False] when it is given neither a transcript nor metadata, and when
    the new summary of a transcript cannot be made, because the provider is
    not available or its call fails: the metadata given with the transcript
    is then not stored either. *)
Theorem update_without_summary_skips_store :
  forall (S : Type) (ai : AIProvider) (sm : Summarizers) (c : Collection S)
         (now now_db : Z) (meeting_id : string) (transcript : option string)
         (metadata : option dict) (ai_provider_name : string) (s : S),
    (given transcript = false /\ dict_truthy metadata = false)
    \/ (given transcript = true
        /\ exists e,
             generate_meeting_summary ai sm (get transcript "") ai_provider_name
             = Raise e) ->
    update_meeting_summary ai sm c now now_db meeting_id transcript metadata
                           ai_provider_name s
    = (false, s).
Proof.
  intros S ai sm c now now_db meeting_id transcript metadata name s H.
  unfold update_meeting_summary.
  destruct H as [[Ht Hm]|[Ht [e He]]]; rewrite Ht.
  - now rewrite Hm.
  - now rewrite He.
Qed.

Lemma update_without_summary_skips_store_witness :
  update_meeting_summary gemini_only fixed_summaries (logging_collection 1)
                         10 11 "MTG-010" (Some "We met again.")
                         (Some [("title", VStr "Budget, again")]) "openai" []
  = (false, []).
Proof.
  apply update_without_summary_skips_store.
  right. split; [reflexivity|]. eexists. reflexivity.
Defined.

(** X19: [update_meeting_summary] never changes a meeting. The name
    [datetime] is not bound in [app/database.py], so that
    [Database.update_meeting_summary] fails on its first statement, before
    [update_one], and returns [False] whatever the collection would have
    done; [SummaryGenerator.update_meeting_summary], which returns what the
    store returned when it has fields to send and [False] otherwise,
    returns [False] on every input and leaves the store as it was. *)
Theorem update_never_reaches_store :
  forall (S : Type) (ai : AIProvider) (sm : Summarizers) (c : Collection S)
         (now now_db : Z) (meeting_id : string) (transcript : option string)
         (metadata : option dict) (ai_provider_name : string) (s : S),
    bound "datetime" database_globals = false
    /\ (forall fields : dict,
          db_update_meeting_summary c now_db meeting_id fields s = (false, s))
    /\ update_meeting_summary ai sm c now now_db meeting_id transcript metadata
                              ai_provider_name s
       = (false, s).
Proof.
  intros S ai sm c now now_db meeting_id transcript metadata name s.
  split; [reflexivity|]. split; [reflexivity|].
  unfold update_meeting_summary.
  destruct (given transcript).
  - destruct (generate_meeting_summary ai sm _ name) as [ai_result|e];
      [|reflexivity].
    destruct (nonempty _); reflexivity.
  - destruct (nonempty _); reflexivity.
Qed.

(** A collection that would modify a record gets no call: a transcript
    with a provider that answers, and metadata, give [False] and an empty
    record of calls. *)
Example update_never_reaches_store_example :
  update_meeting_summary gemini_only fixed_summaries (logging_collection 1)
                         10 11 "MTG-010" (Some "We met again.")
                         (Some [("summary", VStr "Edited by hand")])
                         "gemini" []
  = (false, []).
Proof. reflexivity. Qed.

(** X20: [PUT /meetings/{meeting_id}] answers 400 without a transcript and
    404, the answer for a meeting that is not found, with one; it never
    answers 200, as the update of the store fails before it is sent, and
    the store is left as it was. *)
Theorem update_meeting_answers :
  forall (S : Type) (ai : AIProvider) (sm : Summarizers) (c : Collection S)
         (now now_db : Z) (meeting_id : string) (transcript : option string)
         (ai_provider : string) (s : S),
    let outcome :=
      update_meeting ai sm c now now_db meeting_id transcript ai_provider s in
    (given transcript = false ->
     outcome = (HttpError 400 "Transcript is required for update", s))
    /\ (given transcript = true ->
        outcome = (HttpError 404 "Meeting not found or update failed", s))
    /\ (forall body : string, fst outcome <> Http200 body)
    /\ snd outcome = s.
Proof.
  intros S ai sm c now now_db meeting_id transcript name s outcome.
  subst outcome. unfold update_meeting, update_meeting_summary.
  destruct (given transcript); cbn [negb].
  - assert (E : forall r : result dict,
               (let '(success, s') :=
                  match r with
                  | Ok update_data =>
                      if nonempty update_data
                      then db_update_meeting_summary c now_db meeting_id
                             (dict_set update_data "updated_at" (VTime now)) s
                      else (false, s)
                  | Raise _ => (false, s)
                  end in
                if negb success
                then (HttpError 404 "Meeting not found or update failed", s')
                else (Http200 "Meeting updated successfully", s'))
               = (HttpError 404 "Meeting not found or update failed", s)).
    { intros [update_data|e]; [|reflexivity].
      destruct (nonempty update_data); reflexivity. }
    cbn [dict_truthy]. cbv zeta.
    destruct (generate_meeting_summary ai sm _ name) as [ai_result|e].
    + rewrite (E (Ok _)). repeat split; try discriminate.
    + repeat split; try discriminate.
  - repeat split; try discriminate.
Qed.

(** ** Storing a summary *)

(** X21: [POST /meetings/upload] does not replace a provider that is not
    available, as [ask_question] does: it answers 500 with the error of the
    unavailable provider, also when the other provider is there, and
    nothing is stored. *)
Theorem upload_keeps_unavailable_provider :
  forall (S : Type) (ai : AIProvider) (sm : Summarizers) (c : Collection S)
         (clock : Clock) (now : Z) (transcript title : string)
         (participants : option value) (duration_minutes : Z)
         (ai_provider : string) (s : S),
    ~ In ai_provider (get_available_providers ai) ->
    upload_meeting ai sm c clock now transcript title participants
                   duration_minutes ai_provider s
    = (HttpError 500 ("Unsupported or unavailable AI provider: " ++ ai_provider), s).
Proof.
  intros S ai sm c clock now transcript title participants duration_minutes
         name s H.
  unfold upload_meeting, generate_and_store_summary.
  replace (generate_meeting_summary ai sm transcript name)
    with (@Raise dict (unavailable name)); [reflexivity|].
  unfold generate_meeting_summary, get_available_providers in *.
  destruct (openai_handler ai), (gemini_handler ai); cbn [present app In] in H;
    destruct (String.eqb_spec name "openai") as [E1|E1];
    destruct (String.eqb_spec name "gemini") as [E2|E2];
    cbn [andb present]; try reflexivity; exfalso; intuition congruence.
Qed.

Lemma upload_keeps_unavailable_provider_witness :
  upload_meeting gemini_only fixed_summaries (logging_collection 1) noon 5
                 "We met." "Budget review" None 60 "openai" []
  = (HttpError 500 "Unsupported or unavailable AI provider: openai", []).
Proof.
  apply (upload_keeps_unavailable_provider
           (list call) gemini_only fixed_summaries (logging_collection 1) noon 5
           "We met." "Budget review" None 60 "openai" []).
  vm_compute. intros [H|[]]. discriminate.
Defined.

(** X22: when the provider returns a summary, [POST /meetings/upload] sends
    one record to the store. Its id is always the generated one, MTG-
    followed by the time, its title, participants, duration and date are
    those of the request, the participants being the empty list when the
    form field could not be read, and its summary is that of the provider
    or the empty text; the store's id is not yet in it. The answer is 200
    with this record and the store's id when the store took it, and 500
    with the store's error when it did not. *)
Theorem upload_stores_summary :
  forall (S : Type) (ai : AIProvider) (sm : Summarizers) (c : Collection S)
         (clock : Clock) (now : Z) (transcript title : string)
         (participants : option value) (duration_minutes : Z)
         (ai_provider : string) (s : S) (ai_result : dict),
    generate_meeting_summary ai sm transcript ai_provider = Ok ai_result ->
    exists record : dict,
      dict_lookup record "meeting_id" = Some (VStr ("MTG-" ++ id_stamp clock))
      /\ dict_lookup record "title" = Some (VStr title)
      /\ dict_lookup record "participants" = Some (get participants (VList []))
      /\ dict_lookup record "duration_minutes" = Some (VInt duration_minutes)
      /\ dict_lookup record "date" = Some (VTime now)
      /\ dict_lookup record "transcript" = Some (VStr transcript)
      /\ dict_lookup record "summary"
         = Some (dict_get ai_result "summary" (VStr ""))
      /\ dict_lookup record "_id" = None
      /\ upload_meeting ai sm c clock now transcript title participants
                        duration_minutes ai_provider s
         = (match fst (insert_one c record s) with
            | Ok oid =>
                Http200 (mkUploadBody "Meeting summary generated successfully"
                                      (VStr ("MTG-" ++ id_stamp clock))
                                      (record ++ [("_id", VStr oid)])%list)
            | Raise e => HttpError 500 (str_exn e)
            end,
            snd (insert_one c record s)).
Proof.
  intros S ai sm c clock now transcript title participants duration_minutes
         name s ai_result Hgen.
  exists (meeting_data_of clock transcript
            [ ("title", VStr title);
              ("participants", get participants (VList []));
              ("duration_minutes", VInt duration_minutes);
              ("date", VTime now) ]
            ai_result).
  repeat (split; [reflexivity|]).
  unfold upload_meeting, generate_and_store_summary, db_insert_meeting_summary.
  rewrite Hgen. cbv zeta.
  destruct (insert_one c _ s) as [[oid|e] s']; reflexivity.
Qed.

Lemma upload_stores_summary_witness :
  exists record : dict,
    dict_lookup record "meeting_id" = Some (VStr "MTG-20240101-120000")
    /\ dict_lookup record "participants" = Some (VList [])
    /\ dict_lookup record "summary" = Some (VStr "The budget was agreed.")
    /\ upload_meeting gemini_only fixed_summaries (logging_collection 1) noon 5
                      "We met." "Budget review" None 60 "gemini" []
       = (Http200 (mkUploadBody "Meeting summary generated successfully"
                                (VStr "MTG-20240101-120000")
                                (record ++ [("_id", VStr "oid-1")])%list),
          [InsertOne record]).
Proof.
  destruct (upload_stores_summary
              (list call) gemini_only fixed_summaries (logging_collection 1)
              noon 5 "We met." "Budget review" None 60 "gemini" []
              budget_summary eq_refl)
    as [record [H1 [_ [H3 [_ [_ [_ [H7 [_ E]]]]]]]]].
  exists record. repeat split; assumption.
Defined.

(** ** Updating a document *)

(** X23: the answers of [PUT /documents/{doc_id}]. Tags or metadata that
    are given and are not JSON are answered with 400 and nothing is sent to
    the store, whatever the other fields; so is a request without any
    field. In every other case one update is sent for the document named:
    its fields are the fields given, an empty text included, read as JSON
    for tags and metadata, with the time of the store as [updated_at], a
    field that is not given is not sent, and the answer is 200 when the
    store modified a record and 404 when it did not or failed. *)
Theorem update_document_answers :
  forall (S : Type) (loads : string -> option value) (c : Collection S)
         (now : Z) (doc_id : string)
         (title content category tags metadata : option string) (s : S),
    let outcome :=
      update_document loads c now doc_id title content category tags metadata s in
    (present tags = true -> parsed loads tags = None ->
     outcome = (HttpError 400 "Invalid tags format", s))
    /\ (present metadata = true -> parsed loads metadata = None ->
        (present tags = true -> parsed loads tags <> None) ->
        outcome = (HttpError 400 "Invalid metadata format", s))
    /\ (present title || present content || present category
        || present tags || present metadata = false ->
        outcome = (HttpError 400 "No update data provided", s))
    /\ (present title || present content || present category
        || present tags || present metadata = true ->
        (present tags = true -> parsed loads tags <> None) ->
        (present metadata = true -> parsed loads metadata <> None) ->
        exists fields : dict,
          dict_lookup fields "title" = option_map VStr title
          /\ dict_lookup fields "content" = option_map VStr content
          /\ dict_lookup fields "category" = option_map VStr category
          /\ dict_lookup fields "tags" = parsed loads tags
          /\ dict_lookup fields "metadata" = parsed loads metadata
          /\ dict_lookup fields "updated_at" = Some (VTime now)
          /\ outcome
             = (match fst (update_one c doc_id fields s) with
                | Ok (Datatypes.S _) => Http200 "Document updated successfully"
                | _ => HttpError 404 "Document not found or update failed"
                end,
                snd (update_one c doc_id fields s))).
Proof.
  intros S loads c now doc_id title content category tags metadata s outcome.
  subst outcome. unfold update_document.
  split; [|split; [|split]].
  - intros Hp Hl. destruct tags as [t|]; [|discriminate].
    cbn [parsed] in Hl. cbn [set_parsed]. now rewrite Hl.
  - intros Hp Hl Ht. destruct metadata as [m|]; [|discriminate].
    cbn [parsed] in Hl.
    destruct tags as [t|]; cbn [set_parsed].
    + destruct (loads t) eqn:Et.
      * cbn [set_parsed]. now rewrite Hl.
      * exfalso. now apply (Ht eq_refl).
    + now rewrite Hl.
  - intros H.
    destruct title, content, category, tags, metadata; try discriminate.
    reflexivity.
  - intros Hany Ht Hm.
    assert (Et : exists vt, parsed loads tags = vt
                            /\ (present tags = true -> vt <> None)).
    { eexists. split; [reflexivity | exact Ht]. }
    assert (Em : exists vm, parsed loads metadata = vm
                            /\ (present metadata = true -> vm <> None)).
    { eexists. split; [reflexivity | exact Hm]. }
    destruct Et as [vt [Et Hvt]]. destruct Em as [vm [Em Hvm]].
    rewrite Et, Em. clear Ht Hm.
    destruct tags as [t|]; cbn [parsed present] in Et, Hvt; cbn [set_parsed];
      [destruct (loads t) as [tv|]; [|exfalso; subst; now apply Hvt]|];
      (destruct metadata as [m|]; cbn [parsed present] in Em, Hvm;
       cbn [set_parsed];
       [destruct (loads m) as [mv|]; [|exfalso; subst; now apply Hvm]|]);
      subst vt vm;
      destruct title, content, category; try discriminate;
      cbn [set_given]; cbv zeta;
      (match goal with
       | |- context [db_update_document c now doc_id ?d s] =>
           exists (dict_set d "updated_at" (VTime now))
       end;
       repeat (split; [reflexivity|]);
       unfold db_update_document;
       destruct (update_one c doc_id _ s) as [[[|n]|e] s']; reflexivity).
Qed.

(** ** The handlers *)

Lemma rstrip_idempotent (s : string) :
  PyStr.rstrip (PyStr.rstrip s) = PyStr.rstrip s.
Proof.
  induction s as [|c s IH]; [reflexivity|].
  rewrite rstrip_cons.
  destruct (PyStr.rstrip s) as [|a r] eqn:E.
  - destruct (PyStr.is_space c) eqn:Ec; [reflexivity|].
    rewrite rstrip_cons. cbn [PyStr.rstrip]. now rewrite Ec.
  - rewrite rstrip_cons, IH. reflexivity.
Qed.

Lemma lstrip_idempotent (s : string) :
  PyStr.lstrip (PyStr.lstrip s) = PyStr.lstrip s.
Proof.
  induction s as [|c s IH]; [reflexivity|].
  cbn [PyStr.lstrip].
  destruct (PyStr.is_space c) eqn:E; [exact IH|].
  cbn [PyStr.lstrip]. now rewrite E.
Qed.

Lemma rstrip_lstrip (s : string) :
  PyStr.rstrip (PyStr.lstrip s) = PyStr.lstrip (PyStr.rstrip s).
Proof.
  induction s as [|c s IH]; [reflexivity|].
  cbn [PyStr.lstrip]. rewrite rstrip_cons.
  destruct (PyStr.is_space c) eqn:Ec.
  - rewrite IH.
    destruct (PyStr.rstrip s) as [|a r]; [reflexivity|].
    cbn [PyStr.lstrip]. now rewrite Ec.
  - rewrite rstrip_cons.
    destruct (PyStr.rstrip s) as [|a r]; cbn [PyStr.lstrip]; now rewrite Ec.
Qed.

(** [s.strip().strip() == s.strip()] *)
Lemma strip_idempotent (s : string) :
  PyStr.strip (PyStr.strip s) = PyStr.strip s.
Proof.
  unfold PyStr.strip.
  now rewrite rstrip_lstrip, rstrip_idempotent, lstrip_idempotent.
Qed.

Lemma blank_empty_or_spaces (context : string) :
  blank context = true <-> PyStr.strip context = "".
Proof.
  unfold blank. destruct context as [|c s]; [now split|].
  cbn [PyStr.truthy negb orb]. apply String.eqb_eq.
Qed.

(** X24: the two handlers return the text of the model without white space
    at its ends, and raise what the call to the model raises. The prompt of
    either contains the question. That of OpenAI always contains the
    context, empty or not; that of Gemini contains the context when it has
    a character that is not white space, and else is the prompt for an
    answer from general knowledge, the same for every empty or blank
    context. *)
Theorem handlers_prompts_and_answers :
  forall (model : string -> result string) (prompt context : string),
    (forall text,
        model (openai_full_prompt prompt context) = Ok text ->
        exists a,
          OpenAIHandler_generate_response model prompt context = Ok a
          /\ a = PyStr.strip text /\ PyStr.strip a = a)
    /\ (forall text,
           model (gemini_full_prompt prompt context) = Ok text ->
           exists a,
             GeminiHandler_generate_response model prompt context = Ok a
             /\ a = PyStr.strip text /\ PyStr.strip a = a)
    /\ (forall e,
           model (openai_full_prompt prompt context) = Raise e ->
           OpenAIHandler_generate_response model prompt context = Raise e)
    /\ (forall e,
           model (gemini_full_prompt prompt context) = Raise e ->
           GeminiHandler_generate_response model prompt context = Raise e)
    /\ occurs_in prompt (openai_full_prompt prompt context)
    /\ occurs_in context (openai_full_prompt prompt context)
    /\ occurs_in prompt (gemini_full_prompt prompt context)
    /\ (PyStr.strip context <> "" ->
        occurs_in context (gemini_full_prompt prompt context))
    /\ (PyStr.strip context = "" ->
        gemini_full_prompt prompt context = gemini_general_prompt prompt).
Proof.
  intros model prompt context.
  repeat split.
  - intros text H. exists (PyStr.strip text).
    unfold OpenAIHandler_generate_response. rewrite H.
    repeat split. apply strip_idempotent.
  - intros text H. exists (PyStr.strip text).
    unfold GeminiHandler_generate_response. rewrite H.
    repeat split. apply strip_idempotent.
  - intros e H. unfold OpenAIHandler_generate_response. now rewrite H.
  - intros e H. unfold GeminiHandler_generate_response. now rewrite H.
  - unfold openai_full_prompt.
    do 5 apply occurs_in_app_r. apply occurs_in_head.
  - unfold openai_full_prompt.
    apply occurs_in_app_r. apply occurs_in_head.
  - unfold gemini_full_prompt, gemini_general_prompt, gemini_context_prompt.
    destruct (blank context).
    + do 4 apply occurs_in_app_r. apply occurs_in_head.
    + do 9 apply occurs_in_app_r. apply occurs_in_head.
  - intros H. unfold gemini_full_prompt, gemini_context_prompt.
    destruct (blank context) eqn:E.
    + apply blank_empty_or_spaces in E. contradiction.
    + do 5 apply occurs_in_app_r. apply occurs_in_head.
  - intros H. unfold gemini_full_prompt.
    apply blank_empty_or_spaces in H. now rewrite H.
Qed.

Lemma validated_provider_gemini_over
    (model : string -> result string) (q : ChatQuery) :
  validated_provider (gemini_over model) q = "gemini".
Proof.
  unfold validated_provider, gemini_over, get_available_providers.
  cbn [openai_handler gemini_handler present app existsb hd orb].
  destruct (q_ai_provider q =? "gemini") eqn:E; [|reflexivity].
  cbn [orb]. now apply String.eqb_eq.
Qed.

(** X25: with the Gemini handler as the only provider, [ask_question]
    calls the model once, whatever provider the query names. When no
    context was assembled the model gets the prompt for an answer from
    general knowledge, with the question and the note that no context was
    found, and the response has no sources and confidence 0.3; otherwise
    it gets the prompt with the whole context and the question, and the
    response has the sources. The answer is the text of the model without
    white space at its ends, and a failure of the call gives the error
    response. *)
Theorem gemini_asked_with_context_or_note :
  forall (model : string -> result string) (settings : Settings)
         (db : Database) (q : ChatQuery),
    let context := _build_context settings db q in
    let response := ask_question settings db (gemini_over model) q in
    exists full_prompt : string,
      occurs_in (question q) full_prompt
      /\ (context = "" ->
          full_prompt = gemini_general_prompt (question q ++ no_context_note))
      /\ (context <> "" ->
          full_prompt = gemini_context_prompt (question q) context
          /\ occurs_in context full_prompt)
      /\ match model full_prompt with
         | Ok text =>
             answer response = PyStr.strip text
             /\ PyStr.strip (answer response) = answer response
             /\ ai_provider response = "gemini"
             /\ sources response = _get_source_meetings settings db q
             /\ (context = "" -> confidence response = 0.3%float)
             /\ (context <> "" ->
                 confidence response
                 = _calculate_confidence (PyStr.strip text) (question q))
         | Raise e => response = error_response e "gemini"
         end.
Proof.
  intros model settings db q context response. subst context response.
  unfold ask_question. rewrite validated_provider_gemini_over.
  destruct (build_context_parts settings db q) as [[Hparts Hc]|[Hparts Hc]].
  - rewrite Hc. change (blank "") with true. cbv iota.
    exists (gemini_general_prompt (question q ++ no_context_note)).
    split.
    { unfold gemini_general_prompt.
      do 4 apply occurs_in_app_r. apply occurs_in_app_l, occurs_in_head. }
    split; [reflexivity|]. split; [intros H; now elim H|].
    change (get_response (gemini_over model) (question q ++ no_context_note)
                         "" "gemini")
      with (GeminiHandler_generate_response model
              (question q ++ no_context_note) "").
    unfold GeminiHandler_generate_response.
    change (gemini_full_prompt (question q ++ no_context_note) "")
      with (gemini_general_prompt (question q ++ no_context_note)).
    destruct (model _) as [text|e]; [|reflexivity].
    cbn [answer ai_provider sources confidence].
    split; [reflexivity|]. split; [apply strip_idempotent|].
    split; [reflexivity|].
    split; [symmetry; now apply sources_context_parts|].
    split; [reflexivity | intros H; now elim H].
  - destruct (starts_solid_not_blank _ Hc) as [Hne Hb].
    rewrite Hb.
    exists (gemini_context_prompt (question q) (_build_context settings db q)).
    split.
    { unfold gemini_context_prompt.
      do 9 apply occurs_in_app_r. apply occurs_in_head. }
    split; [intros H; contradiction|].
    split.
    { intros _. split; [reflexivity|]. unfold gemini_context_prompt.
      do 5 apply occurs_in_app_r. apply occurs_in_head. }
    change (get_response (gemini_over model) (question q)
                         (_build_context settings db q) "gemini")
      with (GeminiHandler_generate_response model (question q)
              (_build_context settings db q)).
    unfold GeminiHandler_generate_response, gemini_full_prompt. rewrite Hb.
    destruct (model _) as [text|e]; [|reflexivity].
    cbn [answer ai_provider sources confidence].
    split; [reflexivity|]. split; [apply strip_idempotent|].
    split; [reflexivity|]. split; [reflexivity|].
    split; [intros H; contradiction | reflexivity].
Qed.

(** ** The summary of Gemini *)

Lemma from_first_spec (c : ascii) (s : string) :
  match from_first c s with
  | Some rest =>
      exists before tail,
        s = before ++ rest /\ without c before = true /\ rest = String c tail
  | None => without c s = true
  end.
Proof.
  induction s as [|a s IH]; [reflexivity|].
  cbn [from_first].
  destruct (Ascii.eqb a c) eqn:E.
  - apply Ascii.eqb_eq in E. subst a. now exists "", s.
  - destruct (from_first c s) as [rest|].
    + destruct IH as [before [tail [Hs [Hb Hr]]]].
      exists (String a before), tail.
      split; [cbn [append]; now rewrite <- Hs|].
      split; [|exact Hr].
      unfold without in *. cbn [all_chars]. now rewrite E, Hb.
    + unfold without in *. cbn [all_chars]. now rewrite E, IH.
Qed.

Lemma through_last_spec (c : ascii) (s : string) :
  match through_last c s with
  | Some r =>
      exists body after,
        r = body ++ String c "" /\ s = r ++ after /\ without c after = true
  | None => without c s = true
  end.
Proof.
  induction s as [|a s IH]; [reflexivity|].
  cbn [through_last].
  destruct (through_last c s) as [r|].
  - destruct IH as [body [after [Hr [Hs Ha]]]].
    exists (String a body), after.
    split; [cbn [append]; now rewrite <- Hr|].
    split; [cbn [append]; now rewrite <- Hs | exact Ha].
  - destruct (Ascii.eqb a c) eqn:E.
    + apply Ascii.eqb_eq in E. subst a.
      exists "", s. repeat split. exact IH.
    + unfold without in *. cbn [all_chars]. now rewrite E, IH.
Qed.

Lemma preview500_length (text : string) :
  (String.length (preview500 text) <= 503)%nat.
Proof.
  unfold preview500.
  destruct (500 <? String.length text)%nat eqn:E.
  - apply Nat.ltb_lt in E.
    rewrite length_append, length_take by lia. cbn [String.length]. lia.
  - apply Nat.ltb_ge in E. lia.
Qed.

(** X26: what [GeminiHandler.generate_summary] makes of the text of the
    model. When the text has an opening brace with a closing brace after
    it, the part from the first opening brace to the last closing brace is
    read as JSON and the result, or the failure, of the reading is
    returned; the text before and after that part is dropped. When it has
    not, the summary is the text itself, cut to 500 characters and marked
    with three dots when it is longer, and the lists of key points, action
    items, decisions and tags are empty; [json.loads] is not called. *)
Theorem gemini_summary_of_text :
  forall (model : string -> result string) (loads : string -> result dict)
         (transcript text : string),
    model (gemini_summary_prompt transcript) = Ok text ->
    (exists before inside after,
        text = before ++ (String open_brace inside ++ String close_brace "") ++ after
        /\ without open_brace before = true
        /\ without close_brace after = true
        /\ GeminiHandler_generate_summary model loads transcript
           = loads (String open_brace inside ++ String close_brace ""))
    \/ ((without open_brace text = true
         \/ exists before rest,
              text = before ++ String open_brace rest
              /\ without close_brace rest = true)
        /\ GeminiHandler_generate_summary model loads transcript
           = Ok (fallback_summary text)
        /\ dict_lookup (fallback_summary text) "summary"
           = Some (VStr (preview500 text))
        /\ (String.length (preview500 text) <= 503)%nat
        /\ (String.length text <= 500 -> preview500 text = text)%nat).
Proof.
  intros model loads transcript text Hmodel.
  unfold GeminiHandler_generate_summary. rewrite Hmodel.
  unfold json_match.
  pose proof (from_first_spec open_brace text) as Hf.
  destruct (from_first open_brace text) as [rest|].
  - destruct Hf as [before [tail [Ht [Hb Hr]]]].
    pose proof (through_last_spec close_brace rest) as Hl.
    destruct (through_last close_brace rest) as [r|].
    + left. destruct Hl as [body [after [Hbody [Hrest Ha]]]].
      assert (Hinside : exists inside, body = String open_brace inside).
      { destruct body as [|b body].
        - exfalso. rewrite Hbody in Hrest. rewrite Hr in Hrest.
          cbn [append] in Hrest. injection Hrest as Hc _. discriminate.
        - exists body. rewrite Hbody in Hrest. rewrite Hr in Hrest.
          cbn [append] in Hrest. injection Hrest as Hc _. now subst b. }
      destruct Hinside as [inside ->].
      exists before, inside, after.
      split; [now rewrite Ht, Hrest, Hbody|].
      split; [exact Hb|]. split; [exact Ha|].
      now rewrite Hbody.
    + right. split.
      { right. exists before, tail. split; [now rewrite Ht, Hr|].
        subst rest. unfold without in Hl. cbn [all_chars] in Hl.
        apply andb_true_iff in Hl. apply Hl. }
      split; [reflexivity|]. split; [reflexivity|].
      split; [apply preview500_length|].
      intros H. unfold preview500.
      destruct (500 <? String.length text)%nat eqn:E; [|reflexivity].
      apply Nat.ltb_lt in E. lia.
  - right. split; [now left|].
    split; [reflexivity|]. split; [reflexivity|].
    split; [apply preview500_length|].
    intros H. unfold preview500.
    destruct (500 <? String.length text)%nat eqn:E; [|reflexivity].
    apply Nat.ltb_lt in E. lia.
Qed.

Lemma gemini_summary_of_text_witness :
  (exists before inside after,
      "Summary: {} and {} again"
      = before ++ (String open_brace inside ++ String close_brace "") ++ after
      /\ without open_brace before = true
      /\ without close_brace after = true
      /\ GeminiHandler_generate_summary
           (fun _ => Ok "Summary: {} and {} again")
           (fun json => Ok [("summary", VStr json)]) "We met."
         = Ok [("summary", VStr (String open_brace inside ++ String close_brace ""))])
  \/ ((without open_brace "Summary: {} and {} again" = true
       \/ exists before rest,
            "Summary: {} and {} again" = before ++ String open_brace rest
            /\ without close_brace rest = true)
      /\ GeminiHandler_generate_summary
           (fun _ => Ok "Summary: {} and {} again")
           (fun json => Ok [("summary", VStr json)]) "We met."
         = Ok (fallback_summary "Summary: {} and {} again")
      /\ dict_lookup (fallback_summary "Summary: {} and {} again") "summary"
         = Some (VStr (preview500 "Summary: {} and {} again"))
      /\ (String.length (preview500 "Summary: {} and {} again") <= 503)%nat
      /\ (String.length "Summary: {} and {} again" <= 500 ->
          preview500 "Summary: {} and {} again" = "Summary: {} and {} again")%nat).
Proof.
  apply (gemini_summary_of_text
           (fun _ => Ok "Summary: {} and {} again")
           (fun json => Ok [("summary", VStr json)])
           "We met." "Summary: {} and {} again").
  reflexivity.
Defined.
